(** * Excel Active Directory Portal: employee and department tables

    A shallow embedding of the table operations of
    [streamlit_ad_portal_app.py]: the identifier allocators, the Quick Add
    and department forms, the bulk activation, the bulk import commit, the
    department synchronisation and the department management batch.

    Data frames are lists of rows in positional order.  A cell of the
    Employees sheet is what pandas hands back for an Excel cell: missing,
    an integer, a float or a text.  The Departments sheet is text throughout, since
    [read_workbook] casts its three columns with [astype(str)] and every
    row the application appends is built from [str] values.  The clock
    ([datetime.utcnow().isoformat()]) is an argument [now] of each
    operation that stamps a row. *)

From Stdlib Require Import String Ascii ZArith List Bool Lia DecimalString.
From Stdlib Require DecimalZ DecimalPos.
Import ListNotations.

Local Open Scope string_scope.
Local Open Scope list_scope.
Local Open Scope Z_scope.

(** ** Python and pandas primitives *)

Module Py.

(** A cell.  [Num z] is an integer, as in a numeric column without blanks
    or in an object column; [Flt z] is the float of whole value [z], as
    every number of a numeric column with a blank is once pandas has read
    it ([float64]), and as it stays when the column later takes texts.
    Floats that are not whole numbers, or of sixteen digits and more, are
    outside the model. *)
Inductive cell : Type :=
| NaN
| Num (z : Z)
| Flt (z : Z)
| Str (s : string).

Definition cell_eqb (a b : cell) : bool :=
  match a, b with
  | Num x, Num y => Z.eqb x y
  | Flt x, Flt y => Z.eqb x y
  | Num x, Flt y => Z.eqb x y
  | Flt x, Num y => Z.eqb x y
  | Str s, Str t => String.eqb s t
  | _, _ => false
  end.

(** [str(int)] *)
Definition str_of_Z (z : Z) : string := NilZero.string_of_int (Z.to_int z).

(** [str(float)] for a float of whole value: [1001.0] *)
Definition str_of_float (z : Z) : string := str_of_Z z ++ ".0".

(** [Series.astype(str)], cell by cell *)
Definition astype_str (c : cell) : string :=
  match c with
  | NaN => "nan"
  | Num z => str_of_Z z
  | Flt z => str_of_float z
  | Str s => s
  end.

(** [series == s] for a text [s]: a missing or numeric cell never equals a
    text. *)
Definition eq_str (c : cell) (s : string) : bool :=
  match c with
  | Str t => String.eqb t s
  | _ => false
  end.

(** The ASCII characters [str.strip()] removes. *)
Definition is_space (c : ascii) : bool :=
  let n := nat_of_ascii c in
  (((9 <=? n) && (n <=? 13)) || ((28 <=? n) && (n <=? 32)))%nat.

Fixpoint lstrip (s : string) : string :=
  match s with
  | EmptyString => EmptyString
  | String c t => if is_space c then lstrip t else s
  end.

Fixpoint rstrip (s : string) : string :=
  match s with
  | EmptyString => EmptyString
  | String c t =>
      match rstrip t with
      | EmptyString => if is_space c then EmptyString else String c EmptyString
      | t' => String c t'
      end
  end.

Definition strip (s : string) : string := rstrip (lstrip s).

(** [str.lower()] on ASCII letters. *)
Definition lower_ascii (c : ascii) : ascii :=
  let n := nat_of_ascii c in
  if ((65 <=? n) && (n <=? 90))%nat then ascii_of_nat (n + 32) else c.

Fixpoint lower (s : string) : string :=
  match s with
  | EmptyString => EmptyString
  | String c t => String (lower_ascii c) (lower t)
  end.

(** Truth value of a text: [if s:] *)
Definition truthy (s : string) : bool := negb (String.eqb s "").

Definition digit_val (c : ascii) : option Z :=
  let n := nat_of_ascii c in
  if ((48 <=? n) && (n <=? 57))%nat then Some (Z.of_nat (n - 48)) else None.

Definition is_digit (c : ascii) : bool :=
  match digit_val c with Some _ => true | None => false end.

(** The digits of an integer literal as [int()] reads them: decimal
    digits, single underscores allowed between two digits.  [acc] is the
    value read so far and [prev] tells whether the previous character was
    a digit. *)
Fixpoint int_digits (s : string) (acc : Z) (prev : bool) : option Z :=
  match s with
  | EmptyString => if prev then Some acc else None
  | String c t =>
      match digit_val c with
      | Some d => int_digits t (10 * acc + d) true
      | None =>
          if (Ascii.eqb c "_" && prev)%bool then int_digits t acc false
          else None
      end
  end.

(** [int(s)] for a text; [None] stands for [ValueError]. *)
Definition int_of_str (s : string) : option Z :=
  match strip s with
  | String "-" t => option_map Z.opp (int_digits t 0 false)
  | String "+" t => int_digits t 0 false
  | t => int_digits t 0 false
  end.

(** [int(x)] for a cell that is not missing. *)
Definition int_of_cell (c : cell) : option Z :=
  match c with
  | NaN => None
  | Num z => Some z
  | Flt z => Some z
  | Str s => int_of_str s
  end.

(** [Series.dropna()] *)
Definition dropna (l : list cell) : list cell :=
  filter (fun c => match c with NaN => false | _ => true end) l.

(** Python's [max] of two cells of an object column; [None] stands for the
    [TypeError] of comparing a number with a text. *)
Definition cell_max (a b : cell) : option cell :=
  match a, b with
  | Num x, Num y => Some (Num (Z.max x y))
  | Num x, Flt y => Some (if x <? y then Flt y else Num x)
  | Flt x, Num y => Some (if x <? y then Num y else Flt x)
  | Flt x, Flt y => Some (Flt (Z.max x y))
  | Str s, Str t => Some (if String.ltb s t then Str t else Str s)
  | _, _ => None
  end.

Fixpoint max_from (m : cell) (l : list cell) : option cell :=
  match l with
  | [] => Some m
  | c :: l' =>
      match cell_max m c with
      | Some m' => max_from m' l'
      | None => None
      end
  end.

(** [Series.max()] of a series without missing values. *)
Definition series_max (l : list cell) : option cell :=
  match l with
  | [] => None
  | c :: l' => max_from c l'
  end.

(** The run of digits the pattern [(\d+)] captures first, if any. *)
Fixpoint take_digits (s : string) : string :=
  match s with
  | EmptyString => EmptyString
  | String c t => if is_digit c then String c (take_digits t) else EmptyString
  end.

Fixpoint extract_digits (s : string) : option string :=
  match s with
  | EmptyString => None
  | String c t => if is_digit c then Some (take_digits s) else extract_digits t
  end.

(** Value of a run of decimal digits. *)
Fixpoint digits_val (s : string) (acc : Z) : Z :=
  match s with
  | EmptyString => acc
  | String c t =>
      match digit_val c with
      | Some d => digits_val t (10 * acc + d)
      | None => acc
      end
  end.

Definition int64_max : Z := 2 ^ 63 - 1.

(** Two's complement wrap-around of a 64-bit addition. *)
Definition wrap64 (z : Z) : Z := (z + 2 ^ 63) mod 2 ^ 64 - 2 ^ 63.

End Py.

Import Py.

(** ** The two tables *)

(** A row of the Employees sheet, in the order of [EMP_COLUMNS]. *)
Record Employee : Type := mkEmployee {
  Row_ID : cell;
  Employee_ID : cell;
  Name : cell;
  Extension : cell;
  Department : cell;
  Cell_Number : cell;
  Location : cell;
  Status : cell;
  Notes : cell;
  Last_Updated : cell
}.

(** A row of the Departments sheet, in the order of [DEPT_COLUMNS]. *)
Record Dept : Type := mkDept {
  Dept_ID : string;
  Department_Name : string;
  Description : string
}.

(** [st.session_state.df_emp] and [st.session_state.df_dept] *)
Record State : Type := mkState {
  df_emp : list Employee;
  df_dept : list Dept
}.

Definition set_Department (v : cell) (r : Employee) : Employee :=
  mkEmployee (Row_ID r) (Employee_ID r) (Name r) (Extension r) v
             (Cell_Number r) (Location r) (Status r) (Notes r) (Last_Updated r).

Definition set_Status (v : cell) (r : Employee) : Employee :=
  mkEmployee (Row_ID r) (Employee_ID r) (Name r) (Extension r) (Department r)
             (Cell_Number r) (Location r) v (Notes r) (Last_Updated r).

Definition set_Last_Updated (v : cell) (r : Employee) : Employee :=
  mkEmployee (Row_ID r) (Employee_ID r) (Name r) (Extension r) (Department r)
             (Cell_Number r) (Location r) (Status r) (Notes r) v.

(** [df.loc[mask, col] = v]: the rows selected by [mask] are rewritten by
    [f], the others stay. *)
Definition loc_set {A : Type} (mask : A -> bool) (f : A -> A) (df : list A)
  : list A :=
  map (fun r => if mask r then f r else r) df.

(** ** Identifier allocators *)

(** [next_row_id] *)
Definition next_row_id (df : list Employee) : Z :=
  match df with
  | [] => 1
  | _ =>
      let existing := dropna (map Row_ID df) in
      match existing with
      | [] => 1
      | _ =>
          match series_max existing with
          | Some m =>
              match int_of_cell m with
              | Some z => z + 1
              | None => Z.of_nat (length df) + 1
              end
          | None => Z.of_nat (length df) + 1
          end
      end
  end.

(** [next_dept_id] *)
Definition next_dept_id (df : list Dept) : string :=
  let existing :=
    flat_map (fun d => match extract_digits (Dept_ID d) with
                       | Some s => [digits_val s 0]
                       | None => []
                       end) df in
  match existing with
  | [] => "1"
  | n :: ns =>
      if forallb (fun z => z <=? int64_max) existing
      then str_of_Z (wrap64 (fold_left Z.max ns n + 1))
      else str_of_Z (Z.of_nat (length df) + 1)
  end.

(** ** Outcome of a user action *)

(** What the page reports after a button press. *)
Inductive report : Type :=
| Success
| Info_nothing_to_do
| Err_name_required
| Err_extension_required
| Err_employee_id_exists (eid : string)
| Err_dept_name_required
| Err_dept_exists (name : string)
| Err_incomplete (names : list string)
| Err_cannot_delete (emp_count : nat)
| Exn_key_error.

Definition rejected (r : report) : bool :=
  match r with
  | Success | Info_nothing_to_do => false
  | _ => true
  end.

(** [x in series.values] for a text [x] *)
Definition in_values (x : string) (values : list string) : bool :=
  existsb (String.eqb x) values.

(** ** Sidebar: Activate All Inactive *)

Definition is_inactive (r : Employee) : bool := eq_str (Status r) "Inactive".
Definition is_active (r : Employee) : bool := eq_str (Status r) "Active".

Definition activate_all_inactive (now : string) (st : State) : State * report :=
  let inactive_count := length (filter is_inactive (df_emp st)) in
  if (0 <? inactive_count)%nat then
    let flipped := loc_set is_inactive (set_Status (Str "Active")) (df_emp st) in
    let stamped := loc_set is_active (set_Last_Updated (Str now)) flipped in
    (mkState stamped (df_dept st), Success)
  else (st, Info_nothing_to_do).

(** ** Quick Add: [add_emp_form] *)

Record EmpForm : Type := mkEmpForm {
  new_empid : string;
  new_name : string;
  new_extension : string;
  new_department : string;
  new_cell : string;
  new_location : string;
  new_status : string;
  new_notes : string
}.

(** [str(x).strip() if x and str(x).strip() else ""] *)
Definition strip_or_empty (x : string) : string :=
  if (truthy x && truthy (strip x))%bool then strip x else "".

Definition add_emp_row (row_id : Z) (eid now : string) (f : EmpForm) : Employee :=
  mkEmployee (Num row_id) (Str eid) (Str (new_name f)) (Str (new_extension f))
             (Str (new_department f)) (Str (strip_or_empty (new_cell f)))
             (Str (strip_or_empty (new_location f))) (Str (new_status f))
             (Str (strip_or_empty (new_notes f))) (Str now).

Definition add_emp_form (now : string) (f : EmpForm) (st : State)
  : State * report :=
  if negb (truthy (new_name f)) then (st, Err_name_required)
  else if negb (truthy (new_extension f)) then (st, Err_extension_required)
  else
    let eid := if truthy (strip (new_empid f)) then strip (new_empid f) else "" in
    if (truthy eid
        && in_values eid (map (fun r => astype_str (Employee_ID r)) (df_emp st)))%bool
    then (st, Err_employee_id_exists eid)
    else
      let row_id := next_row_id (df_emp st) in
      (mkState (df_emp st ++ [add_emp_row row_id eid now f]) (df_dept st),
       Success).

(** ** Add Department: [add_dept_form] *)

Definition add_dept_form (dname ddesc : string) (st : State) : State * report :=
  if negb (truthy (strip dname)) then (st, Err_dept_name_required)
  else if in_values (lower (strip dname))
                    (map (fun d => lower (Department_Name d)) (df_dept st))
  then (st, Err_dept_exists (strip dname))
  else
    let did := next_dept_id (df_dept st) in
    (mkState (df_emp st)
             (df_dept st ++ [mkDept did (strip dname) (strip ddesc)]),
     Success).

(** ** Edit / Delete Department: [edit_dept_form] *)

(** [df.at[idx, ...] = ...] on the row at position [idx] *)
Fixpoint at_set {A : Type} (idx : nat) (f : A -> A) (df : list A) : list A :=
  match df, idx with
  | [], _ => []
  | r :: df', O => f r :: df'
  | r :: df', S i => r :: at_set i f df'
  end.

(** [df.drop(index=idx).reset_index(drop=True)] *)
Fixpoint drop_index {A : Type} (idx : nat) (df : list A) : list A :=
  match df, idx with
  | [], _ => []
  | _ :: df', O => df'
  | r :: df', S i => r :: drop_index i df'
  end.

(** The Save button.  The form is only drawn when [idx] is in the index of
    the table; otherwise nothing happens. *)
Definition edit_dept_save (idx : nat) (dn dd : string) (st : State)
  : State * report :=
  match nth_error (df_dept st) idx with
  | None => (st, Info_nothing_to_do)
  | Some row =>
      let old_dept_name := Department_Name row in
      if negb (truthy (strip dn)) then (st, Err_dept_name_required)
      else if (negb (String.eqb (lower (strip dn)) (lower old_dept_name))
               && in_values (lower (strip dn))
                    (map (fun d => lower (Department_Name d)) (df_dept st)))%bool
      then (st, Err_dept_exists (strip dn))
      else
        let depts :=
          at_set idx (fun d => mkDept (Dept_ID d) (strip dn)
                                 (if truthy (strip dd) then strip dd else ""))
                 (df_dept st) in
        let emps :=
          if negb (String.eqb old_dept_name (strip dn))
          then loc_set (fun r => eq_str (Department r) old_dept_name)
                       (set_Department (Str (strip dn))) (df_emp st)
          else df_emp st in
        (mkState emps depts, Success)
  end.


(** ** Bulk upload *)

(** A Python dict with text keys, in insertion order. *)
Fixpoint dict_get {V : Type} (k : string) (d : list (string * V)) : option V :=
  match d with
  | [] => None
  | (k', v) :: d' => if String.eqb k k' then Some v else dict_get k d'
  end.

(** [d[k] = v]: an existing key keeps its place, a new one goes last. *)
Fixpoint dict_set {V : Type} (k : string) (v : V) (d : list (string * V))
  : list (string * V) :=
  match d with
  | [] => [(k, v)]
  | (k', v') :: d' =>
      if String.eqb k k' then (k, v) :: d' else (k', v') :: dict_set k v d'
  end.

(** An entry of [bulk_dept_actions]. *)
Inductive bulk_dept_action : Type :=
| Bulk_create (description : string)
| Bulk_map (target : string)
| Bulk_skip.

(** A row of the uploaded file: the cell under each file column. *)
Definition FileRow : Type := string -> cell.

(** The value of a system column after the mapping loop and the defaults
    loop; [None] when the column is neither mapped nor given a default.
    The keys of both dicts are among the eight importable columns. *)
Definition mapped_value (mapping defaults : list (string * string))
           (row : FileRow) (sys_col : string) : option string :=
  match dict_get sys_col defaults with
  | Some default_value => Some default_value
  | None =>
      match dict_get sys_col mapping with
      | Some file_col =>
          Some (strip (match row file_col with
                       | NaN => ""
                       | c => astype_str c
                       end))
      | None => None
      end
  end.

(** Truth value of a cell that is not missing. *)
Definition cell_truthy (c : cell) : bool :=
  match c with
  | NaN => true
  | Num z => negb (Z.eqb z 0)
  | Flt z => negb (Z.eqb z 0)
  | Str s => truthy s
  end.

(** Step 4 of the upload page: the department a file row asks for. *)
Definition import_department (mapping defaults : list (string * string))
           (row : FileRow) : option string :=
  let dept_value :=
    match dict_get "Department" defaults with
    | Some d => Some (Str d)
    | None =>
        match dict_get "Department" mapping with
        | Some file_col =>
            match row file_col with
            | NaN => None
            | c => Some c
            end
        | None => None
        end
    end in
  match dept_value with
  | Some c =>
      if (cell_truthy c && truthy (strip (astype_str c)))%bool
      then Some (strip (astype_str c))
      else None
  | None => None
  end.

(** [missing_departments]: the departments of the file that no row of the
    Departments sheet names, by exact comparison of the trimmed names. *)
Definition missing_departments (mapping defaults : list (string * string))
           (bulk_df : list FileRow) (st : State) : list string :=
  let import_departments :=
    flat_map (fun row => match import_department mapping defaults row with
                         | Some d => [d]
                         | None => []
                         end) bulk_df in
  let existing_dept_names :=
    map (fun d => strip (Department_Name d)) (df_dept st) in
  nodup string_dec
        (filter (fun d => negb (in_values d existing_dept_names))
                import_departments).

(** The dict [new_emp] once every column of [EMP_COLUMNS] is filled. *)
Record NewEmp : Type := mkNewEmp {
  ne_Row_ID : Z;
  File_Row : Z;
  ne_Employee_ID : string;
  ne_Name : string;
  ne_Extension : string;
  ne_Department : string;
  ne_Cell_Number : string;
  ne_Location : string;
  ne_Status : string;
  ne_Notes : string;
  ne_Last_Updated : string
}.

Definition or_empty (o : option string) : string :=
  match o with Some s => s | None => "" end.

Definition build_new_emp (mapping defaults : list (string * string))
           (bulk_dept_actions : list (string * bulk_dept_action))
           (now : string) (row_id file_row : Z) (row : FileRow) : NewEmp :=
  let get := mapped_value mapping defaults row in
  let department :=
    match get "Department" with
    | Some dept_name =>
        match dict_get dept_name bulk_dept_actions with
        | Some (Bulk_map target) => Some target
        | Some Bulk_skip => Some ""
        | _ => Some dept_name
        end
    | None => None
    end in
  mkNewEmp row_id file_row
           (or_empty (get "Employee ID")) (or_empty (get "Name"))
           (or_empty (get "Extension")) (or_empty department)
           (or_empty (get "Cell Number")) (or_empty (get "Location"))
           (or_empty (get "Status")) (or_empty (get "Notes")) now.

Inductive row_class : Type := Row_error | Row_duplicate | Row_clean.

(** Validation and duplicate detection of one mapped row. *)
Definition classify (existing_emp_ids existing_extensions : list string)
           (e : NewEmp) : row_class :=
  let row_errors :=
    (negb (truthy (strip (ne_Name e)))
     || negb (truthy (strip (ne_Extension e))))%bool in
  let emp_id := strip (ne_Employee_ID e) in
  let extension := strip (ne_Extension e) in
  let duplicate_issues :=
    ((truthy emp_id && in_values emp_id existing_emp_ids)
     || (truthy extension && in_values extension existing_extensions))%bool in
  if row_errors then Row_error
  else if duplicate_issues then Row_duplicate
  else Row_clean.

Record Preview : Type := mkPreview {
  preview_data : list NewEmp;
  duplicate_records : list NewEmp;
  error_records : list NewEmp;
  existing_emp_ids : list string;
  existing_extensions : list string
}.

Definition preview_step (mapping defaults : list (string * string))
           (bulk_dept_actions : list (string * bulk_dept_action))
           (now : string) (st : State) (acc : Preview) (ir : nat * FileRow)
  : Preview :=
  let (idx, row) := ir in
  let row_id := next_row_id (df_emp st)
                + Z.of_nat (length (preview_data acc))
                + Z.of_nat (length (duplicate_records acc)) in
  let new_emp := build_new_emp mapping defaults bulk_dept_actions now
                               row_id (Z.of_nat idx + 2) row in
  match classify (existing_emp_ids acc) (existing_extensions acc) new_emp with
  | Row_error =>
      mkPreview (preview_data acc) (duplicate_records acc)
                (error_records acc ++ [new_emp])
                (existing_emp_ids acc) (existing_extensions acc)
  | Row_duplicate =>
      mkPreview (preview_data acc) (duplicate_records acc ++ [new_emp])
                (error_records acc)
                (existing_emp_ids acc) (existing_extensions acc)
  | Row_clean =>
      let emp_id := strip (ne_Employee_ID new_emp) in
      let extension := strip (ne_Extension new_emp) in
      mkPreview (preview_data acc ++ [new_emp]) (duplicate_records acc)
                (error_records acc)
                (if truthy emp_id then emp_id :: existing_emp_ids acc
                 else existing_emp_ids acc)
                (if truthy extension then extension :: existing_extensions acc
                 else existing_extensions acc)
  end.

(** Step 5 of the upload page: the three lists of the preview. *)
Definition bulk_preview (mapping defaults : list (string * string))
           (bulk_dept_actions : list (string * bulk_dept_action))
           (now : string) (bulk_df : list FileRow) (st : State) : Preview :=
  fold_left (preview_step mapping defaults bulk_dept_actions now st)
            (combine (seq 0 (length bulk_df)) bulk_df)
            (mkPreview [] [] []
               (map (fun r => astype_str (Employee_ID r)) (df_emp st))
               (map (fun r => astype_str (Extension r)) (df_emp st))).

(** The row [pd.DataFrame([emp_copy])] appends. *)
Definition emp_row (e : NewEmp) : Employee :=
  mkEmployee (Num (ne_Row_ID e)) (Str (ne_Employee_ID e)) (Str (ne_Name e))
             (Str (ne_Extension e)) (Str (ne_Department e))
             (Str (ne_Cell_Number e)) (Str (ne_Location e))
             (Str (ne_Status e)) (Str (ne_Notes e)) (Str (ne_Last_Updated e)).

(** First loop of the commit: the departments flagged "create". *)
Definition create_departments
           (bulk_dept_actions : list (string * bulk_dept_action))
           (depts : list Dept) : list Dept :=
  fold_left
    (fun df (item : string * bulk_dept_action) =>
       let (dept_name, action) := item in
       match action with
       | Bulk_create description =>
           if in_values dept_name (map Department_Name df) then df
           else df ++ [mkDept (next_dept_id df) dept_name description]
       | _ => df
       end)
    bulk_dept_actions depts.

(** Position of the first row selected by [p], as [existing_idx[0]]. *)
Fixpoint first_index {A : Type} (p : A -> bool) (df : list A) : option nat :=
  match df with
  | [] => None
  | r :: df' =>
      if p r then Some O else option_map S (first_index p df')
  end.

(** Every column but Row ID is overwritten, then the row is stamped. *)
Definition overwrite_row (now : string) (dup_emp : NewEmp) (r : Employee)
  : Employee :=
  mkEmployee (Row_ID r) (Str (ne_Employee_ID dup_emp)) (Str (ne_Name dup_emp))
             (Str (ne_Extension dup_emp)) (Str (ne_Department dup_emp))
             (Str (ne_Cell_Number dup_emp)) (Str (ne_Location dup_emp))
             (Str (ne_Status dup_emp)) (Str (ne_Notes dup_emp)) (Str now).

Definition existing_idx (dup_emp : NewEmp) (df : list Employee) : option nat :=
  let emp_id := strip (ne_Employee_ID dup_emp) in
  let extension := strip (ne_Extension dup_emp) in
  if truthy emp_id then
    first_index (fun r => String.eqb (astype_str (Employee_ID r)) emp_id) df
  else if truthy extension then
    first_index (fun r => String.eqb (astype_str (Extension r)) extension) df
  else None.

(** The "Replace Existing" branch of the commit. *)
Definition replace_existing (now : string) (dup_emp : NewEmp)
           (df : list Employee) : list Employee :=
  match existing_idx dup_emp df with
  | Some idx => at_set idx (overwrite_row now dup_emp) df
  | None => df
  end.

(** [bulk_selections], keyed by the file row of a duplicate record: the
    pair of the "Import as New" and "Replace Existing" boxes. *)
Fixpoint selection_get (file_row : Z) (sel : list (Z * (bool * bool)))
  : bool * bool :=
  match sel with
  | [] => (false, false)
  | (k, v) :: sel' => if Z.eqb file_row k then v else selection_get file_row sel'
  end.

Definition commit_duplicate (now : string)
           (bulk_selections : list (Z * (bool * bool)))
           (df : list Employee) (dup_emp : NewEmp) : list Employee :=
  let (import, replace) := selection_get (File_Row dup_emp) bulk_selections in
  if (import && negb replace)%bool then df ++ [emp_row dup_emp]
  else if (replace && negb import)%bool then replace_existing now dup_emp df
  else df.

Definition total_to_import (bulk_selections : list (Z * (bool * bool)))
           (pv : Preview) : nat :=
  (length (preview_data pv)
   + length (filter (fun kv : Z * (bool * bool) =>
                       let (import, replace) := snd kv in
                       (negb (Bool.eqb import replace)
                        && (import || replace))%bool)
                    bulk_selections))%nat.

(** The "Import Selected Records" button; it is disabled while there is
    nothing to import. *)
Definition bulk_import_btn (now : string)
           (bulk_dept_actions : list (string * bulk_dept_action))
           (bulk_selections : list (Z * (bool * bool)))
           (pv : Preview) (st : State) : State :=
  if (total_to_import bulk_selections pv =? 0)%nat then st
  else
    let depts := create_departments bulk_dept_actions (df_dept st) in
    let emps := fold_left (fun df emp => df ++ [emp_row emp])
                          (preview_data pv) (df_emp st) in
    let emps := fold_left (commit_duplicate now bulk_selections)
                          (duplicate_records pv) emps in
    mkState emps depts.

(** ** Sync Departments *)

(** An entry of [sync_dept_actions].  An optional field is a key the dict
    may lack: the apply loop reads it with [.get] and a default. *)
Inductive sync_action : Type :=
| Sync_create (new_name description : option string)
| Sync_merge (merge_target : string) (merged_name : option string)
| Sync_map (target : option string)
| Sync_remove.

(** [df["Department"].astype(str).str.strip()], row by row *)
Definition dept_text (r : Employee) : string :=
  strip (astype_str (Department r)).

(** [d and d != 'nan' and d != ''] *)
Definition is_name (d : string) : bool :=
  (truthy d && negb (String.eqb d "nan") && negb (String.eqb d ""))%bool.

(** The names employees use that the Departments sheet lacks, computed on
    the workbook as persisted; a set, here without repetition. *)
Definition missing_depts (persisted : State) : list string :=
  let emp_depts :=
    filter is_name
           (map (fun c => strip (astype_str c))
                (dropna (map Department (df_emp persisted)))) in
  let existing_depts :=
    filter is_name
           (map (fun d => strip (Department_Name d)) (df_dept persisted)) in
  nodup string_dec
        (filter (fun d => negb (in_values d existing_depts)) emp_depts).

(** The gate of the Apply button: is [dept_name] still without a usable
    resolution? *)
Definition unresolved (sync_dept_actions : list (string * sync_action))
           (dept_name : string) : bool :=
  match dict_get dept_name sync_dept_actions with
  | None => true
  | Some (Sync_map None) => true
  | Some _ => false
  end.

Definition incomplete (sync_dept_actions : list (string * sync_action))
           (missing : list string) : list string :=
  filter (unresolved sync_dept_actions) missing.

(** [tuple(sorted([dept_name, merge_target]))] *)
Definition merge_key (dept_name merge_target : string) : string * string :=
  if String.ltb merge_target dept_name then (merge_target, dept_name)
  else (dept_name, merge_target).

Definition key_eqb (a b : string * string) : bool :=
  (String.eqb (fst a) (fst b) && String.eqb (snd a) (snd b))%bool.

(** Both [df.loc[mask, "Department"] = v] and
    [df.loc[mask, "Last Updated"] = now] *)
Definition repoint (now v : string) (r : Employee) : Employee :=
  set_Last_Updated (Str now) (set_Department (Str v) r).

Definition uses (dept_name : string) (r : Employee) : bool :=
  String.eqb (dept_text r) dept_name.

(** The state the apply loop threads: both tables and [processed_merges]. *)
Record SyncAcc : Type := mkSyncAcc {
  acc_emp : list Employee;
  acc_dept : list Dept;
  processed_merges : list (string * string)
}.

(** One turn of the apply loop; [None] is the [KeyError] of reading
    [action["target"]] from a map entry without target. *)
Definition sync_step (now : string) (acc : SyncAcc)
           (dept_name : string) (action : sync_action) : option SyncAcc :=
  match action with
  | Sync_create new_name description =>
      let did := next_dept_id (acc_dept acc) in
      let final_name :=
        match new_name with Some n => n | None => dept_name end in
      let new_dept :=
        mkDept did final_name
               (match description with
                | Some d => d
                | None => "Synced from employee records"
                end) in
      Some (mkSyncAcc
              (if negb (String.eqb final_name dept_name)
               then loc_set (uses dept_name) (repoint now final_name)
                            (acc_emp acc)
               else acc_emp acc)
              (acc_dept acc ++ [new_dept])
              (processed_merges acc))
  | Sync_merge merge_target merged_name =>
      let merged :=
        match merged_name with Some n => n | None => merge_target end in
      let key := merge_key dept_name merge_target in
      if existsb (key_eqb key) (processed_merges acc) then Some acc
      else
        let did := next_dept_id (acc_dept acc) in
        let new_dept :=
          mkDept did merged
                 ("Merged from: " ++ dept_name ++ ", " ++ merge_target) in
        Some (mkSyncAcc
                (loc_set (fun r => (uses dept_name r || uses merge_target r)%bool)
                         (repoint now merged) (acc_emp acc))
                (acc_dept acc ++ [new_dept])
                (key :: processed_merges acc))
  | Sync_map (Some target) =>
      Some (mkSyncAcc
              (loc_set (uses dept_name) (repoint now target) (acc_emp acc))
              (acc_dept acc) (processed_merges acc))
  | Sync_map None => None
  | Sync_remove =>
      Some (mkSyncAcc
              (loc_set (uses dept_name) (repoint now "") (acc_emp acc))
              (acc_dept acc) (processed_merges acc))
  end.

(** The loop over [sync_dept_actions.items()]; the boolean tells whether it
    ran to its end. *)
Fixpoint sync_loop (now : string) (items : list (string * sync_action))
         (acc : SyncAcc) : SyncAcc * bool :=
  match items with
  | [] => (acc, true)
  | (dept_name, action) :: items' =>
      match sync_step now acc dept_name action with
      | Some acc' => sync_loop now items' acc'
      | None => (acc, false)
      end
  end.

(** The "Apply Changes" button of the sync page.  The button is drawn only
    when some name is missing. *)
Definition apply_sync_btn (persisted : State)
           (sync_dept_actions : list (string * sync_action))
           (now : string) (st : State) : State * report :=
  match missing_depts persisted with
  | [] => (st, Info_nothing_to_do)
  | missing =>
      match incomplete sync_dept_actions missing with
      | (_ :: _) as names => (st, Err_incomplete names)
      | [] =>
          let (acc, finished) :=
            sync_loop now sync_dept_actions
                      (mkSyncAcc (df_emp st) (df_dept st) []) in
          (mkState (acc_emp acc) (acc_dept acc),
           if finished then Success else Exn_key_error)
      end
  end.

(** The "Select All -> Create New" button. *)
Definition select_all_create (missing : list string)
           (sync_dept_actions : list (string * sync_action))
  : list (string * sync_action) :=
  fold_left
    (fun d dept_name =>
       dict_set dept_name
                (Sync_create None (Some "Synced from employee records")) d)
    missing sync_dept_actions.

(** ** Sync Departments: drawing the page *)

(** The four options of the radio of one department. *)
Inductive sync_radio : Type :=
| Radio_create
| Radio_merge
| Radio_map
| Radio_remove.

(** The widgets under one missing department, with the values they
    return.  A select box returns one of its options, the empty text when
    nothing is chosen. *)
Record SyncWidgets : Type := mkSyncWidgets {
  w_action : sync_radio;
  w_rename : bool;
  w_newname : string;
  w_desc : string;
  w_merge : string;
  w_merge_custom : bool;
  w_merge_name : string;
  w_map : string
}.

(** The widgets of a department as the page first draws them. *)
Definition default_widgets (dept_name : string) : SyncWidgets :=
  mkSyncWidgets Radio_create false dept_name "" "" false "" "".

(** [sorted(...)] on texts *)
Fixpoint insert_sorted (x : string) (l : list string) : list string :=
  match l with
  | [] => [x]
  | y :: l' => if String.ltb y x then y :: insert_sorted x l' else x :: l
  end.

Definition sorted (l : list string) : list string :=
  fold_right insert_sorted [] l.

(** [existing_depts] of the sync page *)
Definition existing_depts (persisted : State) : list string :=
  filter is_name
         (map (fun d => strip (Department_Name d)) (df_dept persisted)).

(** What drawing the expander of [dept_name] writes into
    [sync_dept_actions]: an entry when the chosen option is complete,
    nothing when the page only warns. *)
Definition draw_dept (persisted : State) (dept_name : string)
           (w : SyncWidgets) (sync_dept_actions : list (string * sync_action))
  : list (string * sync_action) :=
  match w_action w with
  | Radio_create =>
      let new_name := if w_rename w then w_newname w else dept_name in
      let blocked :=
        (w_rename w && truthy new_name && truthy (strip new_name)
         && in_values (lower (strip new_name))
                      (map lower (filter truthy (existing_depts persisted))))%bool in
      if blocked then sync_dept_actions
      else
        dict_set dept_name
          (Sync_create
             (Some (if truthy new_name then strip new_name else dept_name))
             (Some (if truthy (w_desc w) then strip (w_desc w)
                    else "Synced from employee records")))
          sync_dept_actions
  | Radio_merge =>
      let other_missing :=
        filter (fun d => negb (String.eqb d dept_name))
               (sorted (missing_depts persisted)) in
      match other_missing with
      | [] => sync_dept_actions
      | _ =>
          let merge_target := w_merge w in
          if truthy merge_target then
            let merged_name :=
              if w_merge_custom w then w_merge_name w else merge_target in
            dict_set dept_name
              (Sync_merge merge_target
                 (Some (if truthy merged_name then strip merged_name
                        else merge_target)))
              sync_dept_actions
          else sync_dept_actions
      end
  | Radio_map =>
      let target_dept := w_map w in
      if truthy target_dept
      then dict_set dept_name (Sync_map (Some target_dept)) sync_dept_actions
      else sync_dept_actions
  | Radio_remove => dict_set dept_name Sync_remove sync_dept_actions
  end.

(** One run of the script over the sync page: every missing department, in
    sorted order, is drawn with the current value of its widgets. *)
Definition draw_sync_page (persisted : State) (widgets : string -> SyncWidgets)
           (sync_dept_actions : list (string * sync_action))
  : list (string * sync_action) :=
  fold_left (fun acts dept_name =>
               draw_dept persisted dept_name (widgets dept_name) acts)
            (sorted (missing_depts persisted)) sync_dept_actions.

(** The run in which "Apply Changes" is pressed: the page is drawn, then
    the handler of the button reads the batch. *)
Definition sync_page_apply (persisted : State) (widgets : string -> SyncWidgets)
           (sync_dept_actions : list (string * sync_action))
           (now : string) (st : State) : State * report :=
  apply_sync_btn persisted
                 (draw_sync_page persisted widgets sync_dept_actions) now st.


(** ** Manage Departments *)

(** An entry of [dept_manage_actions], keyed by Dept ID. *)
Inductive manage_action : Type :=
| Manage_rename (old_name new_name new_desc : string)
| Manage_merge (old_name target : string)
| Manage_merge_two (dept1_name dept1_id dept2_name dept2_id
                    final_name delete_id : string)
| Manage_delete (old_name : string).

Definition has_id (dept_id : string) (d : Dept) : bool :=
  String.eqb (Dept_ID d) dept_id.

(** Employees of the persisted workbook assigned to [dept_name]. *)
Definition emp_count (persisted : State) (dept_name : string) : nat :=
  length (filter (uses dept_name) (df_emp persisted)).

(** Choosing "Rename Department" for [dept_row] of the persisted sheet. *)
Definition manage_choose_rename (persisted : State) (dept_row : Dept)
           (new_name new_desc : string)
           (dept_manage_actions : list (string * manage_action))
  : list (string * manage_action) * report :=
  let dept_id := Dept_ID dept_row in
  let dept_name := strip (Department_Name dept_row) in
  let dept_desc := strip (Description dept_row) in
  if (truthy new_name && negb (String.eqb (strip new_name) dept_name))%bool then
    let existing_names_lower :=
      map lower
          (filter (fun n => (truthy n
                             && negb (String.eqb (lower (strip n))
                                                 (lower dept_name)))%bool)
                  (map Department_Name (df_dept persisted))) in
    if in_values (lower (strip new_name)) existing_names_lower
    then (dept_manage_actions, Err_dept_exists (strip new_name))
    else (dict_set dept_id
                   (Manage_rename dept_name (strip new_name)
                      (if truthy new_desc then strip new_desc else dept_desc))
                   dept_manage_actions,
          Success)
  else (dept_manage_actions, Info_nothing_to_do).


Definition manage_step (now : string) (st : State)
           (item : string * manage_action) : State :=
  let (dept_id, action) := item in
  match action with
  | Manage_rename old_name new_name new_desc =>
      mkState
        (loc_set (uses old_name) (repoint now new_name) (df_emp st))
        (loc_set (has_id dept_id)
                 (fun d => mkDept (Dept_ID d) new_name
                             (if truthy new_desc then new_desc
                              else Description d))
                 (df_dept st))
  | Manage_merge old_name target =>
      mkState
        (loc_set (uses old_name) (repoint now target) (df_emp st))
        (filter (fun d => negb (has_id dept_id d)) (df_dept st))
  | Manage_merge_two dept1_name dept1_id dept2_name dept2_id
                     final_name delete_id =>
      let keep_id :=
        if String.eqb delete_id dept2_id then dept1_id else dept2_id in
      mkState
        (loc_set (fun r => (uses dept1_name r || uses dept2_name r)%bool)
                 (repoint now final_name) (df_emp st))
        (filter (fun d => negb (has_id delete_id d))
                (loc_set (has_id keep_id)
                         (fun d => mkDept (Dept_ID d) final_name
                                     ("Merged from: " ++ dept1_name
                                      ++ ", " ++ dept2_name))
                         (df_dept st)))
  | Manage_delete old_name =>
      mkState (df_emp st)
              (filter (fun d => negb (has_id dept_id d)) (df_dept st))
  end.

(** The "Apply Changes" button of the management page. *)
Definition apply_manage_btn (now : string)
           (dept_manage_actions : list (string * manage_action))
           (st : State) : State * report :=
  match dept_manage_actions with
  | [] => (st, Info_nothing_to_do)
  | _ => (fold_left (manage_step now) dept_manage_actions st, Success)
  end.

(** Renaming one department on the management page: choose the action on
    an empty batch, then press Apply.  The report is the one shown when the
    action is chosen. *)
Definition manage_rename (persisted : State) (dept_row : Dept)
           (new_name new_desc now : string) (st : State) : State * report :=
  let (actions, shown) :=
    manage_choose_rename persisted dept_row new_name new_desc [] in
  (fst (apply_manage_btn now actions st), shown).


(** ** Loading: the Row ID block of [read_workbook] *)

(** [isna() | (== "") | (== "nan")] on the Row ID column *)
Definition missing_id (c : cell) : bool :=
  match c with
  | NaN => true
  | Num _ => false
  | Flt _ => false
  | Str s => (String.eqb s "" || String.eqb s "nan")%bool
  end.

Definition set_Row_ID (v : cell) (r : Employee) : Employee :=
  mkEmployee v (Employee_ID r) (Name r) (Extension r) (Department r)
             (Cell_Number r) (Location r) (Status r) (Notes r) (Last_Updated r).

(** The loop [for idx in df_emp[missing_ids].index]: each row without Row
    ID takes the next value of the counter. *)
Fixpoint assign_from (max_id : Z) (df : list Employee) : list Employee :=
  match df with
  | [] => []
  | r :: df' =>
      if missing_id (Row_ID r)
      then set_Row_ID (Num (max_id + 1)) r :: assign_from (max_id + 1) df'
      else r :: assign_from max_id df'
  end.

(** Where the counter starts: the greatest Row ID present, 0 when there is
    none or when it cannot be taken or parsed. *)
Definition start_id (df : list Employee) : Z :=
  let existing_ids :=
    filter (fun c => negb (missing_id c)) (map Row_ID df) in
  match existing_ids with
  | [] => 0
  | _ =>
      match series_max existing_ids with
      | Some m => match int_of_cell m with Some z => z | None => 0 end
      | None => 0
      end
  end.

(** "Ensure all employees have Row IDs" *)
Definition ensure_row_ids (df : list Employee) : list Employee :=
  match df with
  | [] => df
  | _ =>
      if existsb missing_id (map Row_ID df)
      then assign_from (start_id df) df
      else df
  end.

(** ** Edit Employee: [edit_form] *)

Record EditForm : Type := mkEditForm {
  ed_employee_id : string;
  ed_name : string;
  ed_extension : string;
  ed_department : string;
  ed_cell : string;
  ed_location : string;
  ed_status : string;
  ed_notes : string
}.

(** [matched.index[0]]: the first row whose Row ID, cast to text, is
    [str(edit_id)]. *)
Definition matched_index (edit_id : cell) (df : list Employee) : option nat :=
  first_index (fun r => String.eqb (astype_str (Row_ID r)) (astype_str edit_id))
              df.

(** The assignments of a successful save; [new_id] is the Employee ID to
    write, if it is to be written at all. *)
Definition edited_row (now : string) (fresh_id : Z) (new_id : option string)
           (f : EditForm) (r : Employee) : Employee :=
  mkEmployee
    (match Row_ID r with NaN => Num fresh_id | c => c end)
    (match new_id with Some e => Str e | None => Employee_ID r end)
    (Str (strip (ed_name f)))
    (Str (strip (ed_extension f)))
    (Str (if truthy (ed_department f) then strip (ed_department f) else ""))
    (Str (strip_or_empty (ed_cell f)))
    (Str (strip_or_empty (ed_location f)))
    (Str (ed_status f))
    (Str (strip_or_empty (ed_notes f)))
    (Str now).

(** The "Save Changes" button.  The form is drawn only in edit mode with a
    true [edit_id] that matches a row. *)
Definition edit_emp_save (now : string) (edit_id : cell) (f : EditForm)
           (st : State) : State * report :=
  if negb (cell_truthy edit_id) then (st, Info_nothing_to_do)
  else
    match matched_index edit_id (df_emp st) with
    | None => (st, Info_nothing_to_do)
    | Some idx =>
        match nth_error (df_emp st) idx with
        | None => (st, Info_nothing_to_do)
        | Some row =>
            if negb (truthy (strip (ed_name f))) then (st, Err_name_required)
            else if negb (truthy (strip (ed_extension f)))
            then (st, Err_extension_required)
            else
              let new_employee_id := strip (ed_employee_id f) in
              let fresh_id := next_row_id (df_emp st) in
              if negb (String.eqb new_employee_id
                                  (astype_str (Employee_ID row)))
              then
                if (truthy new_employee_id
                    && in_values new_employee_id
                         (map (fun r => astype_str (Employee_ID r))
                              (df_emp st)))%bool
                then (st, Err_employee_id_exists new_employee_id)
                else
                  (mkState
                     (at_set idx
                        (edited_row now fresh_id (Some new_employee_id) f)
                        (df_emp st))
                     (df_dept st),
                   Success)
              else
                (mkState
                   (at_set idx (edited_row now fresh_id None f) (df_emp st))
                   (df_dept st),
                 Success)
        end
    end.

(** The "Delete User" button of the same form. *)
Definition edit_emp_delete (edit_id : cell) (st : State) : State * report :=
  if negb (cell_truthy edit_id) then (st, Info_nothing_to_do)
  else
    match matched_index edit_id (df_emp st) with
    | None => (st, Info_nothing_to_do)
    | Some idx => (mkState (drop_index idx (df_emp st)) (df_dept st), Success)
    end.

(** ** Pagination of the directory *)

(** [max(1, (total_rows + rows_per_page - 1) // rows_per_page)] *)
Definition total_pages (total_rows rows_per_page : Z) : Z :=
  Z.max 1 ((total_rows + rows_per_page - 1) / rows_per_page).

(** "Reset to first page if out of bounds or negative" *)
Definition clamp_page (page_number pages : Z) : Z :=
  let p := if pages <=? page_number then Z.max 0 (pages - 1)
           else page_number in
  if p <? 0 then 0 else p.

(** [df.iloc[start:end]] for a start that is not negative *)
Definition iloc {A : Type} (start stop : Z) (df : list A) : list A :=
  firstn (Z.to_nat (stop - start)) (skipn (Z.to_nat start) df).

(** [df_page]: the rows of page [page_number]. *)
Definition df_page {A : Type} (page_number rows_per_page : Z)
           (df_view : list A) : list A :=
  let total_rows := Z.of_nat (length df_view) in
  let start_idx := page_number * rows_per_page in
  let end_idx := Z.min (start_idx + rows_per_page) total_rows in
  iloc start_idx end_idx df_view.

(** The page one run of the script shows.  The number of pages is computed
    with the rows per page of the session, the slice with the value the
    selector returns in this run. *)
Definition shown_page {A : Type} (session_rows selected_rows page_number : Z)
           (df_view : list A) : list A :=
  let pages := total_pages (Z.of_nat (length df_view)) session_rows in
  df_page (clamp_page page_number pages) selected_rows df_view.

(** * Vocabulary of the properties and scenarios *)

Definition is_Num (c : cell) : Prop := exists z, c = Num z.

Definition unparsable_text (c : cell) : Prop :=
  exists s, c = Str s /\ int_of_str s = None.

(** A table whose only Row ID is the text [abc]. *)
Definition emp_abc : Employee :=
  mkEmployee (Str "abc") (Str "E1") (Str "Ann") (Str "1111") (Str "Sales")
             (Str "") (Str "") (Str "Active") (Str "") (Str "t0").

Definition emp_num (id : Z) : Employee :=
  mkEmployee (Num id) (Str "") (Str "Ann") (Str "1111") (Str "")
             (Str "") (Str "") (Str "Active") (Str "") (Str "t0").

(** What the two assignments of the button do to one row, taken together:
    an inactive row becomes active, and every row that is active after that
    is stamped. *)
Definition activate_row (now : string) (r : Employee) : Employee :=
  if is_inactive r then set_Last_Updated (Str now) (set_Status (Str "Active") r)
  else if is_active r then set_Last_Updated (Str now) r
  else r.

(** An employee already active, last touched at [t0], and an inactive one. *)
Definition emp_active : Employee :=
  mkEmployee (Num 1) (Str "E1") (Str "Ann") (Str "1111") (Str "Sales")
             (Str "") (Str "") (Str "Active") (Str "") (Str "t0").

Definition emp_inactive : Employee :=
  mkEmployee (Num 2) (Str "E2") (Str "Bob") (Str "2222") (Str "Sales")
             (Str "") (Str "") (Str "Inactive") (Str "") (Str "t1").

Definition employee_ids (df : list Employee) : list string :=
  map (fun r => astype_str (Employee_ID r)) df.

(** Closes the four parts of a form specification on a branch that
    rejects and hands the state back. *)
Ltac now_rejected :=
  repeat split; intros; try reflexivity; try discriminate.

Definition form_ann : EmpForm :=
  mkEmpForm "E1" "Ann" "3333" "Sales" "" "" "Active" "".

Definition form_no_name : EmpForm :=
  mkEmpForm "E5" "" "3333" "Sales" "" "" "Active" "".

Definition form_carl : EmpForm :=
  mkEmpForm " E7 " "Carl" "1111" "Sales" " 555 " "" "Active" "".

Definition st_two : State :=
  mkState [emp_active; emp_inactive] [mkDept "1" "Sales" ""].

Definition extensions (df : list Employee) : list string :=
  map (fun r => astype_str (Extension r)) df.


(** The uploaded file of the scenario: one record, Employee ID [E9], name
    [Zed], extension [1111]. *)
Definition file_zed : FileRow :=
  fun col =>
    if String.eqb col "Employee ID" then Str "E9"
    else if String.eqb col "Name" then Str "Zed"
    else if String.eqb col "Extension" then Num 1111
    else NaN.

Definition mapping_plain : list (string * string) :=
  [("Employee ID", "Employee ID"); ("Name", "Name"); ("Extension", "Extension")].

(** No two rows of the Departments sheet have names equal up to case. *)
Definition unique_ci (df : list Dept) : Prop :=
  NoDup (map (fun d => lower (Department_Name d)) df).

(** A workbook with the department [Sales]; one employee's record spells it
    [sales]. *)
Definition emp_lowercase : Employee :=
  mkEmployee (Num 1) (Str "E1") (Str "Ann") (Str "1111") (Str "sales")
             (Str "") (Str "") (Str "Active") (Str "") (Str "t0").

Definition st_sales : State :=
  mkState [emp_lowercase] [mkDept "1" "Sales" ""].

(** An uploaded file with one record asking for the department [sales]. *)
Definition file_zoe : FileRow :=
  fun col =>
    if String.eqb col "Name" then Str "Zoe"
    else if String.eqb col "Extension" then Num 3333
    else if String.eqb col "Department" then Str "sales"
    else NaN.

Definition mapping_dept : list (string * string) :=
  [("Name", "Name"); ("Extension", "Extension"); ("Department", "Department")].

(** An employee whose Department cell carries a leading space, next to one
    whose cell is exactly [Sales]. *)
Definition emp_exact : Employee :=
  mkEmployee (Num 1) (Str "E1") (Str "Ann") (Str "1111") (Str "Sales")
             (Str "") (Str "") (Str "Active") (Str "") (Str "t0").

Definition emp_spaced : Employee :=
  mkEmployee (Num 2) (Str "E2") (Str "Bob") (Str "2222") (Str " Sales")
             (Str "") (Str "") (Str "Active") (Str "") (Str "t1").

Definition st_spaced : State :=
  mkState [emp_exact; emp_spaced] [mkDept "1" "Sales" ""].


(** Employees spelled [Ops] and [Opns]; neither is a department. *)
Definition emp_ops : Employee :=
  mkEmployee (Num 1) (Str "E1") (Str "Ann") (Str "1111") (Str "Ops")
             (Str "") (Str "") (Str "Active") (Str "") (Str "t0").

Definition emp_opns : Employee :=
  mkEmployee (Num 2) (Str "E2") (Str "Bob") (Str "2222") (Str "Opns")
             (Str "") (Str "") (Str "Active") (Str "") (Str "t1").

Definition emp_it : Employee :=
  mkEmployee (Num 3) (Str "E3") (Str "Cy") (Str "3333") (Str "IT")
             (Str "") (Str "") (Str "Active") (Str "") (Str "t2").

Definition st_ops : State :=
  mkState [emp_ops; emp_opns; emp_it] [mkDept "1" "IT" ""].

Definition processed (k : string * string) (acc : SyncAcc) : bool :=
  existsb (key_eqb k) (processed_merges acc).

Definition final_name (merge_target : string) (merged_name : option string)
  : string :=
  match merged_name with Some n => n | None => merge_target end.

(** Row IDs are integers, no two alike. *)
Definition row_ids_distinct (df : list Employee) : Prop :=
  (forall r, In r df -> is_Num (Row_ID r)) /\ NoDup (map Row_ID df).

(** The row carries an Employee ID: the cell is there and is not blank. *)
Definition has_employee_id (r : Employee) : Prop :=
  Employee_ID r <> NaN /\ astype_str (Employee_ID r) <> "".

(** No two rows that carry an Employee ID have the same text in that
    column under [astype(str)]. *)
Definition employee_ids_unique (df : list Employee) : Prop :=
  forall i j ri rj,
    nth_error df i = Some ri -> nth_error df j = Some rj ->
    has_employee_id ri -> has_employee_id rj ->
    astype_str (Employee_ID ri) = astype_str (Employee_ID rj) -> i = j.

(** Row IDs are integers that are not negative. *)
Definition row_ids_natural (df : list Employee) : Prop :=
  forall r, In r df -> exists z, Row_ID r = Num z /\ 0 <= z.

Definition form_edit_ann : EditForm :=
  mkEditForm " E7 " " Ann B " "1111" "Sales" "" "" "Inactive" "".

Definition emp_no_id : Employee :=
  mkEmployee NaN (Str "E8") (Str "Dee") (Str "4444") (Str "")
             (Str "") (Str "") (Str "Active") (Str "") (Str "t3").


(** A create resolution that keeps the name: no new name, or the name
    itself. *)
Definition is_create_plain (item : string * sync_action) : Prop :=
  exists description,
    snd item = Sync_create None description
    \/ snd item = Sync_create (Some (fst item)) description.

Definition keeps_departments (action : sync_action) : bool :=
  match action with
  | Sync_map (Some _) | Sync_remove => true
  | _ => false
  end.

(** Dept IDs are the decimal texts of numbers that fit a 64-bit integer
    with room for one more. *)
Definition canonical_dept_ids (df : list Dept) : Prop :=
  forall d, In d df ->
            exists n, 0 <= n < int64_max /\ Dept_ID d = str_of_Z n.

(** Evaluates [digit_val] on the character at hand. *)
Ltac eval_digit :=
  match goal with
  | |- context [digit_val ?c] =>
      let v := eval vm_compute in (digit_val c) in
      change (digit_val c) with v
  end.

(** The numbers [next_dept_id] reads off the Dept IDs. *)
Definition dept_numbers (df : list Dept) : list Z :=
  flat_map (fun d => match extract_digits (Dept_ID d) with
                     | Some s => [digits_val s 0]
                     | None => []
                     end) df.


(** The columns of an employee that the department pages never write. *)
Definition identity_columns (r : Employee) : Employee :=
  set_Last_Updated NaN (set_Department NaN r).

(** A workbook in which [Ops] is the only orphaned name. *)
Definition st_operations : State :=
  mkState [emp_ops; emp_it] [mkDept "1" "IT" ""; mkDept "2" "Operations" ""].

Definition stripped_ext (e : NewEmp) : string := strip (ne_Extension e).
Definition stripped_id (e : NewEmp) : string := strip (ne_Employee_ID e).

(** What the preview guarantees at a point of its loop, against the
    Employee IDs [ids0] and the extensions [exts0] of the table. *)
Record preview_inv (ids0 exts0 : list string) (n : nat) (pv : Preview) : Prop :=
  mkPreviewInv {
    inv_count :
      (length (preview_data pv) + length (duplicate_records pv)
       + length (error_records pv) = n)%nat;
    inv_exts :
      forall e, In e (preview_data pv) ->
                In (stripped_ext e) (existing_extensions pv);
    inv_ids :
      forall e, In e (preview_data pv) -> stripped_id e <> "" ->
                In (stripped_id e) (existing_emp_ids pv);
    inv_exts0 : incl exts0 (existing_extensions pv);
    inv_ids0 : incl ids0 (existing_emp_ids pv);
    inv_ext_nodup : NoDup (map stripped_ext (preview_data pv));
    inv_id_nodup : NoDup (filter truthy (map stripped_id (preview_data pv)));
    inv_clean :
      forall e, In e (preview_data pv) ->
                strip (ne_Name e) <> "" /\ stripped_ext e <> ""
                /\ ~ In (stripped_ext e) exts0
                /\ (stripped_id e = "" \/ ~ In (stripped_id e) ids0);
    inv_errors :
      forall e, In e (error_records pv) ->
                strip (ne_Name e) = "" \/ stripped_ext e = ""
  }.

(** The Row IDs the preview has handed to its clean and duplicate records:
    all in the range it has used so far, no two alike. *)
Definition row_id_inv (next : Z) (pv : Preview) : Prop :=
  (forall e, In e (preview_data pv ++ duplicate_records pv) ->
             next <= ne_Row_ID e
             < next + Z.of_nat (length (preview_data pv))
               + Z.of_nat (length (duplicate_records pv)))
  /\ NoDup (map ne_Row_ID (preview_data pv)
            ++ map ne_Row_ID (duplicate_records pv)).

(** Is the duplicate record committed as a new row? *)
Definition imported_as_new (sel : list (Z * (bool * bool))) (e : NewEmp) : bool :=
  let (import, replace) := selection_get (File_Row e) sel in
  (import && negb replace)%bool.

Definition new_row_id (e : NewEmp) : cell := Num (ne_Row_ID e).

(** A request whose name and extension are spaces only. *)
Definition form_spaces : EmpForm :=
  mkEmpForm "E9" "   " " " "Sales" "" "" "Active" "".

Definition edit_spaces : EditForm :=
  mkEditForm "E1" "   " " " "Sales" "" "" "Active" "".

(** A table whose Employee ID column holds numbers and a gap, which pandas
    reads as floats: the employee with Employee ID 1001 and one without. *)
Definition emp_1001 : Employee :=
  mkEmployee (Num 1) (Flt 1001) (Str "Ann") (Str "1111") (Str "Sales")
             (Str "") (Str "") (Str "Active") (Str "") (Str "t0").

Definition emp_gap : Employee :=
  mkEmployee (Num 2) NaN (Str "Bob") (Str "2222") (Str "Sales")
             (Str "") (Str "") (Str "Active") (Str "") (Str "t1").

Definition st_float : State :=
  mkState [emp_1001; emp_gap] [mkDept "1" "Sales" ""].

Definition form_1001 : EmpForm :=
  mkEmpForm "1001" "Cy" "3333" "Sales" "" "" "Active" "".





(** Two pairs of names are the same pair, whichever way round. *)
Definition same_pair (p q : string * string) : bool :=
  ((String.eqb (fst p) (fst q) && String.eqb (snd p) (snd q))
   || (String.eqb (fst p) (snd q) && String.eqb (snd p) (fst q)))%bool.

(** The department rows a batch asks for, in the words of the
    specification: one for every create entry and one for every pair of
    names merged with each other, whichever side names the pair and however
    often.  [seen] holds the pairs met so far. *)
Fixpoint rows_to_create (seen : list (string * string))
         (items : list (string * sync_action)) : nat :=
  match items with
  | [] => O
  | (_, Sync_create _ _) :: items' => S (rows_to_create seen items')
  | (dept_name, Sync_merge merge_target _) :: items' =>
      if existsb (same_pair (dept_name, merge_target)) seen
      then rows_to_create seen items'
      else S (rows_to_create ((dept_name, merge_target) :: seen) items')
  | _ :: items' => rows_to_create seen items'
  end.

(** The entry reads or rewrites the employees of [name]: it is the entry of
    [name], or a merge with [name]. *)
Definition touches (name : string) (item : string * sync_action) : bool :=
  (String.eqb name (fst item)
   || match snd item with
      | Sync_merge merge_target _ => String.eqb name merge_target
      | _ => false
      end)%bool.

(** Both tables after the apply loop has run over a batch. *)
Definition sync_tables (now : string)
           (sync_dept_actions : list (string * sync_action)) (st : State)
  : State :=
  let acc := fst (sync_loop now sync_dept_actions
                            (mkSyncAcc (df_emp st) (df_dept st) [])) in
  mkState (acc_emp acc) (acc_dept acc).

(** Three orphaned names: [Apps], [Opns] and [Ops]. *)
Definition emp_apps : Employee :=
  mkEmployee (Num 4) (Str "E4") (Str "Dan") (Str "4444") (Str "Apps")
             (Str "") (Str "") (Str "Active") (Str "") (Str "t3").

Definition st_apps : State :=
  mkState [emp_ops; emp_opns; emp_apps] [mkDept "1" "IT" ""].

(** [Opns] and [Ops] are merged with each other under the name
    [Operations]; [Apps] is merged with [Ops] under the name
    [Applications]. *)
Definition widgets_merges (dept_name : string) : SyncWidgets :=
  if String.eqb dept_name "Apps"
  then mkSyncWidgets Radio_merge false "Apps" "" "Ops" true "Applications" ""
  else if String.eqb dept_name "Opns"
  then mkSyncWidgets Radio_merge false "Opns" "" "Ops" true "Operations" ""
  else mkSyncWidgets Radio_merge false "Ops" "" "Opns" true "Operations" "".

(** Five orphaned names, two pairs of them merged with each other. *)
Definition emp_web : Employee :=
  mkEmployee (Num 5) (Str "E5") (Str "Eve") (Str "5555") (Str "Web")
             (Str "") (Str "") (Str "Active") (Str "") (Str "t4").

Definition emp_wbe : Employee :=
  mkEmployee (Num 6) (Str "E6") (Str "Fay") (Str "6666") (Str "Wbe")
             (Str "") (Str "") (Str "Active") (Str "") (Str "t5").

Definition st_five : State :=
  mkState [emp_ops; emp_opns; emp_apps; emp_web; emp_wbe] [mkDept "1" "IT" ""].

Definition batch_five : list (string * sync_action) :=
  [("Apps", Sync_create (Some "Apps") (Some "Synced from employee records"));
   ("Opns", Sync_merge "Ops" (Some "Operations"));
   ("Wbe", Sync_merge "Web" (Some "Web"));
   ("Ops", Sync_merge "Opns" (Some "Opns"));
   ("Web", Sync_merge "Wbe" (Some "Wbe"))].

(** No key of [processed_merges] has [name] on either side. *)
Definition unpaired (name : string) (acc : SyncAcc) : Prop :=
  forall k, In k (processed_merges acc) -> fst k <> name /\ snd k <> name.

(** The widgets of the scenario: [Opns] switched to "Map to Existing
    Department" with no target chosen, [Ops] to "Remove", the rest as first
    drawn. *)
Definition widgets_stale (dept_name : string) : SyncWidgets :=
  if String.eqb dept_name "Opns"
  then mkSyncWidgets Radio_map false "Opns" "" "" false "" ""
  else if String.eqb dept_name "Ops"
  then mkSyncWidgets Radio_remove false "Ops" "" "" false "" ""
  else default_widgets dept_name.



(** * Properties *)

(** ** Facts about the primitives *)

Lemma truthy_true (s : string) : truthy s = true <-> s <> "".
Proof.
  unfold truthy. rewrite negb_true_iff. apply String.eqb_neq.
Qed.

Lemma truthy_false (s : string) : truthy s = false <-> s = "".
Proof.
  unfold truthy. rewrite negb_false_iff. apply String.eqb_eq.
Qed.

Lemma in_values_In (x : string) (values : list string) :
  in_values x values = true <-> In x values.
Proof.
  unfold in_values. rewrite existsb_exists. split.
  - intros [y [Hin Heq]]. apply String.eqb_eq in Heq. now subst.
  - intros Hin. exists x. split; [assumption | apply String.eqb_refl].
Qed.

Lemma in_values_not_In (x : string) (values : list string) :
  in_values x values = false <-> ~ In x values.
Proof.
  rewrite <- in_values_In. destruct (in_values x values); split; congruence.
Qed.

Lemma loc_set_length {A : Type} (mask : A -> bool) (f : A -> A) (df : list A) :
  length (loc_set mask f df) = length df.
Proof. unfold loc_set. apply length_map. Qed.

Lemma loc_set_nth_error {A : Type} (mask : A -> bool) (f : A -> A)
      (df : list A) (i : nat) :
  nth_error (loc_set mask f df) i =
  option_map (fun r => if mask r then f r else r) (nth_error df i).
Proof. unfold loc_set. apply nth_error_map. Qed.

(** ** The Row ID allocator *)

Lemma dropna_all_NaN (l : list cell) :
  (forall c, In c l -> c = NaN) -> dropna l = [].
Proof.
  induction l as [|c l IH]; intros H; [reflexivity|].
  simpl. rewrite (H c (or_introl eq_refl)). apply IH.
  intros c' Hin. apply H. now right.
Qed.

Lemma dropna_In (c : cell) (l : list cell) :
  In c (dropna l) <-> In c l /\ c <> NaN.
Proof.
  unfold dropna. rewrite filter_In. destruct c; intuition congruence.
Qed.

(** The maximum of integer identifiers is the greatest of them. *)
Lemma max_from_Num (l : list cell) :
  (forall c, In c l -> is_Num c) ->
  forall m, exists M,
    max_from (Num m) l = Some (Num M)
    /\ m <= M
    /\ (forall z, In (Num z) l -> z <= M)
    /\ (M = m \/ In (Num M) l).
Proof.
  induction l as [|c l IH]; intros Hall m.
  - exists m. simpl. split; [reflexivity|]. split; [lia|].
    split; [intros z []| now left].
  - destruct (Hall c (or_introl eq_refl)) as [z ->].
    destruct (IH (fun c' H => Hall c' (or_intror H)) (Z.max m z))
      as [M [Hmax [Hle [Hub Hwit]]]].
    exists M. simpl. rewrite Hmax. repeat split.
    + lia.
    + intros z' [Heq | Hin]; [injection Heq as <-; lia | now apply Hub].
    + destruct Hwit as [-> | Hin]; [| now right; right].
      destruct (Z.max_spec m z) as [[_ ->] | [_ ->]]; [right; now left | now left].
Qed.

(** The maximum of unparsable texts is one of them, hence unparsable. *)
Lemma max_from_unparsable (l : list cell) :
  (forall c, In c l -> unparsable_text c) ->
  forall s, int_of_str s = None ->
  exists t, max_from (Str s) l = Some (Str t) /\ int_of_str t = None.
Proof.
  induction l as [|c l IH]; intros Hall s Hs.
  - exists s. now split.
  - destruct (Hall c (or_introl eq_refl)) as [t [-> Ht]].
    simpl. destruct (String.ltb s t).
    + apply IH; [intros c' H; apply Hall; now right | assumption].
    + apply IH; [intros c' H; apply Hall; now right | assumption].
Qed.

Lemma next_row_id_all_missing (df : list Employee) :
  (forall r, In r df -> Row_ID r = NaN) -> next_row_id df = 1.
Proof.
  intros H. destruct df as [|r df]; [reflexivity|].
  unfold next_row_id. rewrite dropna_all_NaN; [reflexivity|].
  intros c Hin. apply in_map_iff in Hin. destruct Hin as [r' [<- Hin]].
  now apply H.
Qed.

Lemma next_row_id_integers (df : list Employee) :
  (forall r, In r df -> Row_ID r = NaN \/ is_Num (Row_ID r)) ->
  (exists r, In r df /\ is_Num (Row_ID r)) ->
  exists m,
    (exists r, In r df /\ Row_ID r = Num m)
    /\ (forall r z, In r df -> Row_ID r = Num z -> z <= m)
    /\ next_row_id df = m + 1.
Proof.
  intros Hall [r0 [Hin0 [z0 Hz0]]].
  assert (Hids : forall c, In c (dropna (map Row_ID df)) -> is_Num c).
  { intros c Hc. apply dropna_In in Hc. destruct Hc as [Hc Hnan].
    apply in_map_iff in Hc. destruct Hc as [r [<- Hr]].
    destruct (Hall r Hr) as [E | E]; [congruence | assumption]. }
  assert (Hne : In (Num z0) (dropna (map Row_ID df))).
  { apply dropna_In. split; [| discriminate].
    apply in_map_iff. exists r0. now split. }
  assert (Hback : forall z, In (Num z) (dropna (map Row_ID df)) ->
                            exists r, In r df /\ Row_ID r = Num z).
  { intros z Hz. apply dropna_In in Hz. destruct Hz as [Hz _].
    apply in_map_iff in Hz. destruct Hz as [r [E Hr]]. now exists r. }
  assert (Hfwd : forall r z, In r df -> Row_ID r = Num z ->
                             In (Num z) (dropna (map Row_ID df))).
  { intros r z Hr E. apply dropna_In. split; [| discriminate].
    apply in_map_iff. now exists r. }
  unfold next_row_id. destruct df as [|r1 df1]; [destruct Hin0|].
  remember (r1 :: df1) as df eqn:Edf.
  destruct (dropna (map Row_ID df)) as [|c ids] eqn:Eids; [destruct Hne|].
  destruct (Hids c (or_introl eq_refl)) as [m0 ->].
  destruct (max_from_Num ids (fun c' H => Hids c' (or_intror H)) m0)
    as [M [Hmax [Hle [Hub Hwit]]]].
  exists M. simpl. rewrite Hmax. simpl. repeat split.
  - apply Hback. destruct Hwit as [-> | Hin]; [now left | now right].
  - intros r z Hr E. destruct (Hfwd r z Hr E) as [Heq | Hin].
    + injection Heq as <-. exact Hle.
    + now apply Hub.
Qed.

Lemma next_row_id_unparsable (df : list Employee) :
  df <> [] ->
  (forall r, In r df -> unparsable_text (Row_ID r)) ->
  next_row_id df = Z.of_nat (length df) + 1.
Proof.
  intros Hne Hall.
  assert (Hids : forall c, In c (dropna (map Row_ID df)) -> unparsable_text c).
  { intros c Hc. apply dropna_In in Hc. destruct Hc as [Hc _].
    apply in_map_iff in Hc. destruct Hc as [r [<- Hr]]. now apply Hall. }
  unfold next_row_id. destruct df as [|r1 df1]; [congruence|].
  remember (r1 :: df1) as df eqn:Edf.
  destruct (dropna (map Row_ID df)) as [|c ids] eqn:Eids.
  - exfalso. destruct (Hall r1) as [s [Es _]]; [subst df; now left|].
    assert (Hin : In (Str s) (dropna (map Row_ID df))).
    { apply dropna_In. split; [| discriminate].
      apply in_map_iff. exists r1. split; [assumption | subst df; now left]. }
    rewrite Eids in Hin. destruct Hin.
  - destruct (Hids c (or_introl eq_refl)) as [s [-> Hs]].
    destruct (max_from_unparsable ids (fun c' H => Hids c' (or_intror H)) s Hs)
      as [t [Hmax Ht]].
    simpl. rewrite Hmax. simpl. rewrite Ht. reflexivity.
Qed.

(** C1, as stated, fails: every identifier of the one-row table [emp_abc] is
    unparsable as an integer, yet [next_row_id] answers 2 and not 1. *)
Lemma next_row_id_unparsable_counterexample :
  (forall r, In r [emp_abc] -> int_of_cell (Row_ID r) = None)
  /\ next_row_id [emp_abc] <> 1.
Proof.
  split.
  - intros r [<- | []]. reflexivity.
  - vm_compute. discriminate.
Qed.

(** C1 (amended): on a table whose Row IDs are integers or missing, with at
    least one integer, [next_row_id] is one plus the greatest Row ID; it is 1
    when the table is empty or every Row ID is missing; and on a non-empty
    table whose Row IDs are all texts that do not parse as integers it is the
    number of rows plus one. *)
Theorem next_row_id_spec (df : list Employee) :
  ((forall r, In r df -> Row_ID r = NaN \/ is_Num (Row_ID r)) ->
   (exists r, In r df /\ is_Num (Row_ID r)) ->
   exists m,
     (exists r, In r df /\ Row_ID r = Num m)
     /\ (forall r z, In r df -> Row_ID r = Num z -> z <= m)
     /\ next_row_id df = m + 1)
  /\ ((df = [] \/ forall r, In r df -> Row_ID r = NaN) -> next_row_id df = 1)
  /\ (df <> [] -> (forall r, In r df -> unparsable_text (Row_ID r)) ->
      next_row_id df = Z.of_nat (length df) + 1).
Proof.
  split; [| split].
  - apply next_row_id_integers.
  - intros [-> | H]; [reflexivity | now apply next_row_id_all_missing].
  - apply next_row_id_unparsable.
Qed.

Lemma next_row_id_spec_witness :
  next_row_id [emp_num 3; emp_num 7] = 8
  /\ next_row_id [] = 1
  /\ next_row_id [emp_abc] = 2.
Proof.
  split; [| split].
  - destruct (proj1 (next_row_id_spec [emp_num 3; emp_num 7])) as [m [_ [_ E]]].
    + intros r [<- | [<- | []]]; right; eexists; reflexivity.
    + exists (emp_num 3). split; [now left | eexists; reflexivity].
    + reflexivity.
  - apply (proj1 (proj2 (next_row_id_spec []))). now left.
  - apply (proj2 (proj2 (next_row_id_spec [emp_abc]))).
    + discriminate.
    + intros r [<- | []]. exists "abc". split; reflexivity.
Defined.

(** ** Activate All Inactive *)

Lemma activate_all_inactive_rows (now : string) (st : State) :
  (exists r, In r (df_emp st) /\ is_inactive r = true) ->
  activate_all_inactive now st =
  (mkState (map (activate_row now) (df_emp st)) (df_dept st), Success).
Proof.
  intros [r0 [Hin Hr0]]. unfold activate_all_inactive.
  assert (Hpos : (0 <? length (filter is_inactive (df_emp st)))%nat = true).
  { apply Nat.ltb_lt.
    assert (H : In r0 (filter is_inactive (df_emp st)))
      by (apply filter_In; now split).
    destruct (filter is_inactive (df_emp st)); [destruct H | simpl; lia]. }
  rewrite Hpos. f_equal. f_equal. unfold loc_set. rewrite map_map.
  apply map_ext. intros r. unfold activate_row.
  destruct (is_inactive r) eqn:Ei.
  - reflexivity.
  - reflexivity.
Qed.

(** C8: the code departs from the claim.  On the table [emp_active;
    emp_inactive] the button activates the second row and stamps both rows:
    the row that was already active loses its last-modified value [t0]. *)
Theorem activate_all_inactive_stamps_active_rows :
  let st := mkState [emp_active; emp_inactive] [] in
  let st' := fst (activate_all_inactive "t9" st) in
  map Status (df_emp st') = [Str "Active"; Str "Active"]
  /\ map Last_Updated (df_emp st') = [Str "t9"; Str "t9"]
  /\ Status emp_active = Str "Active"
  /\ Last_Updated emp_active = Str "t0".
Proof.
  repeat split.
Qed.

(** Every row that was active before the button is pressed is stamped as
    soon as one row is inactive. *)
Lemma activate_all_inactive_stamps_every_active (now : string) (st : State)
      (r : Employee) :
  (exists r', In r' (df_emp st) /\ is_inactive r' = true) ->
  In r (df_emp st) -> is_active r = true ->
  In (set_Last_Updated (Str now) r) (df_emp (fst (activate_all_inactive now st))).
Proof.
  intros Hex Hin Hact. rewrite (activate_all_inactive_rows now st Hex). simpl.
  apply in_map_iff. exists r. split; [| assumption].
  unfold activate_row. rewrite Hact.
  destruct (is_inactive r) eqn:Ei; [| reflexivity].
  unfold is_inactive, is_active, eq_str in *.
  destruct (Status r); try discriminate.
  apply String.eqb_eq in Ei, Hact. congruence.
Qed.

(** ** Quick Add *)

Lemma rstrip_idem (s : string) : rstrip (rstrip s) = rstrip s.
Proof.
  induction s as [|c t IH]; [reflexivity|]. simpl.
  destruct (rstrip t) as [|c' t'] eqn:Et.
  - destruct (is_space c) eqn:Ec; [reflexivity|]. simpl. now rewrite Ec.
  - simpl. simpl in IH. rewrite IH. reflexivity.
Qed.

Lemma rstrip_head (c : ascii) (t : string) :
  is_space c = false -> exists t', rstrip (String c t) = String c t'.
Proof.
  intros Hc. simpl. destruct (rstrip t) as [|c' t'].
  - rewrite Hc. now exists "".
  - now exists (String c' t').
Qed.

Lemma lstrip_head (s : string) :
  lstrip s = "" \/ exists c t, lstrip s = String c t /\ is_space c = false.
Proof.
  induction s as [|c t IH]; [now left|]. simpl.
  destruct (is_space c) eqn:Ec; [exact IH|]. right. now exists c, t.
Qed.

(** Trimming twice is trimming once. *)
Lemma strip_idem (s : string) : strip (strip s) = strip s.
Proof.
  unfold strip. destruct (lstrip_head s) as [-> | [c [t [-> Hc]]]];
    [reflexivity|].
  destruct (rstrip_head c t Hc) as [t' E].
  assert (Hl : lstrip (rstrip (String c t)) = rstrip (String c t)).
  { rewrite E. simpl. now rewrite Hc. }
  rewrite Hl. apply rstrip_idem.
Qed.

Lemma strip_empty : strip "" = "".
Proof. reflexivity. Qed.

Lemma add_emp_form_accepts (now : string) (f : EmpForm) (st : State) :
  new_name f <> "" -> new_extension f <> "" ->
  (strip (new_empid f) = ""
   \/ ~ In (strip (new_empid f)) (employee_ids (df_emp st))) ->
  add_emp_form now f st =
  (mkState (df_emp st
            ++ [add_emp_row (next_row_id (df_emp st)) (strip (new_empid f)) now f])
           (df_dept st),
   Success).
Proof.
  intros Hn He Hid. unfold add_emp_form.
  apply truthy_true in Hn, He. rewrite Hn, He. simpl.
  destruct (truthy (strip (new_empid f))) eqn:Et.
  - destruct Hid as [E | Hfresh].
    + apply truthy_true in Et. contradiction.
    + apply in_values_not_In in Hfresh. unfold employee_ids in Hfresh.
      rewrite Hfresh, Et. reflexivity.
  - apply truthy_false in Et. rewrite Et. reflexivity.
Qed.

(** What the Quick Add form does, in terms of its own tests: it refuses
    the empty text as name or extension, and an Employee ID that is not
    empty once trimmed and is the text of an Employee ID cell of the table;
    every refusal hands both tables back; otherwise one row is appended,
    with the Row ID [next_row_id] gives and the current time. *)
Lemma add_emp_form_spec (now : string) (f : EmpForm) (st : State) :
  let res := add_emp_form now f st in
  (new_name f = "" \/ new_extension f = "" -> rejected (snd res) = true)
  /\ (strip (new_empid f) <> "" ->
      In (strip (new_empid f)) (employee_ids (df_emp st)) ->
      rejected (snd res) = true)
  /\ (rejected (snd res) = true ->
      fst res = st /\ length (df_emp (fst res)) = length (df_emp st))
  /\ (rejected (snd res) = false ->
      new_name f <> "" /\ new_extension f <> ""
      /\ (strip (new_empid f) = ""
          \/ ~ In (strip (new_empid f)) (employee_ids (df_emp st)))
      /\ exists row,
          df_emp (fst res) = df_emp st ++ [row]
          /\ Row_ID row = Num (next_row_id (df_emp st))
          /\ Last_Updated row = Str now
          /\ df_dept (fst res) = df_dept st).
Proof.
  intros res. subst res. unfold add_emp_form, employee_ids.
  destruct (truthy (new_name f)) eqn:En; simpl.
  2:{ apply truthy_false in En. now_rejected. }
  destruct (truthy (new_extension f)) eqn:Ee; simpl.
  2:{ apply truthy_false in Ee. now_rejected. }
  apply truthy_true in En, Ee.
  destruct (truthy (strip (new_empid f))) eqn:Et; simpl.
  - rewrite Et.
    destruct (in_values (strip (new_empid f))
                (map (fun r => astype_str (Employee_ID r)) (df_emp st))) eqn:Ei;
      simpl.
    + now_rejected.
    + apply in_values_not_In in Ei. split; [intros [E | E]; contradiction|].
      split; [intros _ Hin; contradiction|].
      split; [discriminate|]. intros _.
      split; [assumption|]. split; [assumption|]. split; [now right|].
      eexists. repeat split.
  - apply truthy_false in Et.
    split; [intros [E | E]; contradiction|].
    split; [intros Hne; contradiction|].
    split; [discriminate|]. intros _.
    split; [assumption|]. split; [assumption|]. split; [now left|].
    eexists. repeat split.
Qed.

(** C3: the code departs from the claim in two places.  A name and an
    extension made of spaces only are blank, yet the form accepts them and
    stores them as they are: it tests [not new_name] and [not
    new_extension] without trimming, where the Edit Employee form and the
    bulk upload trim first and refuse the same texts.  And on a table whose
    Employee ID column is read as floats the employee 1001 has the text
    [1001.0], so a request with Employee ID [1001] is accepted and two
    employees carry the identifier 1001. *)
Theorem add_emp_form_accepts_blank_and_duplicate :
  let blank := add_emp_form "t9" form_spaces st_two in
  let dup := add_emp_form "t9" form_1001 st_float in
  strip (new_name form_spaces) = ""
  /\ strip (new_extension form_spaces) = ""
  /\ snd blank = Success
  /\ df_emp (fst blank)
     = df_emp st_two
       ++ [mkEmployee (Num 3) (Str "E9") (Str "   ") (Str " ") (Str "Sales")
                      (Str "") (Str "") (Str "Active") (Str "") (Str "t9")]
  /\ snd (edit_emp_save "t9" (Num 1) edit_spaces st_two) = Err_name_required
  /\ (forall e : NewEmp,
         ne_Name e = new_name form_spaces ->
         classify (employee_ids (df_emp st_two)) (extensions (df_emp st_two)) e
         = Row_error)
  /\ Employee_ID emp_1001 = Flt 1001
  /\ employee_ids (df_emp st_float) = ["1001.0"; "nan"]
  /\ strip (new_empid form_1001) = "1001"
  /\ snd dup = Success
  /\ map Employee_ID (df_emp (fst dup)) = [Flt 1001; NaN; Str "1001"].
Proof.
  repeat split. intros e He. unfold classify. rewrite He. reflexivity.
Qed.

(** ** Quick Add against bulk upload: extension collisions *)

Lemma strip_nonempty (s : string) : strip s <> "" -> s <> "".
Proof. intros H E. subst s. now apply H. Qed.






(** ** Bulk upload: Replace Existing *)

Lemma at_set_map {A B : Type} (g : A -> B) (f : A -> A) (idx : nat)
      (df : list A) :
  (forall r, g (f r) = g r) -> map g (at_set idx f df) = map g df.
Proof.
  intros Hg. revert idx.
  induction df as [|r df IH]; intros [|i]; simpl; try reflexivity.
  - now rewrite Hg.
  - now rewrite IH.
Qed.

Lemma at_set_length {A : Type} (f : A -> A) (idx : nat) (df : list A) :
  length (at_set idx f df) = length df.
Proof.
  revert idx. induction df as [|r df IH]; intros [|i]; simpl; try reflexivity.
  now rewrite IH.
Qed.

Lemma at_set_nth_error {A : Type} (f : A -> A) (idx : nat) (df : list A) (i : nat) :
  nth_error (at_set idx f df) i =
  if Nat.eqb i idx then option_map f (nth_error df i) else nth_error df i.
Proof.
  revert idx i. induction df as [|r df IH]; intros idx i.
  - destruct idx, i; simpl; try reflexivity. now destruct (Nat.eqb i idx).
  - destruct idx, i; simpl; try reflexivity. apply IH.
Qed.

Lemma first_index_spec {A : Type} (p : A -> bool) (df : list A) (idx : nat) :
  first_index p df = Some idx ->
  (exists r, nth_error df idx = Some r /\ p r = true)
  /\ (forall j r, (j < idx)%nat -> nth_error df j = Some r -> p r = false).
Proof.
  revert idx. induction df as [|r df IH]; intros idx H; simpl in H.
  - discriminate.
  - destruct (p r) eqn:Ep.
    + injection H as <-. split; [exists r; now split | intros j r' Hj; lia].
    + destruct (first_index p df) as [i|] eqn:Ei; [| discriminate].
      injection H as <-. destruct (IH i eq_refl) as [Hat Hbefore].
      split; [exact Hat|]. intros [|j] r' Hj Hnth; simpl in Hnth.
      * now injection Hnth as <-.
      * apply (Hbefore j); [lia | assumption].
Qed.

Lemma first_index_none {A : Type} (p : A -> bool) (df : list A) :
  first_index p df = None <-> forall r, In r df -> p r = false.
Proof.
  induction df as [|r df IH]; simpl.
  - split; [intros _ r [] | reflexivity].
  - destruct (p r) eqn:Ep.
    + split; [discriminate|]. intros H. rewrite (H r (or_introl eq_refl)) in Ep.
      discriminate.
    + destruct (first_index p df) as [i|].
      * split; [discriminate|]. intros H. exfalso.
        assert (E : Some i = None) by (apply IH; intros r' Hr'; apply H; now right).
        discriminate.
      * split; [| reflexivity]. intros _ r' [<- | Hr']; [assumption|].
        now apply IH.
Qed.

(** A replacement never touches a Row ID nor the number of rows. *)
Lemma replace_existing_preserves_row_ids (now : string) (dup_emp : NewEmp)
      (df : list Employee) :
  map Row_ID (replace_existing now dup_emp df) = map Row_ID df
  /\ length (replace_existing now dup_emp df) = length df.
Proof.
  unfold replace_existing. destruct (existing_idx dup_emp df) as [idx|].
  - split; [now apply at_set_map | apply at_set_length].
  - now split.
Qed.

(** With a non-blank Employee ID that some row carries, the first such row
    is overwritten in every column but Row ID. *)
Lemma replace_existing_by_employee_id (now : string) (dup_emp : NewEmp)
      (df : list Employee) (idx : nat) :
  strip (ne_Employee_ID dup_emp) <> "" ->
  first_index (fun r => String.eqb (astype_str (Employee_ID r))
                                   (strip (ne_Employee_ID dup_emp))) df
  = Some idx ->
  replace_existing now dup_emp df = at_set idx (overwrite_row now dup_emp) df.
Proof.
  intros Hid Hfirst. unfold replace_existing, existing_idx.
  apply truthy_true in Hid. now rewrite Hid, Hfirst.
Qed.

(** With a blank Employee ID the match is by Extension. *)
Lemma replace_existing_by_extension (now : string) (dup_emp : NewEmp)
      (df : list Employee) (idx : nat) :
  strip (ne_Employee_ID dup_emp) = "" ->
  strip (ne_Extension dup_emp) <> "" ->
  first_index (fun r => String.eqb (astype_str (Extension r))
                                   (strip (ne_Extension dup_emp))) df
  = Some idx ->
  replace_existing now dup_emp df = at_set idx (overwrite_row now dup_emp) df.
Proof.
  intros Hid Hext Hfirst. unfold replace_existing, existing_idx.
  apply truthy_false in Hid. apply truthy_true in Hext.
  now rewrite Hid, Hext, Hfirst.
Qed.

(** With a non-blank Employee ID that no row carries, nothing is replaced,
    whatever the Extension. *)
Lemma replace_existing_unmatched_id (now : string) (dup_emp : NewEmp)
      (df : list Employee) :
  strip (ne_Employee_ID dup_emp) <> "" ->
  ~ In (strip (ne_Employee_ID dup_emp)) (employee_ids df) ->
  replace_existing now dup_emp df = df.
Proof.
  intros Hid Hfresh. unfold replace_existing, existing_idx.
  apply truthy_true in Hid. rewrite Hid.
  assert (E : first_index
                (fun r => String.eqb (astype_str (Employee_ID r))
                                     (strip (ne_Employee_ID dup_emp))) df = None).
  { apply first_index_none. intros r Hr. apply String.eqb_neq. intros E.
    apply Hfresh. unfold employee_ids. apply in_map_iff. now exists r. }
  now rewrite E.
Qed.

(** C9: the code departs from the claim.  The record of [file_zed] has the
    unused Employee ID [E9] and the extension 1111 of the first employee of
    [st_two]; the preview lists it as a duplicate, and committing it with
    "Replace Existing" ticked looks the Employee ID up, finds no row, never
    tries the extension and leaves the Employees table as it was. *)
Theorem replace_existing_no_extension_fallback :
  let pv := bulk_preview mapping_plain [] [] "t9" [file_zed] st_two in
  map ne_Employee_ID (duplicate_records pv) = ["E9"]
  /\ map ne_Extension (duplicate_records pv) = ["1111"]
  /\ map File_Row (duplicate_records pv) = [2]
  /\ preview_data pv = []
  /\ In "1111" (extensions (df_emp st_two))
  /\ ~ In "E9" (employee_ids (df_emp st_two))
  /\ bulk_import_btn "t9" [] [(2, (false, true))] pv st_two = st_two.
Proof.
  vm_compute. repeat split; try (now left).
  intros [H | [H | []]]; discriminate.
Qed.

(** ** Uniqueness of department names up to case *)

Lemma NoDup_snoc {A : Type} (l : list A) (x : A) :
  NoDup l -> ~ In x l -> NoDup (l ++ [x]).
Proof.
  induction l as [|y l IH]; intros Hnd Hx; simpl.
  - constructor; [intros [] | constructor].
  - inversion Hnd as [|? ? Hy Hl]; subst. constructor.
    + rewrite in_app_iff. intros [H | [H | []]]; [contradiction|].
      subst. apply Hx. now left.
    + apply IH; [assumption|]. intros H. apply Hx. now right.
Qed.

(** The Add Department form keeps the names unique up to case. *)
Lemma add_dept_form_preserves_unique_ci (dname ddesc : string) (st : State) :
  unique_ci (df_dept st) ->
  unique_ci (df_dept (fst (add_dept_form dname ddesc st))).
Proof.
  intros Huniq. unfold add_dept_form.
  destruct (truthy (strip dname)); simpl; [| assumption].
  destruct (in_values (lower (strip dname))
              (map (fun d => lower (Department_Name d)) (df_dept st))) eqn:Ein;
    simpl; [assumption|].
  unfold unique_ci. rewrite map_app. simpl.
  apply NoDup_snoc; [assumption|]. now apply in_values_not_In.
Qed.

(** C2: the code departs from the claim on two of the three paths.  On a
    Departments sheet holding [Sales], the upload page reports [sales] as
    missing, its default action is "Create New", and the commit, which
    compares names exactly, appends a row [sales]; the sync page reports
    [sales] as missing too and "Select All -> Create New" followed by Apply
    appends it without any comparison.  Either way two rows end up with
    names equal up to case. *)
Theorem department_creation_breaks_unique_ci :
  let st := mkState [] [mkDept "1" "Sales" ""] in
  let actions := [("sales", Bulk_create "")] in
  let pv := bulk_preview mapping_dept [] actions "t9" [file_zoe] st in
  let imported := bulk_import_btn "t9" actions [] pv st in
  let synced :=
    fst (apply_sync_btn st_sales
           (select_all_create (missing_depts st_sales) []) "t9" st_sales) in
  unique_ci (df_dept st)
  /\ missing_departments mapping_dept [] [file_zoe] st = ["sales"]
  /\ map Department_Name (df_dept imported) = ["Sales"; "sales"]
  /\ ~ unique_ci (df_dept imported)
  /\ unique_ci (df_dept st_sales)
  /\ missing_depts st_sales = ["sales"]
  /\ map Department_Name (df_dept synced) = ["Sales"; "sales"]
  /\ ~ unique_ci (df_dept synced).
Proof.
  assert (Hone : NoDup ["sales"]).
  { constructor; [intros [] | constructor]. }
  assert (Htwo : ~ NoDup ["sales"; "sales"]).
  { intros H. inversion H as [|? ? Hn _]; subst. apply Hn. now left. }
  repeat split; try reflexivity; try exact Hone; exact Htwo.
Qed.

(** ** Renaming a department *)

(** What the Edit Department form does to the employees when it accepts a
    new name: rows whose Department cell is exactly the old name take the
    new one, every other row stays. *)
Lemma edit_dept_save_cascade (idx : nat) (dn dd : string) (st : State)
      (row : Dept) :
  nth_error (df_dept st) idx = Some row ->
  snd (edit_dept_save idx dn dd st) = Success ->
  forall i r,
    nth_error (df_emp st) i = Some r ->
    nth_error (df_emp (fst (edit_dept_save idx dn dd st))) i =
    Some (if eq_str (Department r) (Department_Name row)
          then set_Department (Str (strip dn)) r else r).
Proof.
  intros Hrow Hok i r Hr. unfold edit_dept_save in *. rewrite Hrow in *.
  destruct (negb (truthy (strip dn))); [discriminate|].
  destruct (negb (String.eqb (lower (strip dn)) (lower (Department_Name row)))
            && in_values (lower (strip dn))
                 (map (fun d => lower (Department_Name d)) (df_dept st)))%bool;
    [discriminate|].
  simpl. destruct (String.eqb (Department_Name row) (strip dn)) eqn:Esame; simpl.
  - rewrite Hr. f_equal. apply String.eqb_eq in Esame.
    destruct (eq_str (Department r) (Department_Name row)) eqn:Em;
      [| reflexivity].
    unfold eq_str in Em. destruct r as [a b c d [| | |s] e f g h k];
      try discriminate.
    simpl in *. apply String.eqb_eq in Em. unfold set_Department. simpl.
    congruence.
  - rewrite loc_set_nth_error, Hr. reflexivity.
Qed.

(** What a rename applied on the management page does to the employees:
    rows whose Department, cast to text and trimmed, is the old name take
    the new name and the current time, every other row stays. *)
Lemma manage_rename_cascade (now dept_id old_name new_name new_desc : string)
      (st : State) :
  forall i r,
    nth_error (df_emp st) i = Some r ->
    nth_error
      (df_emp (manage_step now st
                 (dept_id, Manage_rename old_name new_name new_desc))) i =
    Some (if String.eqb (dept_text r) old_name
          then repoint now new_name r else r).
Proof.
  intros i r Hr. simpl. rewrite loc_set_nth_error, Hr. reflexivity.
Qed.

(** C4: the code departs from the claim on the Edit Department form.
    Renaming [Sales] to [Retail] there compares the cells without trimming:
    the employee whose cell reads [Sales] after trimming keeps it, while the
    same rename applied on the management page repoints both employees. *)
Theorem edit_dept_save_does_not_trim :
  let edited := edit_dept_save 0 "Retail" "" st_spaced in
  let managed :=
    manage_rename st_spaced (mkDept "1" "Sales" "") "Retail" "" "t9" st_spaced in
  map dept_text (df_emp st_spaced) = ["Sales"; "Sales"]
  /\ snd edited = Success
  /\ map Department_Name (df_dept (fst edited)) = ["Retail"]
  /\ map Department (df_emp (fst edited)) = [Str "Retail"; Str " Sales"]
  /\ snd managed = Success
  /\ map Department_Name (df_dept (fst managed)) = ["Retail"]
  /\ map Department (df_emp (fst managed)) = [Str "Retail"; Str "Retail"].
Proof.
  repeat split.
Qed.

(** ** Deleting a department *)

Lemma drop_index_length {A : Type} (idx : nat) (df : list A) (row : A) :
  nth_error df idx = Some row ->
  (length (drop_index idx df) + 1 = length df)%nat.
Proof.
  revert idx. induction df as [|r df IH]; intros [|i] H; simpl in *;
    try discriminate.
  - lia.
  - specialize (IH i H). lia.
Qed.

Lemma drop_index_firstn_skipn {A : Type} (idx : nat) (df : list A) :
  drop_index idx df = firstn idx df ++ skipn (S idx) df.
Proof.
  revert idx. induction df as [|r df IH]; intros [|i]; simpl; try reflexivity.
  f_equal. apply IH.
Qed.






(** ** Sync Departments: the gate *)

(** The gate of the Apply button, taken alone: were the batch to lack an
    entry for a missing name, or to hold a map entry without target, the
    handler would report the incomplete names and hand back both tables
    exactly as they were. *)
Lemma apply_sync_btn_incomplete (persisted : State)
        (sync_dept_actions : list (string * sync_action))
        (now : string) (st : State) (dept_name : string) :
  In dept_name (missing_depts persisted) ->
  (dict_get dept_name sync_dept_actions = None
   \/ dict_get dept_name sync_dept_actions = Some (Sync_map None)) ->
  let res := apply_sync_btn persisted sync_dept_actions now st in
  fst res = st
  /\ df_dept (fst res) = df_dept st
  /\ df_emp (fst res) = df_emp st
  /\ exists names, snd res = Err_incomplete names /\ In dept_name names.
Proof.
  intros Hmiss Hunres res. subst res. unfold apply_sync_btn.
  assert (Hin : In dept_name
                   (incomplete sync_dept_actions (missing_depts persisted))).
  { unfold incomplete. apply filter_In. split; [assumption|].
    unfold unresolved. destruct Hunres as [-> | ->]; reflexivity. }
  destruct (missing_depts persisted) as [|d ds] eqn:Em; [destruct Hmiss|].
  destruct (incomplete sync_dept_actions (d :: ds)) as [|n ns] eqn:Ei;
    [destruct Hin|].
  simpl. repeat split. exists (n :: ns). split; [reflexivity | exact Hin].
Qed.

(** ** Sync Departments: merge pairs *)

Lemma ltb_asym_eq (a b : string) :
  String.ltb a b = false -> String.ltb b a = false -> a = b.
Proof.
  unfold String.ltb. intros H1 H2. apply String.compare_eq_iff.
  rewrite (String.compare_antisym b a) in H2.
  destruct (String.compare a b); simpl in *; congruence.
Qed.

Lemma ltb_not_both (a b : string) :
  String.ltb a b = true -> String.ltb b a = true -> False.
Proof.
  unfold String.ltb. intros H1 H2.
  rewrite (String.compare_antisym b a) in H2.
  destruct (String.compare a b); simpl in *; congruence.
Qed.

(** The key of a merge pair does not depend on the side it is read from. *)
Lemma merge_key_sym (a b : string) : merge_key a b = merge_key b a.
Proof.
  unfold merge_key.
  destruct (String.ltb b a) eqn:Eba, (String.ltb a b) eqn:Eab; try reflexivity.
  - exfalso. exact (ltb_not_both a b Eab Eba).
  - now rewrite (ltb_asym_eq a b Eab Eba).
Qed.

Lemma key_eqb_refl (k : string * string) : key_eqb k k = true.
Proof. unfold key_eqb. now rewrite !String.eqb_refl. Qed.

(** A processed pair stays processed. *)
Lemma sync_step_processed (now : string) (acc acc' : SyncAcc)
      (dept_name : string) (action : sync_action) (k : string * string) :
  sync_step now acc dept_name action = Some acc' ->
  processed k acc = true -> processed k acc' = true.
Proof.
  unfold processed. intros Hstep Hk.
  destruct action as [new_name description | merge_target merged_name
                      | [target|] | ]; simpl in Hstep.
  - injection Hstep as <-. exact Hk.
  - destruct (existsb (key_eqb (merge_key dept_name merge_target))
                      (processed_merges acc)).
    + injection Hstep as <-. exact Hk.
    + injection Hstep as <-. simpl. rewrite Hk. apply orb_true_r.
  - injection Hstep as <-. exact Hk.
  - discriminate.
  - injection Hstep as <-. exact Hk.
Qed.

(** Once a pair is processed, the entry of its other side does nothing:
    the loop gives the same result with or without it. *)
Lemma sync_loop_skips_processed (now : string) (a b : string)
      (merged_name : option string) (post : list (string * sync_action)) :
  forall (mid : list (string * sync_action)) (acc : SyncAcc),
    processed (merge_key b a) acc = true ->
    sync_loop now (mid ++ (b, Sync_merge a merged_name) :: post) acc =
    sync_loop now (mid ++ post) acc.
Proof.
  induction mid as [|[d act] mid IH]; intros acc Hk; simpl.
  - unfold processed in Hk. now rewrite Hk.
  - destruct (sync_step now acc d act) as [acc'|] eqn:Estep; [| reflexivity].
    apply IH. exact (sync_step_processed now acc acc' d act _ Estep Hk).
Qed.

(** After the entry of one side of a pair, the pair is processed. *)
Lemma sync_step_merge_processed (now : string) (acc acc' : SyncAcc)
      (a b : string) (merged_name : option string) :
  sync_step now acc a (Sync_merge b merged_name) = Some acc' ->
  processed (merge_key a b) acc' = true.
Proof.
  unfold processed. simpl.
  destruct (existsb (key_eqb (merge_key a b)) (processed_merges acc)) eqn:Ek;
    intros H; injection H as <-.
  - exact Ek.
  - simpl. now rewrite key_eqb_refl.
Qed.

Lemma sync_loop_second_side (now : string) (a b : string)
      (name_a name_b : option string)
      (mid post : list (string * sync_action)) :
  forall (pre : list (string * sync_action)) (acc : SyncAcc),
    sync_loop now
      (pre ++ (a, Sync_merge b name_a) :: mid
           ++ (b, Sync_merge a name_b) :: post) acc =
    sync_loop now (pre ++ (a, Sync_merge b name_a) :: mid ++ post) acc.
Proof.
  induction pre as [|[d act] pre IH]; intros acc.
  - change ([] ++ ?l) with l. cbn [sync_loop].
    destruct (sync_step now acc a (Sync_merge b name_a)) as [acc'|] eqn:Estep;
      [| reflexivity].
    apply sync_loop_skips_processed. rewrite merge_key_sym.
    exact (sync_step_merge_processed now acc acc' a b name_a Estep).
  - simpl. destruct (sync_step now acc d act); [apply IH | reflexivity].
Qed.

(** *** Merge pairs in any batch *)

(** [tuple(sorted(...))] is a key of the pair and of nothing else: two keys
    are equal exactly when the pairs are the same, whichever way round. *)
Lemma key_eqb_merge_key (a b c d : string) :
  key_eqb (merge_key a b) (merge_key c d) = same_pair (a, b) (c, d).
Proof.
  unfold key_eqb, merge_key, same_pair.
  destruct (String.ltb b a) eqn:Eba, (String.ltb d c) eqn:Edc; simpl;
    destruct (String.eqb_spec a c), (String.eqb_spec b d),
             (String.eqb_spec a d), (String.eqb_spec b c);
    simpl; try reflexivity; subst; exfalso;
    try (rewrite Eba in Edc; discriminate);
    try congruence.
  - exact (ltb_not_both _ _ Eba Edc).
  - apply n. exact (ltb_asym_eq _ _ Edc Eba).
Qed.

Lemma existsb_key_seen (d t : string) (seen : list (string * string)) :
  existsb (key_eqb (merge_key d t))
          (map (fun p => merge_key (fst p) (snd p)) seen)
  = existsb (same_pair (d, t)) seen.
Proof.
  induction seen as [|[c e] seen IH]; simpl; [reflexivity|].
  now rewrite key_eqb_merge_key, IH.
Qed.

(** A batch without a map entry that lacks its target runs to its end and
    appends the rows it asks for, no more and no fewer. *)
Lemma sync_loop_rows (now : string) (items : list (string * sync_action)) :
  (forall item, In item items -> snd item <> Sync_map None) ->
  forall (acc : SyncAcc) (seen : list (string * string)),
    processed_merges acc = map (fun p => merge_key (fst p) (snd p)) seen ->
    snd (sync_loop now items acc) = true
    /\ length (acc_dept (fst (sync_loop now items acc)))
       = (length (acc_dept acc) + rows_to_create seen items)%nat.
Proof.
  induction items as [|[d act] items IH]; intros Hok acc seen Hseen.
  - simpl. split; [reflexivity | lia].
  - assert (Hok' : forall item, In item items -> snd item <> Sync_map None).
    { intros item Hin. apply Hok. now right. }
    pose proof (Hok (d, act) (or_introl eq_refl)) as Hact. simpl in Hact.
    destruct act as [nn ds | t mn | [tg|] | ]; cbn [sync_loop sync_step rows_to_create].
    + destruct (IH Hok' (mkSyncAcc
                   (if negb (String.eqb (match nn with Some n => n | None => d end) d)
                    then loc_set (uses d)
                           (repoint now (match nn with Some n => n | None => d end))
                           (acc_emp acc)
                    else acc_emp acc)
                   (acc_dept acc
                    ++ [mkDept (next_dept_id (acc_dept acc))
                          (match nn with Some n => n | None => d end)
                          (match ds with
                           | Some x => x
                           | None => "Synced from employee records"
                           end)])
                   (processed_merges acc)) seen Hseen) as [Hfin Hlen].
      split; [exact Hfin|]. rewrite Hlen. simpl. rewrite length_app. simpl. lia.
    + assert (Ek : existsb (key_eqb (merge_key d t)) (processed_merges acc)
                   = existsb (same_pair (d, t)) seen).
      { rewrite Hseen. apply existsb_key_seen. }
      destruct (existsb (same_pair (d, t)) seen) eqn:Eseen; rewrite Ek.
      * apply (IH Hok' _ seen Hseen).
      * destruct (IH Hok'
                    (mkSyncAcc
                       (loc_set (fun r => (uses d r || uses t r)%bool)
                                (repoint now (match mn with
                                              | Some n => n
                                              | None => t
                                              end)) (acc_emp acc))
                       (acc_dept acc
                        ++ [mkDept (next_dept_id (acc_dept acc))
                              (match mn with Some n => n | None => t end)
                              ("Merged from: " ++ d ++ ", " ++ t)])
                       (merge_key d t :: processed_merges acc))
                    ((d, t) :: seen)) as [Hfin Hlen].
        { simpl. now rewrite Hseen. }
        split; [exact Hfin|]. rewrite Hlen. simpl. rewrite length_app.
        simpl. lia.
    + apply (IH Hok' (mkSyncAcc (loc_set (uses d) (repoint now tg) (acc_emp acc))
                               (acc_dept acc) (processed_merges acc))
                seen Hseen).
    + contradiction.
    + apply (IH Hok' (mkSyncAcc (loc_set (uses d) (repoint now "") (acc_emp acc))
                               (acc_dept acc) (processed_merges acc))
                seen Hseen).
Qed.

Lemma sync_loop_app (now : string) (l1 l2 : list (string * sync_action)) :
  forall acc : SyncAcc,
    snd (sync_loop now l1 acc) = true ->
    sync_loop now (l1 ++ l2) acc = sync_loop now l2 (fst (sync_loop now l1 acc)).
Proof.
  induction l1 as [|[d act] l1 IH]; intros acc Hfin; simpl in *.
  - reflexivity.
  - destruct (sync_step now acc d act) as [acc'|]; [now apply IH | discriminate].
Qed.

(** An entry that does not touch the name a row carries leaves the row as
    it is. *)
Lemma sync_step_untouched (now : string) (acc acc' : SyncAcc)
      (d : string) (act : sync_action) (i : nat) (r : Employee) :
  sync_step now acc d act = Some acc' ->
  touches (dept_text r) (d, act) = false ->
  nth_error (acc_emp acc) i = Some r ->
  nth_error (acc_emp acc') i = Some r.
Proof.
  unfold touches, uses. simpl. intros Hstep Ht Hr.
  apply orb_false_iff in Ht. destruct Ht as [Hd Ht].
  destruct act as [nn ds | t mn | [tg|] | ]; simpl in Hstep.
  - injection Hstep as <-. simpl.
    destruct (negb _); [| exact Hr].
    rewrite loc_set_nth_error, Hr. simpl. unfold uses. now rewrite Hd.
  - destruct (existsb _ _).
    + injection Hstep as <-. exact Hr.
    + injection Hstep as <-. simpl.
      rewrite loc_set_nth_error, Hr. simpl. unfold uses. now rewrite Hd, Ht.
  - injection Hstep as <-. simpl.
    rewrite loc_set_nth_error, Hr. simpl. unfold uses. now rewrite Hd.
  - discriminate.
  - injection Hstep as <-. simpl.
    rewrite loc_set_nth_error, Hr. simpl. unfold uses. now rewrite Hd.
Qed.

Lemma sync_loop_untouched (now : string) (items : list (string * sync_action))
      (i : nat) (r : Employee) :
  (forall item, In item items -> touches (dept_text r) item = false) ->
  forall acc : SyncAcc,
    nth_error (acc_emp acc) i = Some r ->
    nth_error (acc_emp (fst (sync_loop now items acc))) i = Some r.
Proof.
  induction items as [|[d act] items IH]; intros Hall acc Hr; simpl.
  - exact Hr.
  - destruct (sync_step now acc d act) as [acc'|] eqn:Estep; [| exact Hr].
    apply IH; [intros item Hin; apply Hall; now right|].
    apply (sync_step_untouched now acc acc' d act i r Estep);
      [apply Hall; now left | exact Hr].
Qed.

Lemma merge_key_sides (d t : string) :
  merge_key d t = (d, t) \/ merge_key d t = (t, d).
Proof. unfold merge_key. destruct (String.ltb t d); [now right | now left]. Qed.

Lemma sync_step_unpaired (now : string) (acc acc' : SyncAcc)
      (d : string) (act : sync_action) (name : string) :
  sync_step now acc d act = Some acc' ->
  touches name (d, act) = false ->
  unpaired name acc -> unpaired name acc'.
Proof.
  unfold touches, unpaired. simpl. intros Hstep Ht Hacc.
  apply orb_false_iff in Ht. destruct Ht as [Hd Ht].
  destruct act as [nn ds | t mn | [tg|] | ]; simpl in Hstep;
    try (injection Hstep as <-; exact Hacc); try discriminate.
  destruct (existsb _ _); injection Hstep as <-; [exact Hacc|].
  simpl. intros k [<- | Hk]; [| now apply Hacc].
  apply String.eqb_neq in Hd, Ht.
  destruct (merge_key_sides d t) as [-> | ->]; simpl; split; congruence.
Qed.

Lemma sync_loop_unpaired (now : string) (items : list (string * sync_action))
      (name : string) :
  (forall item, In item items -> touches name item = false) ->
  forall acc : SyncAcc,
    unpaired name acc -> unpaired name (fst (sync_loop now items acc)).
Proof.
  induction items as [|[d act] items IH]; intros Hall acc Hacc; simpl.
  - exact Hacc.
  - destruct (sync_step now acc d act) as [acc'|] eqn:Estep; [| exact Hacc].
    apply IH; [intros item Hin; apply Hall; now right|].
    apply (sync_step_unpaired now acc acc' d act name Estep);
      [apply Hall; now left | exact Hacc].
Qed.

Lemma unpaired_not_processed (a b : string) (acc : SyncAcc) :
  unpaired a acc -> processed (merge_key a b) acc = false.
Proof.
  unfold unpaired, processed. intros Hacc.
  destruct (existsb _ _) eqn:E; [| reflexivity]. exfalso.
  apply existsb_exists in E. destruct E as [k [Hk E]].
  destruct (Hacc k Hk) as [H1 H2].
  unfold key_eqb in E. apply andb_true_iff in E. destruct E as [E1 E2].
  apply String.eqb_eq in E1, E2.
  destruct (merge_key_sides a b) as [Em | Em]; rewrite Em in E1, E2;
    simpl in *; congruence.
Qed.

Lemma dept_text_repoint (now v : string) (r : Employee) :
  dept_text (repoint now v r) = strip v.
Proof. reflexivity. Qed.

(** C7, as stated, fails when a third name is merged with one of the two.
    On the page, [Opns] and [Ops] are merged with each other under the name
    [Operations] and [Apps] is merged with [Ops] under the name
    [Applications].  The entry of [Apps] is read first: Apply appends two
    department rows, and the employee of [Ops] ends in [Applications], not
    in the name chosen for the pair. *)
Lemma merge_pair_shared_counterexample :
  let batch := draw_sync_page st_apps widgets_merges [] in
  let res := sync_page_apply st_apps widgets_merges [] "t9" st_apps in
  batch = [("Apps", Sync_merge "Ops" (Some "Applications"));
           ("Opns", Sync_merge "Ops" (Some "Operations"));
           ("Ops", Sync_merge "Opns" (Some "Operations"))]
  /\ snd res = Success
  /\ map Department_Name (df_dept (fst res)) = ["IT"; "Applications"; "Operations"]
  /\ map Department (df_emp st_apps) = [Str "Ops"; Str "Opns"; Str "Apps"]
  /\ map Department (df_emp (fst res))
     = [Str "Applications"; Str "Operations"; Str "Applications"].
Proof. repeat split. Qed.

(** C7 (amended): in every batch that passes the gate and holds the entry
    of [a], a merge with [b], before the entry of [b], a merge with [a],
    Apply runs to its end and appends exactly the rows the batch asks for,
    one per create entry and one per pair of names merged with each other;
    the entry of [b] asks for none and changes nothing, the tables being
    those of the batch without it.  When no entry before that of [a]
    touches [a] or [b] and no other entry after it touches the trimmed
    final name, every employee whose trimmed Department was [a] or [b] ends
    with the final name of the entry of [a] and the current time, all other
    columns as they were. *)
Theorem apply_sync_btn_merge_pair_once (persisted : State) (now : string)
        (st : State) (a b : string) (name_a name_b : option string)
        (pre mid post : list (string * sync_action)) :
  let batch := pre ++ (a, Sync_merge b name_a) :: mid
                   ++ (b, Sync_merge a name_b) :: post in
  let without := pre ++ (a, Sync_merge b name_a) :: mid ++ post in
  let final := final_name b name_a in
  missing_depts persisted <> [] ->
  incomplete batch (missing_depts persisted) = [] ->
  (forall item, In item batch -> snd item <> Sync_map None) ->
  let res := apply_sync_btn persisted batch now st in
  snd res = Success
  /\ length (df_dept (fst res))
     = (length (df_dept st) + rows_to_create [] batch)%nat
  /\ rows_to_create [] batch = rows_to_create [] without
  /\ fst res = sync_tables now without st
  /\ ((forall item, In item pre ->
                    touches a item = false /\ touches b item = false) ->
      (forall item, In item (mid ++ post) ->
                    touches (strip final) item = false) ->
      forall i r,
        nth_error (df_emp st) i = Some r ->
        (uses a r || uses b r)%bool = true ->
        nth_error (df_emp (fst res)) i = Some (repoint now final r)).
Proof.
  intros batch without final Hmiss Hgate Hok res.
  set (acc0 := mkSyncAcc (df_emp st) (df_dept st) []).
  assert (Hsame : sync_loop now batch acc0 = sync_loop now without acc0).
  { apply sync_loop_second_side. }
  assert (Hok' : forall item, In item without -> snd item <> Sync_map None).
  { intros item Hin. apply Hok. unfold batch, without in *.
    apply in_app_iff in Hin. apply in_app_iff.
    destruct Hin as [Hin | [<- | Hin]]; [now left | right; now left |].
    right. right. apply in_app_iff in Hin. apply in_app_iff.
    destruct Hin as [Hin | Hin]; [now left | right; now right]. }
  destruct (sync_loop_rows now batch Hok acc0 [] eq_refl) as [Hfin Hlen].
  destruct (sync_loop_rows now without Hok' acc0 [] eq_refl) as [Hfin' Hlen'].
  assert (Hres : res = (sync_tables now batch st, Success)).
  { subst res. unfold apply_sync_btn, sync_tables.
    destruct (missing_depts persisted) as [|m ms]; [congruence|].
    rewrite Hgate. fold acc0.
    destruct (sync_loop now batch acc0) as [acc fin]. simpl in Hfin.
    subst fin. reflexivity. }
  rewrite Hres. cbn [fst snd].
  split; [reflexivity|]. split; [exact Hlen|].
  split; [rewrite Hsame in Hlen; simpl in *; lia|].
  split; [unfold sync_tables; fold acc0; now rewrite Hsame|].
  intros Hpre Hlater i r Hr Hab.
  unfold sync_tables. fold acc0. rewrite Hsame. cbn [df_emp].
  assert (Hpre_ok : forall item, In item pre -> snd item <> Sync_map None).
  { intros item Hin. apply Hok. apply in_app_iff. now left. }
  destruct (sync_loop_rows now pre Hpre_ok acc0 [] eq_refl) as [Hfin1 _].
  unfold without. rewrite (sync_loop_app now pre _ acc0 Hfin1).
  set (acc1 := fst (sync_loop now pre acc0)).
  assert (Hr1 : nth_error (acc_emp acc1) i = Some r).
  { apply sync_loop_untouched; [| exact Hr].
    intros item Hin. destruct (Hpre item Hin) as [Ha Hb].
    apply orb_true_iff in Hab. unfold uses in Hab.
    destruct Hab as [E | E]; apply String.eqb_eq in E; now rewrite E. }
  assert (Hun : unpaired a acc1).
  { apply sync_loop_unpaired; [intros item Hin; now apply Hpre|].
    intros k []. }
  cbn [sync_loop sync_step].
  pose proof (unpaired_not_processed a b acc1 Hun) as Hnp.
  unfold processed in Hnp. rewrite Hnp.
  apply sync_loop_untouched.
  - intros item Hin. rewrite dept_text_repoint. now apply Hlater.
  - cbn [acc_emp]. rewrite loc_set_nth_error, Hr1. simpl. now rewrite Hab.
Qed.

Lemma apply_sync_btn_merge_pair_once_witness :
  let res := apply_sync_btn st_five batch_five "t9" st_five in
  snd res = Success
  /\ length (df_dept (fst res)) = (length (df_dept st_five) + 3)%nat
  /\ nth_error (df_emp (fst res)) 0 = Some (repoint "t9" "Operations" emp_ops)
  /\ nth_error (df_emp (fst res)) 1 = Some (repoint "t9" "Operations" emp_opns).
Proof.
  destruct (apply_sync_btn_merge_pair_once st_five "t9" st_five "Opns" "Ops"
              (Some "Operations") (Some "Opns")
              [("Apps", Sync_create (Some "Apps")
                          (Some "Synced from employee records"))]
              [("Wbe", Sync_merge "Web" (Some "Web"))]
              [("Web", Sync_merge "Wbe" (Some "Wbe"))])
    as [Hok [Hlen [_ [_ Hemp]]]].
  - vm_compute. discriminate.
  - reflexivity.
  - intros item [<- | [<- | [<- | [<- | [<- | []]]]]]; discriminate.
  - split; [exact Hok|]. split; [exact Hlen|].
    assert (Hpre : forall item : string * sync_action,
               In item [("Apps", Sync_create (Some "Apps")
                                   (Some "Synced from employee records"))] ->
               touches "Opns" item = false /\ touches "Ops" item = false).
    { intros item [<- | []]. split; reflexivity. }
    assert (Hlater : forall item : string * sync_action,
               In item ([("Wbe", Sync_merge "Web" (Some "Web"))]
                          ++ [("Web", Sync_merge "Wbe" (Some "Wbe"))]) ->
               touches (strip (final_name "Ops" (Some "Operations"))) item
               = false).
    { intros item [<- | [<- | []]]; reflexivity. }
    split.
    + apply (Hemp Hpre Hlater 0%nat emp_ops); reflexivity.
    + apply (Hemp Hpre Hlater 1%nat emp_opns); reflexivity.
Defined.

(** * Further properties of the code *)

(** ** Row IDs stay distinct *)

Lemma str_of_Z_inj (x y : Z) : str_of_Z x = str_of_Z y -> x = y.
Proof.
  unfold str_of_Z. intros H. apply DecimalZ.to_int_inj.
  assert (Hnn : forall z, Z.to_int z <> Decimal.Pos Decimal.Nil
                          /\ Z.to_int z <> Decimal.Neg Decimal.Nil).
  { intros [|p|p]; simpl; split; try discriminate;
      intros E; injection E as E; now apply DecimalPos.Unsigned.to_uint_nonnil in E. }
  assert (E : Some (Z.to_int x) = Some (Z.to_int y)).
  { rewrite <- (NilZero.isi (Z.to_int x)) by apply Hnn.
    rewrite <- (NilZero.isi (Z.to_int y)) by apply Hnn.
    now rewrite H. }
  now injection E.
Qed.

(** On a table of integer Row IDs the allocated identifier is above every
    identifier in use. *)
Lemma next_row_id_above (df : list Employee) :
  (forall r, In r df -> is_Num (Row_ID r)) ->
  forall r z, In r df -> Row_ID r = Num z -> z < next_row_id df.
Proof.
  intros Hall r z Hr Ez.
  destruct (next_row_id_integers df) as [m [_ [Hub ->]]].
  - intros r' Hr'. right. now apply Hall.
  - exists r. split; [assumption | now exists z].
  - specialize (Hub r z Hr Ez). lia.
Qed.

Lemma next_row_id_natural (df : list Employee) :
  row_ids_natural df -> 1 <= next_row_id df.
Proof.
  intros Hnat. destruct df as [|r df]; [simpl; lia|].
  destruct (Hnat r (or_introl eq_refl)) as [z [Ez Hz]].
  assert (H : z < next_row_id (r :: df)).
  { apply (next_row_id_above (r :: df)) with (r := r); [| now left | assumption].
    intros r' Hr'. destruct (Hnat r' Hr') as [z' [E _]]. now exists z'. }
  lia.
Qed.

(** The two ways the Quick Add form ends. *)
Lemma add_emp_form_cases (now : string) (f : EmpForm) (st : State) :
  (fst (add_emp_form now f st) = st
   /\ rejected (snd (add_emp_form now f st)) = true)
  \/ (add_emp_form now f st =
      (mkState (df_emp st
                ++ [add_emp_row (next_row_id (df_emp st))
                                (strip (new_empid f)) now f])
               (df_dept st), Success)
      /\ (strip (new_empid f) = ""
          \/ ~ In (strip (new_empid f)) (employee_ids (df_emp st)))).
Proof.
  destruct (String.eqb_spec (new_name f) "") as [En | En].
  { left. unfold add_emp_form. apply truthy_false in En. rewrite En.
    now split. }
  destruct (String.eqb_spec (new_extension f) "") as [Ee | Ee].
  { left. unfold add_emp_form. apply truthy_true in En.
    apply truthy_false in Ee. rewrite En, Ee. now split. }
  destruct (String.eqb_spec (strip (new_empid f)) "") as [Ei | Ei].
  { right. split; [| now left].
    apply add_emp_form_accepts; [assumption | assumption | now left]. }
  destruct (in_values (strip (new_empid f)) (employee_ids (df_emp st))) eqn:Ein.
  - left. unfold add_emp_form. apply truthy_true in En, Ee, Ei.
    unfold employee_ids in Ein. rewrite En, Ee, Ei. simpl.
    rewrite Ei, Ein. now split.
  - right. apply in_values_not_In in Ein. split; [| now right].
    apply add_emp_form_accepts; [assumption | assumption | now right].
Qed.

(** X1: the Quick Add form keeps the Row IDs distinct integers: on a table
    whose Row IDs are integers, no two alike, the table it leaves has the
    same property, whether it rejects or appends. *)
Theorem add_emp_form_keeps_row_ids_distinct (now : string) (f : EmpForm)
        (st : State) :
  row_ids_distinct (df_emp st) ->
  row_ids_distinct (df_emp (fst (add_emp_form now f st))).
Proof.
  intros [Hnum Hnd].
  destruct (add_emp_form_cases now f st) as [[-> _] | [-> _]];
    [now split|].
  simpl. split.
  - intros r Hr. apply in_app_iff in Hr. destruct Hr as [Hr | [<- | []]].
    + now apply Hnum.
    + eexists. reflexivity.
  - rewrite map_app. simpl. apply NoDup_snoc; [assumption|].
    intros Hin. apply in_map_iff in Hin. destruct Hin as [r [E Hr]].
    pose proof (next_row_id_above (df_emp st) Hnum r _ Hr E). lia.
Qed.

Lemma add_emp_form_keeps_row_ids_distinct_witness :
  row_ids_distinct (df_emp (fst (add_emp_form "t9" form_carl st_two))).
Proof.
  apply add_emp_form_keeps_row_ids_distinct. split.
  - intros r [<- | [<- | []]]; eexists; reflexivity.
  - simpl. constructor; [intros [H | []]; discriminate|].
    constructor; [intros [] | constructor].
Defined.

(** ** Employee IDs stay unique *)

Lemma nth_error_snoc {A : Type} (l : list A) (x : A) (i : nat) (y : A) :
  nth_error (l ++ [x]) i = Some y ->
  (nth_error l i = Some y /\ (i < length l)%nat)
  \/ (i = length l /\ y = x).
Proof.
  intros H. destruct (Nat.lt_ge_cases i (length l)) as [Hlt | Hge].
  - left. rewrite nth_error_app1 in H by assumption. now split.
  - right. rewrite nth_error_app2 in H by assumption.
    destruct (i - length l)%nat as [|k] eqn:Ek; simpl in H.
    + injection H as <-. split; [lia | reflexivity].
    + destruct k; discriminate.
Qed.

Lemma nth_error_employee_id (df : list Employee) (i : nat) (r : Employee) :
  nth_error df i = Some r ->
  In (astype_str (Employee_ID r)) (employee_ids df).
Proof.
  intros H. unfold employee_ids. apply in_map_iff. exists r.
  split; [reflexivity | exact (nth_error_In _ _ H)].
Qed.

(** X2: the Quick Add form keeps the texts of the Employee ID column
    unique: if no two rows with an Employee ID have the same text under
    [astype(str)] before, none do after.  The text is what the form
    compares: a cell read as the float 1001.0 has the text [1001.0], which
    the typed [1001] is not. *)
Theorem add_emp_form_keeps_employee_ids_unique (now : string) (f : EmpForm)
        (st : State) :
  employee_ids_unique (df_emp st) ->
  employee_ids_unique (df_emp (fst (add_emp_form now f st))).
Proof.
  intros Huniq.
  destruct (add_emp_form_cases now f st) as [[-> _] | [-> Hfresh]];
    [assumption|].
  simpl. intros i j ri rj Hi Hj Pi Pj Eij.
  apply nth_error_snoc in Hi, Hj.
  destruct Hi as [[Hi Hli] | [-> ->]], Hj as [[Hj Hlj] | [-> ->]].
  - exact (Huniq i j ri rj Hi Hj Pi Pj Eij).
  - exfalso. simpl in Eij, Pj. destruct Hfresh as [E | Hnin].
    + destruct Pj as [_ Pj]. contradiction.
    + apply Hnin. rewrite <- Eij. exact (nth_error_employee_id _ _ _ Hi).
  - exfalso. simpl in Eij, Pi. destruct Hfresh as [E | Hnin].
    + destruct Pi as [_ Pi]. contradiction.
    + apply Hnin. rewrite Eij. exact (nth_error_employee_id _ _ _ Hj).
  - reflexivity.
Qed.

Lemma employee_ids_unique_st_two : employee_ids_unique (df_emp st_two).
Proof.
  intros i j ri rj Hi Hj _ _ E.
  destruct i as [|[|i]], j as [|[|j]]; simpl in Hi, Hj;
    try reflexivity;
    try (injection Hi as <-); try (injection Hj as <-);
    try discriminate;
    try (destruct i; discriminate); try (destruct j; discriminate).
Qed.

Lemma add_emp_form_keeps_employee_ids_unique_witness :
  employee_ids_unique (df_emp (fst (add_emp_form "t9" form_carl st_two))).
Proof.
  apply add_emp_form_keeps_employee_ids_unique.
  exact employee_ids_unique_st_two.
Defined.

(** ** Adding and deleting an employee *)

Lemma first_index_app {A : Type} (p : A -> bool) (l1 l2 : list A) :
  first_index p (l1 ++ l2) =
  match first_index p l1 with
  | Some i => Some i
  | None => option_map (fun i => (length l1 + i)%nat) (first_index p l2)
  end.
Proof.
  induction l1 as [|r l1 IH]; simpl.
  - destruct (first_index p l2); reflexivity.
  - destruct (p r); [reflexivity|]. rewrite IH.
    destruct (first_index p l1); [reflexivity|].
    destruct (first_index p l2); reflexivity.
Qed.

Lemma drop_index_snoc {A : Type} (l : list A) (x : A) :
  drop_index (length l) (l ++ [x]) = l.
Proof.
  induction l as [|y l IH]; simpl; [reflexivity | now rewrite IH].
Qed.

(** X3: adding an employee and then deleting the row just added gives the
    tables back.  On a table whose Row IDs are integers that are not
    negative, when the Quick Add form accepts, the Delete User button for
    the Row ID it allocated removes exactly the appended row. *)
Theorem add_then_delete_round_trip (now : string) (f : EmpForm) (st : State) :
  row_ids_natural (df_emp st) ->
  snd (add_emp_form now f st) = Success ->
  edit_emp_delete (Num (next_row_id (df_emp st))) (fst (add_emp_form now f st))
  = (st, Success).
Proof.
  intros Hnat Hok.
  destruct (add_emp_form_cases now f st) as [[_ Hrej] | [E _]].
  { rewrite Hok in Hrej. discriminate. }
  rewrite E. simpl. unfold edit_emp_delete.
  pose proof (next_row_id_natural _ Hnat) as Hpos.
  assert (Htrue : cell_truthy (Num (next_row_id (df_emp st))) = true).
  { simpl. apply negb_true_iff. apply Z.eqb_neq. lia. }
  rewrite Htrue. simpl negb. cbv iota.
  assert (Hnone : first_index
                    (fun r => String.eqb (astype_str (Row_ID r))
                                (astype_str (Num (next_row_id (df_emp st)))))
                    (df_emp st) = None).
  { apply first_index_none. intros r Hr. apply String.eqb_neq. intros Heq.
    destruct (Hnat r Hr) as [z [Ez _]]. rewrite Ez in Heq. simpl in Heq.
    apply str_of_Z_inj in Heq.
    assert (Hlt : z < next_row_id (df_emp st)).
    { apply (next_row_id_above (df_emp st)) with (r := r); try assumption.
      intros r' Hr'. destruct (Hnat r' Hr') as [z' [E' _]]. now exists z'. }
    lia. }
  unfold matched_index. cbn [df_emp]. rewrite first_index_app, Hnone.
  simpl. rewrite String.eqb_refl. simpl. rewrite Nat.add_0_r.
  rewrite drop_index_snoc. now destruct st.
Qed.

Lemma add_then_delete_round_trip_witness :
  edit_emp_delete (Num 3) (fst (add_emp_form "t9" form_carl st_two))
  = (st_two, Success).
Proof.
  apply (add_then_delete_round_trip "t9" form_carl st_two).
  - intros r [<- | [<- | []]]; eexists; (split; [reflexivity | lia]).
  - reflexivity.
Defined.

(** ** The Edit Employee form *)

(** The ways the Save Changes button ends: nothing changes, or the first
    row matching the Row ID is rewritten, with an Employee ID that is kept,
    blanked, or new to the table. *)
Lemma edit_emp_save_cases (now : string) (edit_id : cell) (f : EditForm)
      (st : State) :
  (fst (edit_emp_save now edit_id f st) = st
   /\ snd (edit_emp_save now edit_id f st) <> Success)
  \/ exists idx row new_id,
      matched_index edit_id (df_emp st) = Some idx
      /\ nth_error (df_emp st) idx = Some row
      /\ strip (ed_name f) <> "" /\ strip (ed_extension f) <> ""
      /\ (new_id = None
          \/ new_id = Some ""
          \/ exists e, new_id = Some e
                       /\ ~ In e (employee_ids (df_emp st)))
      /\ edit_emp_save now edit_id f st =
         (mkState (at_set idx
                     (edited_row now (next_row_id (df_emp st)) new_id f)
                     (df_emp st))
                  (df_dept st), Success).
Proof.
  unfold edit_emp_save.
  destruct (cell_truthy edit_id); simpl; [| left; split; [reflexivity | discriminate]].
  destruct (matched_index edit_id (df_emp st)) as [idx|] eqn:Em;
    [| left; split; [reflexivity | discriminate]].
  destruct (nth_error (df_emp st) idx) as [row|] eqn:Er;
    [| left; split; [reflexivity | discriminate]].
  destruct (truthy (strip (ed_name f))) eqn:En; simpl;
    [| left; split; [reflexivity | discriminate]].
  destruct (truthy (strip (ed_extension f))) eqn:Ee; simpl;
    [| left; split; [reflexivity | discriminate]].
  apply truthy_true in En, Ee.
  destruct (String.eqb (strip (ed_employee_id f))
                       (astype_str (Employee_ID row))); simpl.
  - right. exists idx, row, None. repeat split; try assumption. now left.
  - destruct (truthy (strip (ed_employee_id f))) eqn:Et; simpl.
    + destruct (in_values (strip (ed_employee_id f))
                  (map (fun r => astype_str (Employee_ID r)) (df_emp st)))
        eqn:Ein; [left; split; [reflexivity | discriminate]|].
      right. exists idx, row, (Some (strip (ed_employee_id f))).
      repeat split; try assumption. right. right.
      exists (strip (ed_employee_id f)). split; [reflexivity|].
      now apply in_values_not_In.
    + right. apply truthy_false in Et.
      exists idx, row, (Some (strip (ed_employee_id f))).
      repeat split; try assumption. right. left. now rewrite Et.
Qed.

(** X4: the Save Changes button of the Edit Employee form either leaves
    both tables as they were (it reports no success) or rewrites one row
    only: the first row whose Row ID, as text, is the edited one.  The
    number of rows, the Departments sheet and every other row are kept; the
    rewritten row keeps its Row ID when it has one, takes the trimmed name
    and extension, which are not blank, and the current time. *)
Theorem edit_emp_save_frame (now : string) (edit_id : cell) (f : EditForm)
        (st : State) :
  let res := edit_emp_save now edit_id f st in
  (snd res <> Success -> fst res = st)
  /\ (snd res = Success ->
      exists idx row row',
        matched_index edit_id (df_emp st) = Some idx
        /\ nth_error (df_emp st) idx = Some row
        /\ nth_error (df_emp (fst res)) idx = Some row'
        /\ (forall i, i <> idx ->
                      nth_error (df_emp (fst res)) i = nth_error (df_emp st) i)
        /\ length (df_emp (fst res)) = length (df_emp st)
        /\ df_dept (fst res) = df_dept st
        /\ (Row_ID row <> NaN -> Row_ID row' = Row_ID row)
        /\ Name row' = Str (strip (ed_name f))
        /\ Extension row' = Str (strip (ed_extension f))
        /\ strip (ed_name f) <> "" /\ strip (ed_extension f) <> ""
        /\ Last_Updated row' = Str now).
Proof.
  intros res. subst res.
  destruct (edit_emp_save_cases now edit_id f st)
    as [[Hst Hrep] | [idx [row [new_id [Hm [Hr [Hn [He [_ E]]]]]]]]].
  - split; [intros _; exact Hst | intros H; contradiction].
  - rewrite E. simpl. split; [intros H; now contradiction H|]. intros _.
    exists idx, row, (edited_row now (next_row_id (df_emp st)) new_id f row).
    split; [assumption|]. split; [assumption|].
    split; [rewrite at_set_nth_error, Nat.eqb_refl, Hr; reflexivity|].
    split.
    { intros i Hi. rewrite at_set_nth_error.
      apply Nat.eqb_neq in Hi. now rewrite Hi. }
    split; [apply at_set_length|]. split; [reflexivity|].
    split; [| repeat split; assumption].
    intros Hid. simpl. destruct (Row_ID row); [contradiction | | | ]; reflexivity.
Qed.

Lemma edit_emp_save_frame_witness :
  exists row',
    nth_error (df_emp (fst (edit_emp_save "t9" (Num 1) form_edit_ann st_two))) 0
    = Some row'
    /\ Name row' = Str "Ann B".
Proof.
  destruct (proj2 (edit_emp_save_frame "t9" (Num 1) form_edit_ann st_two))
    as [idx [row [row' [Hm [_ [Hrow' [_ [_ [_ [_ [Hname _]]]]]]]]]]].
  - reflexivity.
  - injection Hm as <-. exists row'. split; [exact Hrow' | exact Hname].
Defined.

(** X5: the Save Changes button keeps the texts of the Employee ID column
    unique: it refuses an Employee ID that differs from the text of the
    row's own and is the text of a cell of the column, so a table in which
    no two rows with an Employee ID have the same text under [astype(str)]
    stays so.  The text of a cell read as the float 1001.0 is [1001.0]. *)
Theorem edit_emp_save_keeps_employee_ids_unique (now : string) (edit_id : cell)
        (f : EditForm) (st : State) :
  employee_ids_unique (df_emp st) ->
  employee_ids_unique (df_emp (fst (edit_emp_save now edit_id f st))).
Proof.
  intros Huniq.
  destruct (edit_emp_save_cases now edit_id f st)
    as [[-> _] | [idx [row [new_id [_ [Hr [_ [_ [Hnew ->]]]]]]]]];
    [assumption|].
  simpl. intros i j ri rj Hi Hj Pi Pj Eij.
  rewrite at_set_nth_error in Hi, Hj.
  assert (Hside : forall k rk r',
             k <> idx -> nth_error (df_emp st) k = Some rk ->
             r' = edited_row now (next_row_id (df_emp st)) new_id f row ->
             has_employee_id r' -> has_employee_id rk ->
             astype_str (Employee_ID r') = astype_str (Employee_ID rk) ->
             False).
  { intros k rk r' Hk Hrk -> Pr Pk E. simpl in E, Pr.
    destruct Hnew as [-> | [-> | [e [-> Hnin]]]].
    - apply Hk. symmetry. exact (Huniq idx k row rk Hr Hrk Pr Pk E).
    - destruct Pr as [_ Pr]. now apply Pr.
    - apply Hnin. simpl in E. rewrite E.
      exact (nth_error_employee_id _ _ _ Hrk). }
  destruct (Nat.eqb_spec i idx) as [-> | Hi'], (Nat.eqb_spec j idx) as [-> | Hj'].
  - reflexivity.
  - exfalso. rewrite Hr in Hi. simpl in Hi. injection Hi as <-.
    exact (Hside j rj _ Hj' Hj eq_refl Pi Pj Eij).
  - exfalso. rewrite Hr in Hj. simpl in Hj. injection Hj as <-.
    exact (Hside i ri _ Hi' Hi eq_refl Pj Pi (eq_sym Eij)).
  - exact (Huniq i j ri rj Hi Hj Pi Pj Eij).
Qed.

Lemma edit_emp_save_keeps_employee_ids_unique_witness :
  employee_ids_unique
    (df_emp (fst (edit_emp_save "t9" (Num 1) form_edit_ann st_two))).
Proof.
  apply edit_emp_save_keeps_employee_ids_unique.
  exact employee_ids_unique_st_two.
Defined.

(** ** Loading: every employee gets a Row ID *)

Lemma set_Row_ID_same (r : Employee) : set_Row_ID (Row_ID r) r = r.
Proof. now destruct r. Qed.

Lemma assign_from_nth (df : list Employee) :
  forall (m : Z) (i : nat) (r : Employee),
    nth_error df i = Some r ->
    exists r',
      nth_error (assign_from m df) i = Some r'
      /\ missing_id (Row_ID r') = false
      /\ r' = set_Row_ID (Row_ID r') r
      /\ (missing_id (Row_ID r) = false -> r' = r).
Proof.
  induction df as [|r0 df IH]; intros m i r Hi.
  - destruct i; discriminate.
  - simpl. destruct (missing_id (Row_ID r0)) eqn:Em.
    + destruct i as [|i]; simpl in *.
      * injection Hi as <-. eexists. split; [reflexivity|].
        split; [reflexivity|]. split; [reflexivity|]. congruence.
      * now apply IH.
    + destruct i as [|i]; simpl in *.
      * injection Hi as <-. exists r0. split; [reflexivity|].
        split; [assumption|]. split; [symmetry; apply set_Row_ID_same|].
        reflexivity.
      * now apply IH.
Qed.

Lemma assign_from_length (df : list Employee) (m : Z) :
  length (assign_from m df) = length df.
Proof.
  revert m. induction df as [|r df IH]; intros m; simpl; [reflexivity|].
  destruct (missing_id (Row_ID r)); simpl; now rewrite IH.
Qed.

(** X6: after the loading step that fills the Row IDs, no row lacks one.
    The number of rows is kept, a row that had a Row ID is unchanged, and a
    row that had none differs from what it was in its Row ID only. *)
Theorem ensure_row_ids_fills (df : list Employee) :
  length (ensure_row_ids df) = length df
  /\ forall i r,
      nth_error df i = Some r ->
      exists r',
        nth_error (ensure_row_ids df) i = Some r'
        /\ missing_id (Row_ID r') = false
        /\ r' = set_Row_ID (Row_ID r') r
        /\ (missing_id (Row_ID r) = false -> r' = r).
Proof.
  unfold ensure_row_ids. destruct df as [|r0 df0]; [split; [reflexivity|]|].
  { intros i r Hi. destruct i; discriminate. }
  remember (r0 :: df0) as df eqn:Edf.
  destruct (existsb missing_id (map Row_ID df)) eqn:Eex.
  - split; [apply assign_from_length | intros i r; apply assign_from_nth].
  - split; [reflexivity|]. intros i r Hi. exists r.
    assert (Hok : missing_id (Row_ID r) = false).
    { destruct (missing_id (Row_ID r)) eqn:Em; [| reflexivity].
      assert (H : existsb missing_id (map Row_ID df) = true).
      { apply existsb_exists. exists (Row_ID r). split; [| assumption].
        apply in_map. exact (nth_error_In _ _ Hi). }
      congruence. }
    split; [assumption|]. split; [assumption|].
    split; [symmetry; apply set_Row_ID_same | reflexivity].
Qed.





(** ** Departments stay unique up to case under the Edit form *)

Lemma at_set_map_const {A B : Type} (g : A -> B) (f : A -> A) (x : B)
      (idx : nat) (df : list A) :
  (forall r, g (f r) = x) ->
  map g (at_set idx f df) = at_set idx (fun _ => x) (map g df).
Proof.
  intros Hg. revert idx.
  induction df as [|r df IH]; intros [|i]; simpl; try reflexivity.
  - now rewrite Hg.
  - now rewrite IH.
Qed.

Lemma In_at_set_const {A : Type} (x y : A) (idx : nat) (l : list A) :
  In y (at_set idx (fun _ => x) l) -> y = x \/ In y l.
Proof.
  revert idx. induction l as [|a l IH]; intros [|i] H; simpl in H.
  - destruct H.
  - destruct H.
  - destruct H as [<- | H]; [now left | right; now right].
  - destruct H as [<- | H]; [right; now left|].
    destruct (IH i H) as [E | Hin]; [now left | right; now right].
Qed.

Lemma NoDup_at_set_const {A : Type} (x a : A) (idx : nat) (l : list A) :
  NoDup l -> nth_error l idx = Some a -> (x = a \/ ~ In x l) ->
  NoDup (at_set idx (fun _ => x) l).
Proof.
  revert idx. induction l as [|b l IH]; intros [|i] Hnd Hnth Hx;
    simpl in *; try discriminate.
  - injection Hnth as ->. inversion Hnd as [|? ? Hb Hl]; subst.
    constructor; [| assumption]. destruct Hx as [-> | Hx]; [assumption|].
    intros H. apply Hx. now right.
  - inversion Hnd as [|? ? Hb Hl]; subst. constructor.
    + intros H. apply In_at_set_const in H. destruct H as [-> | H];
        [| contradiction].
      destruct Hx as [-> | Hx]; [| apply Hx; now left].
      apply Hb. exact (nth_error_In _ _ Hnth).
    + apply (IH i Hl Hnth). destruct Hx as [-> | Hx]; [now left | right].
      intros H. apply Hx. now right.
Qed.

(** X8: the Save button of the Edit Department form keeps the department
    names unique up to case, and never changes a Dept ID nor the number of
    rows. *)
Theorem edit_dept_save_keeps_unique_ci (idx : nat) (dn dd : string)
        (st : State) :
  unique_ci (df_dept st) ->
  let res := edit_dept_save idx dn dd st in
  unique_ci (df_dept (fst res))
  /\ map Dept_ID (df_dept (fst res)) = map Dept_ID (df_dept st)
  /\ length (df_emp (fst res)) = length (df_emp st).
Proof.
  intros Huniq res. subst res. unfold edit_dept_save.
  destruct (nth_error (df_dept st) idx) as [row|] eqn:Hrow;
    [| now repeat split].
  destruct (negb (truthy (strip dn))); [now repeat split|].
  destruct (String.eqb (lower (strip dn)) (lower (Department_Name row)))
    eqn:Esame; simpl.
  - apply String.eqb_eq in Esame. split; [| split].
    + unfold unique_ci.
      rewrite (at_set_map_const _ _ (lower (strip dn))) by reflexivity.
      apply NoDup_at_set_const with (a := lower (Department_Name row));
        [assumption | | now left].
      rewrite nth_error_map, Hrow. reflexivity.
    + now apply at_set_map.
    + destruct (negb (String.eqb (Department_Name row) (strip dn)));
        [apply loc_set_length | reflexivity].
  - destruct (in_values (lower (strip dn))
                (map (fun d => lower (Department_Name d)) (df_dept st)))
      eqn:Ein; simpl; [now repeat split|].
    apply in_values_not_In in Ein. split; [| split].
    + unfold unique_ci.
      rewrite (at_set_map_const _ _ (lower (strip dn))) by reflexivity.
      apply NoDup_at_set_const with (a := lower (Department_Name row));
        [assumption | | now right].
      rewrite nth_error_map, Hrow. reflexivity.
    + now apply at_set_map.
    + destruct (negb (String.eqb (Department_Name row) (strip dn)));
        [apply loc_set_length | reflexivity].
Qed.

Lemma edit_dept_save_keeps_unique_ci_witness :
  unique_ci (df_dept (fst (edit_dept_save 0 " SALES " "" st_two))).
Proof.
  apply (edit_dept_save_keeps_unique_ci 0 " SALES " "" st_two).
  unfold unique_ci. simpl. constructor; [intros [] | constructor].
Defined.

(** ** What the sync and management batches never do *)

Lemma loc_set_identity_columns (mask : Employee -> bool) (now v : string)
      (df : list Employee) :
  map identity_columns (loc_set mask (repoint now v) df)
  = map identity_columns df.
Proof.
  unfold loc_set. rewrite map_map. apply map_ext. intros r.
  now destruct (mask r).
Qed.

Lemma sync_step_keeps_rows (now : string) (acc acc' : SyncAcc)
      (dept_name : string) (action : sync_action) :
  sync_step now acc dept_name action = Some acc' ->
  map identity_columns (acc_emp acc') = map identity_columns (acc_emp acc)
  /\ exists added, acc_dept acc' = acc_dept acc ++ added.
Proof.
  intros H.
  destruct action as [new_name description | merge_target merged_name
                      | [target|] | ]; simpl in H.
  - injection H as <-. simpl. split; [| eexists; reflexivity].
    destruct (negb _); [apply loc_set_identity_columns | reflexivity].
  - destruct (existsb _ _).
    + injection H as <-. split; [reflexivity|]. exists [].
      now rewrite app_nil_r.
    + injection H as <-. simpl.
      split; [apply loc_set_identity_columns | eexists; reflexivity].
  - injection H as <-. simpl.
    split; [apply loc_set_identity_columns|]. exists []. now rewrite app_nil_r.
  - discriminate.
  - injection H as <-. simpl.
    split; [apply loc_set_identity_columns|]. exists []. now rewrite app_nil_r.
Qed.

Lemma sync_loop_keeps_rows (now : string) (items : list (string * sync_action)) :
  forall acc : SyncAcc,
    map identity_columns (acc_emp (fst (sync_loop now items acc)))
    = map identity_columns (acc_emp acc)
    /\ exists added,
        acc_dept (fst (sync_loop now items acc)) = acc_dept acc ++ added.
Proof.
  induction items as [|[d a] items IH]; intros acc; simpl.
  - split; [reflexivity|]. exists []. now rewrite app_nil_r.
  - destruct (sync_step now acc d a) as [acc'|] eqn:Estep; simpl.
    + destruct (sync_step_keeps_rows now acc acc' d a Estep) as [He [ad Hd]].
      destruct (IH acc') as [He' [ad' Hd']].
      split; [now rewrite He', He|].
      exists (ad ++ ad'). now rewrite Hd', Hd, app_assoc.
    + split; [reflexivity|]. exists []. now rewrite app_nil_r.
Qed.

(** X9: whatever the batch, the Apply button of the sync page never adds,
    removes or reorders an employee row and writes no employee column other
    than Department and Last Updated; and it never removes or alters a row
    of the Departments sheet: the sheet it leaves is the old one followed by
    the rows it created. *)
Theorem apply_sync_btn_keeps_rows (persisted : State)
        (sync_dept_actions : list (string * sync_action))
        (now : string) (st : State) :
  let res := apply_sync_btn persisted sync_dept_actions now st in
  map identity_columns (df_emp (fst res)) = map identity_columns (df_emp st)
  /\ exists added, df_dept (fst res) = df_dept st ++ added.
Proof.
  intros res. subst res. unfold apply_sync_btn.
  assert (Hsame : map identity_columns (df_emp st)
                  = map identity_columns (df_emp st)
                  /\ exists added, df_dept st = df_dept st ++ added).
  { split; [reflexivity|]. exists []. now rewrite app_nil_r. }
  destruct (missing_depts persisted); [exact Hsame|].
  destruct (incomplete sync_dept_actions (s :: l)); [| exact Hsame].
  pose proof (sync_loop_keeps_rows now sync_dept_actions
                (mkSyncAcc (df_emp st) (df_dept st) [])) as H.
  destruct (sync_loop now sync_dept_actions
              (mkSyncAcc (df_emp st) (df_dept st) [])) as [acc fin].
  exact H.
Qed.

Lemma incl_filter {A : Type} (p : A -> bool) (l : list A) : incl (filter p l) l.
Proof. intros x H. apply filter_In in H. tauto. Qed.

Lemma loc_set_dept_ids (mask : Dept -> bool) (f : Dept -> Dept)
      (df : list Dept) :
  (forall d, Dept_ID (f d) = Dept_ID d) ->
  map Dept_ID (loc_set mask f df) = map Dept_ID df.
Proof.
  intros Hf. unfold loc_set. rewrite map_map. apply map_ext. intros d.
  destruct (mask d); [apply Hf | reflexivity].
Qed.

Lemma map_filter_incl {A B : Type} (g : A -> B) (p : A -> bool) (l : list A) :
  incl (map g (filter p l)) (map g l).
Proof.
  intros y H. apply in_map_iff in H. destruct H as [x [<- Hx]].
  apply in_map. now apply (incl_filter p l).
Qed.

Lemma filter_length_le {A : Type} (p : A -> bool) (l : list A) :
  (length (filter p l) <= length l)%nat.
Proof.
  induction l as [|x l IH]; simpl; [lia|]. destruct (p x); simpl; lia.
Qed.

Lemma manage_step_keeps_rows (now : string) (st : State)
      (item : string * manage_action) :
  map identity_columns (df_emp (manage_step now st item))
  = map identity_columns (df_emp st)
  /\ incl (map Dept_ID (df_dept (manage_step now st item)))
          (map Dept_ID (df_dept st))
  /\ (length (df_dept (manage_step now st item)) <= length (df_dept st))%nat.
Proof.
  destruct item as [dept_id [old new desc | old target
                             | n1 i1 n2 i2 fin del | old]]; simpl.
  - split; [apply loc_set_identity_columns|]. split.
    + rewrite loc_set_dept_ids by reflexivity. apply incl_refl.
    + rewrite loc_set_length. lia.
  - split; [apply loc_set_identity_columns|]. split.
    + apply map_filter_incl.
    + apply filter_length_le.
  - split; [apply loc_set_identity_columns|]. split.
    + eapply incl_tran; [apply map_filter_incl|].
      rewrite loc_set_dept_ids by reflexivity. apply incl_refl.
    + eapply Nat.le_trans; [apply filter_length_le|].
      rewrite loc_set_length. lia.
  - split; [reflexivity|]. split.
    + apply map_filter_incl.
    + apply filter_length_le.
Qed.

(** X10: whatever the batch, the Apply button of the management page never
    adds, removes or reorders an employee row and writes no employee column
    other than Department and Last Updated; it never adds a department: the
    Dept IDs it leaves are among those it found, in no more rows. *)
Theorem apply_manage_btn_keeps_rows (now : string)
        (dept_manage_actions : list (string * manage_action)) (st : State) :
  let res := apply_manage_btn now dept_manage_actions st in
  map identity_columns (df_emp (fst res)) = map identity_columns (df_emp st)
  /\ incl (map Dept_ID (df_dept (fst res))) (map Dept_ID (df_dept st))
  /\ (length (df_dept (fst res)) <= length (df_dept st))%nat.
Proof.
  intros res. subst res. unfold apply_manage_btn.
  assert (Hfold : forall items s,
             map identity_columns (df_emp (fold_left (manage_step now) items s))
             = map identity_columns (df_emp s)
             /\ incl (map Dept_ID (df_dept (fold_left (manage_step now) items s)))
                     (map Dept_ID (df_dept s))
             /\ (length (df_dept (fold_left (manage_step now) items s))
                 <= length (df_dept s))%nat).
  { induction items as [|item items IH]; intros s; simpl.
    - split; [reflexivity|]. split; [apply incl_refl | lia].
    - destruct (IH (manage_step now s item)) as [He [Hi Hl]].
      destruct (manage_step_keeps_rows now s item) as [He' [Hi' Hl']].
      split; [now rewrite He, He'|].
      split; [eapply incl_tran; eassumption | lia]. }
  destruct dept_manage_actions as [|item items].
  - simpl. split; [reflexivity|]. split; [apply incl_refl | lia].
  - apply Hfold.
Qed.

(** ** Resolving orphaned department names *)

Lemma is_name_nonempty (d : string) : is_name d = true -> d <> "".
Proof.
  unfold is_name. intros H E. subst d. discriminate.
Qed.

(** When a name is reported missing: some employee uses it, it is a proper
    name, and no row of the Departments sheet has it once trimmed. *)
Lemma missing_depts_In (st : State) (d : string) :
  In d (missing_depts st) <->
  (exists r, In r (df_emp st) /\ Department r <> NaN /\ dept_text r = d)
  /\ is_name d = true
  /\ ~ (exists dp, In dp (df_dept st) /\ strip (Department_Name dp) = d).
Proof.
  unfold missing_depts. rewrite nodup_In, filter_In, filter_In.
  rewrite negb_true_iff, in_values_not_In, in_map_iff.
  split.
  - intros [[[c [Ec Hc]] Hname] Hnot]. apply dropna_In in Hc.
    destruct Hc as [Hc Hnan]. apply in_map_iff in Hc.
    destruct Hc as [r [Er Hr]]. subst c. split; [| split].
    + exists r. repeat split; assumption.
    + assumption.
    + intros [dp [Hdp Edp]]. apply Hnot. apply filter_In.
      split; [| assumption]. apply in_map_iff. now exists dp.
  - intros [[r [Hr [Hnan Er]]] [Hname Hnot]]. split; [split|].
    + exists (Department r). split; [exact Er|]. apply dropna_In.
      split; [now apply in_map | assumption].
    + assumption.
    + intros Hin. apply filter_In in Hin. destruct Hin as [Hin _].
      apply in_map_iff in Hin. destruct Hin as [dp [Edp Hdp]].
      apply Hnot. now exists dp.
Qed.

Lemma no_member_nil {A : Type} (l : list A) : (forall x, ~ In x l) -> l = [].
Proof.
  destruct l as [|x l]; [reflexivity|]. intros H. exfalso.
  apply (H x). now left.
Qed.

Lemma In_dict_set {V : Type} (k : string) (v : V) (d : list (string * V))
      (item : string * V) :
  In item (dict_set k v d) -> item = (k, v) \/ In item d.
Proof.
  induction d as [|[k' v'] d IH]; simpl.
  - intros [<- | []]. now left.
  - destruct (String.eqb k k').
    + intros [<- | H]; [now left | right; now right].
    + intros [<- | H]; [right; now left|].
      destruct (IH H) as [E | Hin]; [now left | right; now right].
Qed.

Lemma dict_set_get_same {V : Type} (k : string) (v : V) (d : list (string * V)) :
  dict_get k (dict_set k v d) = Some v.
Proof.
  induction d as [|[k' v'] d IH]; simpl.
  - now rewrite String.eqb_refl.
  - destruct (String.eqb k k') eqn:E; simpl.
    + now rewrite String.eqb_refl.
    + now rewrite E.
Qed.

Lemma dict_set_get_other {V : Type} (k k0 : string) (v : V)
      (d : list (string * V)) :
  k0 <> k -> dict_get k0 (dict_set k v d) = dict_get k0 d.
Proof.
  intros Hne. induction d as [|[k' v'] d IH]; simpl.
  - apply String.eqb_neq in Hne. now rewrite Hne.
  - destruct (String.eqb k k') eqn:E; simpl.
    + apply String.eqb_eq in E. subst k'.
      apply String.eqb_neq in Hne. now rewrite Hne.
    + now rewrite IH.
Qed.

Lemma dict_get_In {V : Type} (k : string) (v : V) (d : list (string * V)) :
  dict_get k d = Some v -> In (k, v) d.
Proof.
  induction d as [|[k' v'] d IH]; simpl; [discriminate|].
  destruct (String.eqb_spec k k') as [-> | Hne].
  - intros H. injection H as <-. now left.
  - intros H. right. now apply IH.
Qed.


(** A batch of plain create resolutions appends one department per entry,
    named as the entry, and leaves the employees alone. *)
Lemma sync_loop_creates (now : string) (items : list (string * sync_action)) :
  (forall item, In item items -> is_create_plain item) ->
  forall acc : SyncAcc,
    snd (sync_loop now items acc) = true
    /\ acc_emp (fst (sync_loop now items acc)) = acc_emp acc
    /\ map Department_Name (acc_dept (fst (sync_loop now items acc)))
       = map Department_Name (acc_dept acc) ++ map fst items.
Proof.
  induction items as [|[d a] items IH]; intros Hall acc; simpl.
  - now rewrite app_nil_r.
  - assert (Estep : exists description,
               sync_step now acc d a
               = Some (mkSyncAcc (acc_emp acc)
                         (acc_dept acc
                          ++ [mkDept (next_dept_id (acc_dept acc)) d description])
                         (processed_merges acc))).
    { destruct (Hall (d, a) (or_introl eq_refl)) as [desc [E | E]];
        simpl in E; subst a; simpl; rewrite String.eqb_refl; simpl;
        eexists; reflexivity. }
    destruct Estep as [desc ->].
    destruct (IH (fun item H => Hall item (or_intror H))
                 (mkSyncAcc (acc_emp acc)
                    (acc_dept acc
                     ++ [mkDept (next_dept_id (acc_dept acc)) d desc])
                    (processed_merges acc))) as [Hfin [Hemp Hdept]].
    split; [assumption|]. split; [assumption|].
    rewrite Hdept. simpl. rewrite map_app. simpl. now rewrite <- app_assoc.
Qed.

Lemma sync_creates_resolve_all (now : string) (st : State)
        (batch : list (string * sync_action)) :
  (forall item, In item batch -> is_create_plain item) ->
  (forall d, In d (missing_depts st) -> exists a, dict_get d batch = Some a) ->
  let res := apply_sync_btn st batch now st in
  rejected (snd res) = false
  /\ df_emp (fst res) = df_emp st
  /\ missing_depts (fst res) = [].
Proof.
  intros Hall Hcover res. subst res. unfold apply_sync_btn.
  destruct (missing_depts st) as [|m ms] eqn:Em.
  { simpl. now repeat split. }
  assert (Hgate : incomplete batch (m :: ms) = []).
  { unfold incomplete. apply no_member_nil. intros d Hd.
    apply filter_In in Hd. destruct Hd as [Hd Hun].
    unfold unresolved in Hun. destruct (Hcover d Hd) as [a Ha].
    rewrite Ha in Hun. apply dict_get_In in Ha.
    destruct (Hall (d, a) Ha) as [desc [E | E]]; simpl in E; subst a;
      discriminate. }
  rewrite Hgate.
  destruct (sync_loop_creates now batch Hall
              (mkSyncAcc (df_emp st) (df_dept st) [])) as [Hfin [Hemp Hdept]].
  destruct (sync_loop now batch (mkSyncAcc (df_emp st) (df_dept st) []))
    as [acc fin].
  simpl in *. subst fin. split; [reflexivity|]. split; [assumption|].
  apply no_member_nil. intros d Hd. apply missing_depts_In in Hd.
  simpl in Hd. destruct Hd as [[r [Hr [Hnan Er]]] [Hname Hnot]].
  rewrite Hemp in Hr.
  assert (Hnames : forall n, In n (map Department_Name (acc_dept acc)) ->
                             strip n = d -> False).
  { intros n Hn En. apply in_map_iff in Hn. destruct Hn as [dp [<- Hdp]].
    apply Hnot. now exists dp. }
  destruct (in_dec string_dec d (m :: ms)) as [Hmiss | Hnmiss].
  - apply (Hnames d).
    + rewrite Hdept. apply in_app_iff. right.
      destruct (Hcover d Hmiss) as [a Ha]. apply dict_get_In in Ha.
      apply in_map_iff. now exists (d, a).
    + rewrite <- Er. unfold dept_text. apply strip_idem.
  - apply Hnmiss. rewrite <- Em. apply missing_depts_In.
    split; [exists r; now repeat split|]. split; [assumption|].
    intros [dp [Hdp Edp]]. apply (Hnames (Department_Name dp)); [| assumption].
    rewrite Hdept. apply in_app_iff. left. now apply in_map.
Qed.

(** X11: a batch of create resolutions that keep the names, holding one
    for every orphaned name, resolves them all.  Starting from the saved
    workbook, Apply succeeds, leaves the employees exactly as they were and
    afterwards no department name used by an employee is missing from the
    Departments sheet. *)
Theorem sync_creates_resolve (now : string) (st : State)
        (batch : list (string * sync_action)) :
  (forall item, In item batch -> is_create_plain item) ->
  (forall d, In d (missing_depts st) -> exists a, dict_get d batch = Some a) ->
  let res := apply_sync_btn st batch now st in
  rejected (snd res) = false
  /\ df_emp (fst res) = df_emp st
  /\ missing_depts (fst res) = [].
Proof.
  intros Hall Hcover. exact (sync_creates_resolve_all now st batch Hall Hcover).
Qed.

Lemma sync_creates_resolve_witness :
  missing_depts
    (fst (apply_sync_btn st_ops
            [("Ops", Sync_create (Some "Ops") (Some "Operations"));
             ("Opns", Sync_create None None)] "t9" st_ops)) = [].
Proof.
  apply (sync_creates_resolve "t9" st_ops
           [("Ops", Sync_create (Some "Ops") (Some "Operations"));
            ("Opns", Sync_create None None)]).
  - intros item [<- | [<- | []]]; eexists; [right | left]; reflexivity.
  - vm_compute. intros d [<- | [<- | []]]; eexists; reflexivity.
Defined.

(** X12: mapping the only orphaned name to an existing department resolves
    it without touching the Departments sheet.  Starting from the saved
    workbook, every employee whose trimmed Department was the orphaned name
    now shows the target with the current time, the other employees are as
    they were, and no name is missing afterwards. *)
Theorem sync_map_resolves (now : string) (st : State) (d target : string) :
  missing_depts st = [d] ->
  In target (map Department_Name (df_dept st)) ->
  is_name (strip target) = true ->
  let res := apply_sync_btn st [(d, Sync_map (Some target))] now st in
  snd res = Success
  /\ df_dept (fst res) = df_dept st
  /\ df_emp (fst res) = loc_set (uses d) (repoint now target) (df_emp st)
  /\ missing_depts (fst res) = [].
Proof.
  intros Hmiss Htarget Hname res. subst res. unfold apply_sync_btn.
  rewrite Hmiss. unfold incomplete, unresolved. simpl.
  rewrite String.eqb_refl. simpl.
  split; [reflexivity|]. split; [reflexivity|]. split; [reflexivity|].
  apply no_member_nil. intros x Hx. apply missing_depts_In in Hx.
  simpl in Hx. destruct Hx as [[r' [Hr' [Hnan Er']]] [Hxname Hnot]].
  apply in_map_iff in Hr'. destruct Hr' as [r [Er Hr]].
  destruct (uses d r) eqn:Eu.
  - subst r'. unfold dept_text in Er'. simpl in Er'. apply Hnot.
    apply in_map_iff in Htarget. destruct Htarget as [dp [Edp Hdp]].
    exists dp. split; [assumption|]. now rewrite Edp.
  - subst r'. assert (Hxd : x <> d).
    { intros ->. unfold uses in Eu. rewrite Er', String.eqb_refl in Eu.
      discriminate. }
    assert (Hin : In x (missing_depts st)).
    { apply missing_depts_In. split; [exists r; now repeat split|].
      now split. }
    rewrite Hmiss in Hin. destruct Hin as [E | []]. now apply Hxd.
Qed.

Lemma sync_map_resolves_witness :
  let res := apply_sync_btn st_operations [("Ops", Sync_map (Some "Operations"))]
                            "t9" st_operations in
  map Department (df_emp (fst res)) = [Str "Operations"; Str "IT"]
  /\ missing_depts (fst res) = [].
Proof.
  destruct (sync_map_resolves "t9" st_operations "Ops" "Operations")
    as [_ [_ [Hemp Hnone]]].
  - reflexivity.
  - right. now left.
  - reflexivity.
  - cbv zeta. split; [rewrite Hemp; reflexivity | exact Hnone].
Defined.

(** ** Bulk upload: the preview *)

Lemma classify_clean (ids exts : list string) (e : NewEmp) :
  classify ids exts e = Row_clean ->
  strip (ne_Name e) <> "" /\ stripped_ext e <> ""
  /\ ~ In (stripped_ext e) exts
  /\ (stripped_id e = "" \/ ~ In (stripped_id e) ids).
Proof.
  unfold classify, stripped_ext, stripped_id.
  destruct (truthy (strip (ne_Name e))) eqn:En; simpl; [| discriminate].
  destruct (truthy (strip (ne_Extension e))) eqn:Ee; simpl; [| discriminate].
  destruct (truthy (strip (ne_Employee_ID e))) eqn:Ei; simpl.
  - destruct (in_values (strip (ne_Employee_ID e)) ids) eqn:Hi; simpl;
      [discriminate|].
    destruct (in_values (strip (ne_Extension e)) exts) eqn:Hx; [discriminate|].
    intros _. apply truthy_true in En, Ee.
    apply in_values_not_In in Hi, Hx. repeat split; try assumption. now right.
  - destruct (in_values (strip (ne_Extension e)) exts) eqn:Hx; [discriminate|].
    intros _. apply truthy_true in En, Ee. apply truthy_false in Ei.
    apply in_values_not_In in Hx. repeat split; try assumption. now left.
Qed.

Lemma classify_error (ids exts : list string) (e : NewEmp) :
  classify ids exts e = Row_error ->
  strip (ne_Name e) = "" \/ stripped_ext e = "".
Proof.
  unfold classify, stripped_ext.
  destruct (truthy (strip (ne_Name e))) eqn:En; simpl.
  - destruct (truthy (strip (ne_Extension e))) eqn:Ee; simpl.
    + destruct (_ || _)%bool; discriminate.
    + intros _. right. now apply truthy_false.
  - intros _. left. now apply truthy_false.
Qed.

Lemma filter_snoc {A : Type} (p : A -> bool) (l : list A) (x : A) :
  filter p (l ++ [x]) = if p x then filter p l ++ [x] else filter p l.
Proof.
  rewrite filter_app. simpl. destruct (p x); [reflexivity | apply app_nil_r].
Qed.

Lemma preview_step_inv (mapping defaults : list (string * string))
      (actions : list (string * bulk_dept_action)) (now : string) (st : State)
      (ids0 exts0 : list string) (n : nat) (pv : Preview)
      (ir : nat * FileRow) :
  preview_inv ids0 exts0 n pv ->
  preview_inv ids0 exts0 (S n)
              (preview_step mapping defaults actions now st pv ir).
Proof.
  intros [Hc He Hi He0 Hi0 Hen Hin Hcl Herr]. unfold preview_step.
  destruct ir as [idx row].
  set (new_emp := build_new_emp mapping defaults actions now _ _ row).
  destruct (classify (existing_emp_ids pv) (existing_extensions pv) new_emp)
    eqn:Ecl.
  - constructor; simpl; try assumption.
    + rewrite length_app. simpl. lia.
    + intros e Hin'. apply in_app_iff in Hin'.
      destruct Hin' as [Hin' | [<- | []]]; [now apply Herr|].
      exact (classify_error _ _ _ Ecl).
  - constructor; simpl; try assumption.
    rewrite length_app. simpl. lia.
  - destruct (classify_clean _ _ _ Ecl) as [Hn [Hx [Hxn Hidn]]].
    fold (stripped_id new_emp). fold (stripped_ext new_emp).
    assert (Hxt : truthy (stripped_ext new_emp) = true)
      by now apply truthy_true.
    rewrite Hxt.
    constructor; simpl.
    + rewrite length_app. simpl. lia.
    + intros e Hin'. apply in_app_iff in Hin'.
      destruct Hin' as [Hin' | [<- | []]]; [right; now apply He | now left].
    + intros e Hin' Hne. apply in_app_iff in Hin'.
      destruct (truthy (stripped_id new_emp)) eqn:Et.
      * destruct Hin' as [Hin' | [<- | []]];
          [right; now apply Hi | now left].
      * destruct Hin' as [Hin' | [<- | []]]; [now apply Hi|].
        apply truthy_false in Et. contradiction.
    + intros x Hx'. right. now apply He0.
    + destruct (truthy (stripped_id new_emp));
        [intros x Hx'; right; now apply Hi0 | assumption].
    + rewrite map_app. simpl. apply NoDup_snoc; [assumption|].
      intros Hdup. apply in_map_iff in Hdup. destruct Hdup as [e [Ee Hin']].
      apply Hxn. rewrite <- Ee. now apply He.
    + rewrite map_app. simpl. rewrite filter_snoc.
      destruct (truthy (stripped_id new_emp)) eqn:Et; [| assumption].
      apply NoDup_snoc; [assumption|]. intros Hdup.
      apply filter_In in Hdup. destruct Hdup as [Hdup _].
      apply in_map_iff in Hdup. destruct Hdup as [e [Ee Hin']].
      destruct Hidn as [E | Hidn];
        [apply truthy_true in Et; contradiction|].
      apply Hidn. rewrite <- Ee. apply Hi; [assumption|].
      rewrite Ee. now apply truthy_true.
    + intros e Hin'. apply in_app_iff in Hin'.
      destruct Hin' as [Hin' | [<- | []]]; [now apply Hcl|].
      repeat split; try assumption.
      * intros H. apply Hxn. now apply He0.
      * destruct Hidn as [E | Hidn]; [now left | right].
        intros H. apply Hidn. now apply Hi0.
    + assumption.
Qed.

Lemma preview_fold_inv (mapping defaults : list (string * string))
      (actions : list (string * bulk_dept_action)) (now : string) (st : State)
      (ids0 exts0 : list string) (items : list (nat * FileRow)) :
  forall (n : nat) (pv : Preview),
    preview_inv ids0 exts0 n pv ->
    preview_inv ids0 exts0 (n + length items)
      (fold_left (preview_step mapping defaults actions now st) items pv).
Proof.
  induction items as [|ir items IH]; intros n pv Hinv; simpl.
  - now rewrite Nat.add_0_r.
  - replace (n + S (length items))%nat with (S n + length items)%nat by lia.
    apply IH. now apply preview_step_inv.
Qed.

(** X13: the preview of a bulk upload sorts every file row into exactly one
    of its three lists.  The clean records have a non-blank name and
    extension; their trimmed extensions are pairwise distinct and none is
    the text, under [astype(str)], of an Extension cell of the table, and
    the same holds for their non-blank Employee IDs; every error record
    lacks a name or an extension.  The texts are compared as they are: the
    extension [1111] of a record is not the text [1111.0] of a cell read as
    a float, nor the text of a cell stored with spaces around it. *)
Theorem bulk_preview_sound (mapping defaults : list (string * string))
        (actions : list (string * bulk_dept_action)) (now : string)
        (bulk_df : list FileRow) (st : State) :
  let pv := bulk_preview mapping defaults actions now bulk_df st in
  (length (preview_data pv) + length (duplicate_records pv)
   + length (error_records pv) = length bulk_df)%nat
  /\ NoDup (map stripped_ext (preview_data pv))
  /\ NoDup (filter truthy (map stripped_id (preview_data pv)))
  /\ (forall e, In e (preview_data pv) ->
                strip (ne_Name e) <> "" /\ stripped_ext e <> ""
                /\ ~ In (stripped_ext e) (extensions (df_emp st))
                /\ (stripped_id e = ""
                    \/ ~ In (stripped_id e) (employee_ids (df_emp st))))
  /\ (forall e, In e (error_records pv) ->
                strip (ne_Name e) = "" \/ stripped_ext e = "").
Proof.
  intros pv. subst pv. unfold bulk_preview.
  pose proof (preview_fold_inv mapping defaults actions now st
                (employee_ids (df_emp st)) (extensions (df_emp st))
                (combine (seq 0 (length bulk_df)) bulk_df) 0
                (mkPreview [] [] []
                   (map (fun r => astype_str (Employee_ID r)) (df_emp st))
                   (map (fun r => astype_str (Extension r)) (df_emp st))))
    as H.
  destruct H as [Hc _ _ _ _ Hen Hin Hcl Herr].
  - constructor; simpl; try (intros e []); try apply incl_refl;
      try constructor; reflexivity.
  - rewrite length_combine, length_seq, Nat.min_id in Hc. simpl in Hc.
    split; [exact Hc|]. split; [exact Hen|]. split; [exact Hin|].
    split; [exact Hcl | exact Herr].
Qed.

(** ** Bulk upload: the commit *)

Lemma create_departments_prefix
      (actions : list (string * bulk_dept_action)) :
  forall depts, exists added, create_departments actions depts = depts ++ added.
Proof.
  unfold create_departments.
  induction actions as [|[name act] actions IH]; intros depts; simpl.
  - exists []. now rewrite app_nil_r.
  - destruct act as [desc | target | ].
    + destruct (in_values name (map Department_Name depts)); [apply IH|].
      destruct (IH (depts ++ [mkDept (next_dept_id depts) name desc]))
        as [added E].
      eexists. rewrite E, <- app_assoc. reflexivity.
    + apply IH.
    + apply IH.
Qed.

Lemma commit_duplicate_row_ids (now : string)
      (sel : list (Z * (bool * bool))) (df : list Employee) (dup : NewEmp) :
  exists added,
    map Row_ID (commit_duplicate now sel df dup) = map Row_ID df ++ added.
Proof.
  unfold commit_duplicate.
  destruct (selection_get (File_Row dup) sel) as [import replace].
  destruct (import && negb replace)%bool.
  - eexists. rewrite map_app. reflexivity.
  - destruct (replace && negb import)%bool.
    + exists []. rewrite app_nil_r.
      apply replace_existing_preserves_row_ids.
    + exists []. now rewrite app_nil_r.
Qed.

(** X14: committing a bulk upload never removes, reorders or renumbers an
    existing employee and never removes or alters a department: the Row ID
    column it leaves is the old one followed by the Row IDs of the imported
    records, and the Departments sheet is the old one followed by the
    departments it created. *)
Theorem bulk_import_btn_keeps_rows (now : string)
        (actions : list (string * bulk_dept_action))
        (sel : list (Z * (bool * bool))) (pv : Preview) (st : State) :
  let st' := bulk_import_btn now actions sel pv st in
  (exists added, map Row_ID (df_emp st') = map Row_ID (df_emp st) ++ added)
  /\ (exists added, df_dept st' = df_dept st ++ added).
Proof.
  intros st'. subst st'. unfold bulk_import_btn.
  destruct (total_to_import sel pv =? 0)%nat.
  { split; exists []; now rewrite app_nil_r. }
  simpl. split; [| apply create_departments_prefix].
  assert (Hclean : forall l df, exists added,
             map Row_ID (fold_left (fun df emp => df ++ [emp_row emp]) l df)
             = map Row_ID df ++ added).
  { induction l as [|e l IH]; intros df; simpl.
    - exists []. now rewrite app_nil_r.
    - destruct (IH (df ++ [emp_row e])) as [added E].
      eexists. rewrite E, map_app, <- app_assoc. reflexivity. }
  assert (Hdup : forall l df, exists added,
             map Row_ID (fold_left (commit_duplicate now sel) l df)
             = map Row_ID df ++ added).
  { induction l as [|e l IH]; intros df; simpl.
    - exists []. now rewrite app_nil_r.
    - destruct (IH (commit_duplicate now sel df e)) as [added E].
      destruct (commit_duplicate_row_ids now sel df e) as [added' E'].
      eexists. rewrite E, E', <- app_assoc. reflexivity. }
  destruct (Hclean (preview_data pv) (df_emp st)) as [a1 E1].
  destruct (Hdup (duplicate_records pv)
                 (fold_left (fun df emp => df ++ [emp_row emp])
                            (preview_data pv) (df_emp st))) as [a2 E2].
  exists (a1 ++ a2). now rewrite E2, E1, app_assoc.
Qed.

(** ** Bulk upload: Row IDs stay distinct *)

Lemma NoDup_insert {A : Type} (x : A) (l1 l2 : list A) :
  NoDup (l1 ++ l2) -> ~ In x (l1 ++ l2) -> NoDup (l1 ++ x :: l2).
Proof.
  intros Hnd Hx. apply (NoDup_Add (Add_app x l1 l2)). now split.
Qed.

Lemma preview_step_row_ids (mapping defaults : list (string * string))
      (actions : list (string * bulk_dept_action)) (now : string) (st : State)
      (pv : Preview) (ir : nat * FileRow) :
  row_id_inv (next_row_id (df_emp st)) pv ->
  row_id_inv (next_row_id (df_emp st))
             (preview_step mapping defaults actions now st pv ir).
Proof.
  intros [Hrange Hnd]. unfold preview_step. destruct ir as [idx row].
  set (next := next_row_id (df_emp st)) in *.
  set (new_emp := build_new_emp mapping defaults actions now _ _ row).
  assert (Hid : ne_Row_ID new_emp
                = next + Z.of_nat (length (preview_data pv))
                  + Z.of_nat (length (duplicate_records pv)))
    by reflexivity.
  assert (Hfresh : ~ In (ne_Row_ID new_emp)
                     (map ne_Row_ID (preview_data pv)
                      ++ map ne_Row_ID (duplicate_records pv))).
  { rewrite <- map_app. intros Hin. apply in_map_iff in Hin.
    destruct Hin as [e [Ee He]]. specialize (Hrange e He). lia. }
  destruct (classify (existing_emp_ids pv) (existing_extensions pv) new_emp).
  - split; assumption.
  - split; simpl.
    + intros e He. rewrite length_app. simpl.
      rewrite app_assoc in He. apply in_app_iff in He.
      destruct He as [He | [<- | []]]; [specialize (Hrange e He) |]; lia.
    + rewrite map_app. simpl. rewrite app_assoc.
      apply NoDup_snoc; assumption.
  - split; simpl.
    + intros e He. rewrite length_app. simpl.
      assert (He' : In e (preview_data pv ++ duplicate_records pv)
                    \/ e = new_emp).
      { rewrite !in_app_iff in He. rewrite in_app_iff. simpl in He.
        intuition. }
      destruct He' as [He' | ->]; [specialize (Hrange e He') |]; lia.
    + rewrite map_app. simpl. rewrite <- app_assoc. simpl.
      apply NoDup_insert; assumption.
Qed.

Lemma bulk_preview_row_ids (mapping defaults : list (string * string))
      (actions : list (string * bulk_dept_action)) (now : string)
      (bulk_df : list FileRow) (st : State) :
  row_id_inv (next_row_id (df_emp st))
             (bulk_preview mapping defaults actions now bulk_df st).
Proof.
  unfold bulk_preview.
  generalize (combine (seq 0 (length bulk_df)) bulk_df).
  assert (H0 : row_id_inv (next_row_id (df_emp st))
                 (mkPreview [] [] []
                    (map (fun r => astype_str (Employee_ID r)) (df_emp st))
                    (map (fun r => astype_str (Extension r)) (df_emp st)))).
  { split; [intros e [] | constructor]. }
  revert H0. generalize (mkPreview [] [] []
                    (map (fun r => astype_str (Employee_ID r)) (df_emp st))
                    (map (fun r => astype_str (Extension r)) (df_emp st))).
  intros pv Hpv items. revert pv Hpv.
  induction items as [|ir items IH]; intros pv Hpv; simpl; [assumption|].
  apply IH. now apply preview_step_row_ids.
Qed.

Lemma commit_clean_row_ids (l : list NewEmp) :
  forall df,
    map Row_ID (fold_left (fun df emp => df ++ [emp_row emp]) l df)
    = map Row_ID df ++ map new_row_id l.
Proof.
  induction l as [|e l IH]; intros df; simpl.
  - now rewrite app_nil_r.
  - rewrite IH, map_app, <- app_assoc. reflexivity.
Qed.

Lemma commit_duplicates_row_ids (now : string) (sel : list (Z * (bool * bool)))
      (l : list NewEmp) :
  forall df,
    map Row_ID (fold_left (commit_duplicate now sel) l df)
    = map Row_ID df ++ map new_row_id (filter (imported_as_new sel) l).
Proof.
  induction l as [|e l IH]; intros df; simpl.
  - now rewrite app_nil_r.
  - rewrite IH. unfold commit_duplicate, imported_as_new.
    destruct (selection_get (File_Row e) sel) as [import replace].
    destruct (import && negb replace)%bool; simpl.
    + rewrite map_app, <- app_assoc. reflexivity.
    + destruct (replace && negb import)%bool; [| reflexivity].
      now rewrite (proj1 (replace_existing_preserves_row_ids now e df)).
Qed.

Lemma NoDup_map_filter {A B : Type} (g : A -> B) (p : A -> bool) (l : list A) :
  NoDup (map g l) -> NoDup (map g (filter p l)).
Proof.
  induction l as [|x l IH]; simpl; intros H; [constructor|].
  inversion H as [|? ? Hx Hl]; subst.
  destruct (p x); simpl; [| now apply IH].
  constructor; [| now apply IH]. intros Hin. apply Hx.
  apply in_map_iff in Hin. destruct Hin as [y [Ey Hy]].
  apply in_map_iff. exists y. split; [assumption|].
  now apply (incl_filter p l).
Qed.

Lemma NoDup_append {A : Type} (l1 l2 : list A) :
  NoDup l1 -> NoDup l2 -> (forall x, In x l1 -> ~ In x l2) ->
  NoDup (l1 ++ l2).
Proof.
  induction l1 as [|a l1 IH]; simpl; intros H1 H2 Hd; [assumption|].
  inversion H1 as [|? ? Ha Hl]; subst. constructor.
  - rewrite in_app_iff. intros [H | H]; [contradiction|].
    apply (Hd a); [now left | assumption].
  - apply IH; [assumption | assumption|]. intros x Hx. apply Hd. now right.
Qed.

Lemma NoDup_map_Num (l : list Z) : NoDup l -> NoDup (map Num l).
Proof.
  induction l as [|z l IH]; simpl; intros H; [constructor|].
  inversion H as [|? ? Hz Hl]; subst. constructor; [| now apply IH].
  intros Hin. apply in_map_iff in Hin. destruct Hin as [y [Ey Hy]].
  injection Ey as ->. contradiction.
Qed.

Lemma NoDup_app_filter {A B : Type} (g : A -> B) (p : A -> bool)
      (l1 l2 : list A) :
  NoDup (map g l1 ++ map g l2) -> NoDup (map g l1 ++ map g (filter p l2)).
Proof.
  induction l1 as [|a l1 IH]; simpl; intros H.
  - now apply NoDup_map_filter.
  - inversion H as [|? ? Ha Hl]; subst. constructor; [| now apply IH].
    intros Hin. apply Ha. rewrite in_app_iff in *.
    destruct Hin as [Hin | Hin]; [now left | right].
    apply in_map_iff in Hin. destruct Hin as [y [Ey Hy]].
    apply in_map_iff. exists y. split; [assumption|].
    now apply (incl_filter p l2).
Qed.

(** X15: a bulk upload keeps the Row IDs distinct.  On a table whose Row
    IDs are integers, no two alike, the records of the preview receive Row
    IDs above all of them, no two alike, and whatever boxes are ticked the
    table after the commit again has integer Row IDs, no two alike. *)
Theorem bulk_import_keeps_row_ids_distinct
        (mapping defaults : list (string * string))
        (actions : list (string * bulk_dept_action)) (now : string)
        (bulk_df : list FileRow) (sel : list (Z * (bool * bool)))
        (st : State) :
  row_ids_distinct (df_emp st) ->
  let pv := bulk_preview mapping defaults actions now bulk_df st in
  row_ids_distinct (df_emp (bulk_import_btn now actions sel pv st)).
Proof.
  intros [Hnum Hnd] pv.
  destruct (bulk_preview_row_ids mapping defaults actions now bulk_df st)
    as [Hrange Hnew]. fold pv in Hrange, Hnew.
  unfold bulk_import_btn.
  destruct (total_to_import sel pv =? 0)%nat; [now split|].
  cbn [df_emp].
  assert (Hids :
            map Row_ID
              (fold_left (commit_duplicate now sel) (duplicate_records pv)
                 (fold_left (fun df emp => df ++ [emp_row emp])
                            (preview_data pv) (df_emp st)))
            = map Row_ID (df_emp st)
              ++ (map new_row_id (preview_data pv)
                  ++ map new_row_id
                       (filter (imported_as_new sel) (duplicate_records pv)))).
  { now rewrite commit_duplicates_row_ids, commit_clean_row_ids, app_assoc. }
  assert (Hmem : forall c,
             In c (map new_row_id (preview_data pv)
                   ++ map new_row_id
                        (filter (imported_as_new sel) (duplicate_records pv))) ->
             exists z, c = Num z /\ next_row_id (df_emp st) <= z).
  { intros c Hc. apply in_app_iff in Hc.
    destruct Hc as [Hc | Hc]; apply in_map_iff in Hc;
      destruct Hc as [e [<- He]]; exists (ne_Row_ID e);
      (split; [reflexivity|]).
    - apply Hrange. apply in_app_iff. now left.
    - apply Hrange. apply in_app_iff. right.
      now apply (incl_filter (imported_as_new sel) (duplicate_records pv)). }
  split.
  - intros r Hr. apply (in_map Row_ID) in Hr. rewrite Hids in Hr.
    apply in_app_iff in Hr. destruct Hr as [Hr | Hr].
    + apply in_map_iff in Hr. destruct Hr as [r0 [<- Hr0]]. now apply Hnum.
    + destruct (Hmem _ Hr) as [z [-> _]]. now exists z.
  - rewrite Hids. apply NoDup_append; [assumption | |].
    + unfold new_row_id.
      rewrite <- (map_map ne_Row_ID Num (preview_data pv)).
      rewrite <- (map_map ne_Row_ID Num (filter _ _)). rewrite <- map_app.
      apply NoDup_map_Num. now apply NoDup_app_filter.
    + intros c Hc Hc'. destruct (Hmem c Hc') as [z [-> Hz]].
      apply in_map_iff in Hc. destruct Hc as [r [Er Hr]].
      pose proof (next_row_id_above (df_emp st) Hnum r z Hr Er). lia.
Qed.

Lemma bulk_import_keeps_row_ids_distinct_witness :
  row_ids_distinct
    (df_emp (bulk_import_btn "t9" [] [(2, (true, false))]
               (bulk_preview mapping_plain [] [] "t9" [file_zed] st_two)
               st_two)).
Proof.
  apply (bulk_import_keeps_row_ids_distinct mapping_plain [] [] "t9"
           [file_zed] [(2, (true, false))] st_two).
  split.
  - intros r [<- | [<- | []]]; eexists; reflexivity.
  - simpl. constructor; [intros [H | []]; discriminate|].
    constructor; [intros [] | constructor].
Defined.

(** ** Pagination *)

Lemma firstn_plus {A : Type} (a b : nat) (l : list A) :
  firstn (a + b) l = firstn a l ++ firstn b (skipn a l).
Proof.
  revert l. induction a as [|a IH]; intros l; simpl; [reflexivity|].
  destruct l as [|x l]; simpl.
  - now destruct b.
  - now rewrite IH.
Qed.

(** A page is the next [rows_per_page] rows after those of the pages
    before it. *)
Lemma df_page_firstn_skipn {A : Type} (p rows_per_page : Z) (df : list A) :
  0 <= p -> 0 < rows_per_page ->
  df_page p rows_per_page df
  = firstn (Z.to_nat rows_per_page) (skipn (Z.to_nat (p * rows_per_page)) df).
Proof.
  intros Hp Hr. unfold df_page, iloc.
  set (start := p * rows_per_page).
  assert (Hs : 0 <= start) by (subst start; nia).
  assert (Hlen : length (skipn (Z.to_nat start) df)
                 = (length df - Z.to_nat start)%nat) by apply length_skipn.
  destruct (Z.le_gt_cases (start + rows_per_page) (Z.of_nat (length df)))
    as [Hle | Hgt].
  - rewrite Z.min_l by assumption. f_equal. lia.
  - rewrite Z.min_r by lia.
    rewrite (firstn_all2 (n := Z.to_nat rows_per_page)) by lia.
    apply firstn_all2. lia.
Qed.

Lemma concat_pages {A : Type} (k : nat) (df : list A) (n : nat) :
  concat (map (fun p => firstn k (skipn (p * k) df)) (seq 0 n))
  = firstn (n * k) df.
Proof.
  induction n as [|n IH]; [reflexivity|].
  rewrite seq_S, map_app, concat_app, IH. simpl.
  rewrite app_nil_r. rewrite (Nat.add_comm k (n * k)).
  symmetry. apply firstn_plus.
Qed.

Lemma total_pages_covers (total_rows rows_per_page : Z) :
  0 <= total_rows -> 0 < rows_per_page ->
  1 <= total_pages total_rows rows_per_page
  /\ total_rows <= total_pages total_rows rows_per_page * rows_per_page
  /\ (0 < total_rows ->
      (total_pages total_rows rows_per_page - 1) * rows_per_page < total_rows).
Proof.
  intros Ht Hr. unfold total_pages.
  set (q := (total_rows + rows_per_page - 1) / rows_per_page).
  assert (Hdiv : rows_per_page * q <= total_rows + rows_per_page - 1
                 < rows_per_page * q + rows_per_page).
  { subst q.
    pose proof (Z.div_mod (total_rows + rows_per_page - 1) rows_per_page) as E.
    pose proof (Z.mod_pos_bound (total_rows + rows_per_page - 1) rows_per_page Hr).
    lia. }
  destruct (Z.max_spec 1 q) as [[Hq ->] | [Hq ->]]; nia.
Qed.

(** X16: the pages of the directory partition the view.  With a positive
    number of rows per page, the pages 0 to [total_pages] - 1, put one after
    the other, are exactly the rows of the view, in order; and no page holds
    more than [rows_per_page] rows. *)
Theorem pages_partition_view {A : Type} (rows_per_page : Z) (df_view : list A) :
  0 < rows_per_page ->
  let pages := total_pages (Z.of_nat (length df_view)) rows_per_page in
  concat (map (fun p => df_page (Z.of_nat p) rows_per_page df_view)
              (seq 0 (Z.to_nat pages)))
  = df_view
  /\ forall p, 0 <= p ->
               (length (df_page p rows_per_page df_view)
                <= Z.to_nat rows_per_page)%nat.
Proof.
  intros Hr pages. split.
  - rewrite (map_ext _ (fun p => firstn (Z.to_nat rows_per_page)
                                   (skipn (p * Z.to_nat rows_per_page) df_view))).
    + rewrite concat_pages. apply firstn_all2.
      destruct (total_pages_covers (Z.of_nat (length df_view)) rows_per_page)
        as [H1 [H2 _]]; [lia | assumption|].
      fold pages in H1, H2. nia.
    + intros p. rewrite df_page_firstn_skipn by lia. do 2 f_equal. nia.
  - intros p Hp. rewrite df_page_firstn_skipn by assumption.
    apply firstn_le_length.
Qed.

Lemma pages_partition_view_witness :
  concat (map (fun p => df_page (Z.of_nat p) 2 [1; 2; 3; 4; 5])
              (seq 0 (Z.to_nat (total_pages 5 2))))
  = [1; 2; 3; 4; 5].
Proof.
  apply (proj1 (pages_partition_view 2 [1; 2; 3; 4; 5] eq_refl)).
Defined.

Lemma clamp_page_range (page_number pages : Z) :
  1 <= pages -> 0 <= clamp_page page_number pages < pages.
Proof.
  intros Hp. unfold clamp_page.
  destruct (Z.leb_spec pages page_number);
    [destruct (Z.max_spec 0 (pages - 1)) as [[_ ->] | [_ ->]]|];
    match goal with |- context [?x <? 0] => destruct (Z.ltb_spec x 0) end; lia.
Qed.

(** X17: whatever page number the session holds, also a negative one or
    one past the end, the page shown for a view that is not empty is not
    empty, holds at most [rows_per_page] rows and only rows of the view, as
    long as the rows per page of the session is the one the selector
    returns. *)
Theorem shown_page_nonempty {A : Type} (rows_per_page page_number : Z)
        (df_view : list A) :
  0 < rows_per_page -> df_view <> [] ->
  let page := shown_page rows_per_page rows_per_page page_number df_view in
  page <> []
  /\ (length page <= Z.to_nat rows_per_page)%nat
  /\ incl page df_view.
Proof.
  intros Hr Hne page. subst page. unfold shown_page.
  set (pages := total_pages (Z.of_nat (length df_view)) rows_per_page).
  assert (Hlen : 0 < Z.of_nat (length df_view)).
  { destruct df_view; [congruence | simpl; lia]. }
  destruct (total_pages_covers (Z.of_nat (length df_view)) rows_per_page)
    as [H1 [_ H3]]; [lia | assumption|]. fold pages in H1, H3.
  specialize (H3 Hlen).
  destruct (clamp_page_range page_number pages H1) as [Hc0 Hc1].
  rewrite df_page_firstn_skipn by assumption.
  set (c := clamp_page page_number pages) in *.
  assert (Hstart : (Z.to_nat (c * rows_per_page) < length df_view)%nat) by nia.
  split; [| split].
  - intros E. apply (f_equal (@length A)) in E.
    rewrite length_firstn, length_skipn in E. simpl in E. lia.
  - apply firstn_le_length.
  - intros x Hx.
    rewrite <- (firstn_skipn (Z.to_nat (c * rows_per_page)) df_view).
    apply in_app_iff. right.
    rewrite <- (firstn_skipn (Z.to_nat rows_per_page)
                  (skipn (Z.to_nat (c * rows_per_page)) df_view)).
    apply in_app_iff. now left.
Qed.

Lemma shown_page_nonempty_witness :
  shown_page 2 2 7 [1; 2; 3; 4; 5] = [5] /\ shown_page 2 2 (-3) [1; 2; 3] <> [].
Proof.
  split; [reflexivity|].
  apply (shown_page_nonempty 2 (-3) [1; 2; 3]); [reflexivity | discriminate].
Defined.

(** ** Dept IDs stay distinct *)

Lemma digits_val_uint_acc (d : Decimal.uint) :
  forall acc : positive,
    digits_val (NilEmpty.string_of_uint d) (Z.pos acc)
    = Z.pos (Pos.of_uint_acc d acc).
Proof.
  induction d; intros acc; cbn [NilEmpty.string_of_uint Pos.of_uint_acc];
    try reflexivity;
    unfold digits_val; fold digits_val; eval_digit; cbv iota;
    rewrite <- IHd; f_equal; lia.
Qed.

Lemma digits_val_uint (d : Decimal.uint) :
  digits_val (NilEmpty.string_of_uint d) 0 = Z.of_N (Pos.of_uint d).
Proof.
  induction d; cbn [NilEmpty.string_of_uint Pos.of_uint];
    try reflexivity;
    unfold digits_val; fold digits_val; eval_digit; cbv iota;
    try exact IHd;
    cbn [Z.of_N]; rewrite <- digits_val_uint_acc; reflexivity.
Qed.

Lemma take_digits_uint (d : Decimal.uint) :
  take_digits (NilEmpty.string_of_uint d) = NilEmpty.string_of_uint d.
Proof.
  induction d; cbn [NilEmpty.string_of_uint]; try reflexivity;
    unfold take_digits; fold take_digits; unfold is_digit; eval_digit;
    cbv iota; now rewrite IHd.
Qed.

Lemma extract_digits_uint (d : Decimal.uint) :
  d <> Decimal.Nil ->
  extract_digits (NilEmpty.string_of_uint d) = Some (NilEmpty.string_of_uint d).
Proof.
  intros Hd. rewrite <- (take_digits_uint d) at 2.
  destruct d; [congruence | ..];
    cbn [NilEmpty.string_of_uint]; unfold extract_digits, is_digit;
    eval_digit; reflexivity.
Qed.

Lemma str_of_Z_digits (n : Z) :
  0 <= n ->
  extract_digits (str_of_Z n) = Some (str_of_Z n)
  /\ digits_val (str_of_Z n) 0 = n.
Proof.
  intros Hn. destruct n as [|p|p]; [split; reflexivity | | lia].
  unfold str_of_Z. simpl Z.to_int. unfold NilZero.string_of_int, NilZero.string_of_uint.
  pose proof (DecimalPos.Unsigned.to_uint_nonnil p) as Hnn.
  pose proof (DecimalPos.Unsigned.of_to p) as Hof.
  destruct (Pos.to_uint p) eqn:E; [congruence | ..];
    (split; [apply extract_digits_uint; discriminate
            | rewrite digits_val_uint, Hof; reflexivity]).
Qed.

Lemma fold_max_bounds (ns : list Z) :
  forall n,
    n <= fold_left Z.max ns n
    /\ (forall z, In z ns -> z <= fold_left Z.max ns n)
    /\ (fold_left Z.max ns n = n \/ In (fold_left Z.max ns n) ns).
Proof.
  induction ns as [|m ns IH]; intros n; simpl.
  - split; [lia|]. split; [intros z [] | now left].
  - destruct (IH (Z.max n m)) as [H1 [H2 H3]]. split; [lia|]. split.
    + intros z [<- | Hz]; [lia | now apply H2].
    + destruct H3 as [E | Hin]; [| right; now right].
      rewrite E. destruct (Z.max_spec n m) as [[_ ->] | [_ ->]];
        [right; now left | now left].
Qed.

Lemma dept_numbers_canonical (df : list Dept) :
  canonical_dept_ids df ->
  (forall z, In z (dept_numbers df) -> 0 <= z < int64_max)
  /\ (forall d, In d df ->
                exists n, Dept_ID d = str_of_Z n /\ In n (dept_numbers df)).
Proof.
  intros Hcan. unfold dept_numbers. split.
  - intros z Hz. apply in_flat_map in Hz. destruct Hz as [d [Hd Hz]].
    destruct (Hcan d Hd) as [n [Hn E]]. rewrite E in Hz.
    destruct (str_of_Z_digits n (proj1 Hn)) as [Hx Hv]. rewrite Hx, Hv in Hz.
    destruct Hz as [<- | []]. exact Hn.
  - intros d Hd. destruct (Hcan d Hd) as [n [Hn E]]. exists n.
    split; [exact E|]. apply in_flat_map. exists d. split; [exact Hd|].
    rewrite E. destruct (str_of_Z_digits n (proj1 Hn)) as [Hx Hv].
    rewrite Hx, Hv. now left.
Qed.

Lemma wrap64_small (z : Z) : - 2 ^ 63 <= z < 2 ^ 63 -> wrap64 z = z.
Proof.
  intros H. unfold wrap64. rewrite Z.mod_small; lia.
Qed.

Lemma next_dept_id_fresh (df : list Dept) :
  canonical_dept_ids df -> ~ In (next_dept_id df) (map Dept_ID df).
Proof.
  intros Hcan Hin. destruct (dept_numbers_canonical df Hcan) as [Hrange Hall].
  apply in_map_iff in Hin. destruct Hin as [d [Ed Hd]].
  destruct (Hall d Hd) as [n0 [E0 Hn0]].
  unfold next_dept_id in Ed. fold (dept_numbers df) in Ed.
  destruct (dept_numbers df) as [|n ns] eqn:En; [destruct Hn0|].
  assert (Hfb : forallb (fun z => z <=? int64_max) (n :: ns) = true).
  { apply forallb_forall. intros z Hz. apply Z.leb_le.
    specialize (Hrange z Hz). lia. }
  rewrite Hfb in Ed.
  destruct (fold_max_bounds ns n) as [H1 [H2 H3]].
  assert (HM : 0 <= fold_left Z.max ns n < int64_max).
  { destruct H3 as [-> | H3]; apply Hrange; [now left | now right]. }
  rewrite wrap64_small in Ed by (unfold int64_max in HM; lia).
  rewrite E0 in Ed. apply str_of_Z_inj in Ed.
  destruct Hn0 as [<- | Hn0]; [lia | specialize (H2 n0 Hn0); lia].
Qed.

(** X18: Dept IDs stay distinct.  On a Departments sheet whose Dept IDs
    are the decimal texts of numbers below the 64-bit limit, the identifier
    [next_dept_id] allocates is carried by no row, and the Add Department
    form leaves a sheet in which no two rows share a Dept ID if none did
    before. *)
Theorem add_dept_form_keeps_dept_ids_distinct (dname ddesc : string)
        (st : State) :
  canonical_dept_ids (df_dept st) ->
  NoDup (map Dept_ID (df_dept st)) ->
  ~ In (next_dept_id (df_dept st)) (map Dept_ID (df_dept st))
  /\ NoDup (map Dept_ID (df_dept (fst (add_dept_form dname ddesc st)))).
Proof.
  intros Hcan Hnd. pose proof (next_dept_id_fresh _ Hcan) as Hfresh.
  split; [assumption|]. unfold add_dept_form.
  destruct (negb (truthy (strip dname))); [assumption|].
  destruct (in_values _ _); [assumption|]. simpl.
  rewrite map_app. simpl. now apply NoDup_snoc.
Qed.

Lemma add_dept_form_keeps_dept_ids_distinct_witness :
  NoDup (map Dept_ID (df_dept (fst (add_dept_form "Retail" "" st_two)))).
Proof.
  apply (add_dept_form_keeps_dept_ids_distinct "Retail" "" st_two).
  - intros d [<- | []]. exists 1. split; [vm_compute; split; congruence|].
    reflexivity.
  - simpl. constructor; [intros [] | constructor].
Defined.

(** ** Merging two departments on the management page *)

(** X19: merging two departments with different Dept IDs leaves no row
    with the Dept ID chosen for deletion, names every row with the kept Dept
    ID by the final name, keeps the rows of every other department as they
    were, and gives the final name and the current time to every employee
    whose trimmed Department was one of the two names, the other employees
    staying as they were. *)
Theorem manage_merge_two_spec (now key : string) (st : State)
        (dept1_name dept1_id dept2_name dept2_id final delete_id : string) :
  dept1_id <> dept2_id ->
  delete_id = dept1_id \/ delete_id = dept2_id ->
  let keep_id := if String.eqb delete_id dept2_id then dept1_id else dept2_id in
  let st' :=
    fst (apply_manage_btn now
           [(key, Manage_merge_two dept1_name dept1_id dept2_name dept2_id
                                   final delete_id)] st) in
  keep_id <> delete_id
  /\ (forall d, In d (df_dept st') -> Dept_ID d <> delete_id)
  /\ (forall d, In d (df_dept st') -> Dept_ID d = keep_id ->
                Department_Name d = final)
  /\ (forall d, In d (df_dept st) -> Dept_ID d <> dept1_id ->
                Dept_ID d <> dept2_id -> In d (df_dept st'))
  /\ (forall i r,
         nth_error (df_emp st) i = Some r ->
         nth_error (df_emp st') i =
         Some (if (uses dept1_name r || uses dept2_name r)%bool
               then repoint now final r else r)).
Proof.
  intros Hne Hdel keep_id st'. subst st'. simpl.
  fold keep_id.
  assert (Hkeep : keep_id <> delete_id /\ (keep_id = dept1_id \/ keep_id = dept2_id)).
  { subst keep_id. destruct (String.eqb_spec delete_id dept2_id) as [-> | Hn].
    - split; [assumption | now left].
    - destruct Hdel as [-> | ->]; [| congruence].
      split; [congruence | now right]. }
  destruct Hkeep as [Hkd Hk12].
  split; [assumption|]. split; [| split; [| split]].
  - intros d Hd E. apply filter_In in Hd. destruct Hd as [_ Hd].
    unfold has_id in Hd. rewrite E, String.eqb_refl in Hd. discriminate.
  - intros d Hd E. apply filter_In in Hd. destruct Hd as [Hd _].
    unfold loc_set in Hd. apply in_map_iff in Hd.
    destruct Hd as [d0 [Ed Hd0]]. destruct (has_id keep_id d0) eqn:Eh.
    + now subst d.
    + subst d. unfold has_id in Eh. rewrite E, String.eqb_refl in Eh.
      discriminate.
  - intros d Hd H1 H2. apply filter_In. split.
    + unfold loc_set. apply in_map_iff. exists d. split; [| assumption].
      assert (Eh : has_id keep_id d = false).
      { unfold has_id. apply String.eqb_neq. destruct Hk12; congruence. }
      now rewrite Eh.
    + apply negb_true_iff. unfold has_id. apply String.eqb_neq.
      destruct Hdel; congruence.
  - intros i r Hr. now rewrite loc_set_nth_error, Hr.
Qed.

Lemma manage_merge_two_spec_witness :
  map Department_Name
      (df_dept (fst (apply_manage_btn "t9"
                       [("1", Manage_merge_two "IT" "1" "Operations" "2"
                                               "Tech" "2")]
                       st_operations)))
  = ["Tech"].
Proof.
  destruct (manage_merge_two_spec "t9" "1" st_operations
              "IT" "1" "Operations" "2" "Tech" "2") as [_ _].
  - discriminate.
  - now right.
  - reflexivity.
Defined.

(** ** Deleting an employee *)

Lemma In_drop_index {A B : Type} (g : A -> B) (idx : nat) (df : list A)
      (row r : A) :
  NoDup (map g df) -> nth_error df idx = Some row ->
  In r (drop_index idx df) -> In r df /\ g r <> g row.
Proof.
  revert idx. induction df as [|x df IH]; intros [|i] Hnd Hnth Hin;
    simpl in *; try discriminate.
  - injection Hnth as ->. inversion Hnd as [|? ? Hx Hl]; subst.
    split; [now right|]. intros E. apply Hx. rewrite <- E. now apply in_map.
  - inversion Hnd as [|? ? Hx Hl]; subst. destruct Hin as [<- | Hin].
    + split; [now left|]. intros E. apply Hx. rewrite E.
      apply in_map. exact (nth_error_In _ _ Hnth).
    + destruct (IH i Hl Hnth Hin) as [H1 H2]. split; [now right | assumption].
Qed.

(** X20: the Delete User button removes one row only: the first whose Row
    ID, as text, is the edited one; the rows before and after it stay in
    order and the Departments sheet is untouched.  When no two rows have the
    same Row ID text, no row with that Row ID is left.  When no row matches,
    nothing changes. *)
Theorem edit_emp_delete_spec (edit_id : cell) (st : State) :
  let res := edit_emp_delete edit_id st in
  (snd res <> Success -> fst res = st)
  /\ (snd res = Success ->
      exists idx row,
        nth_error (df_emp st) idx = Some row
        /\ astype_str (Row_ID row) = astype_str edit_id
        /\ df_emp (fst res)
           = firstn idx (df_emp st) ++ skipn (S idx) (df_emp st)
        /\ (length (df_emp (fst res)) + 1 = length (df_emp st))%nat
        /\ df_dept (fst res) = df_dept st
        /\ (NoDup (map (fun r => astype_str (Row_ID r)) (df_emp st)) ->
            forall r, In r (df_emp (fst res)) ->
                      astype_str (Row_ID r) <> astype_str edit_id)).
Proof.
  intros res. subst res. unfold edit_emp_delete.
  destruct (cell_truthy edit_id); simpl;
    [| split; [reflexivity | discriminate]].
  unfold matched_index.
  destruct (first_index _ (df_emp st)) as [idx|] eqn:Ef; simpl;
    [| split; [reflexivity | discriminate]].
  split; [intros H; now contradiction H|]. intros _.
  destruct (first_index_spec _ _ _ Ef) as [[row [Hrow Hmatch]] _].
  apply String.eqb_eq in Hmatch.
  exists idx, row. split; [assumption|]. split; [assumption|].
  split; [apply drop_index_firstn_skipn|].
  split; [now apply (drop_index_length idx _ row)|].
  split; [reflexivity|].
  intros Hnd r Hr.
  destruct (In_drop_index (fun r => astype_str (Row_ID r)) idx (df_emp st)
              row r Hnd Hrow Hr) as [_ Hneq].
  now rewrite <- Hmatch.
Qed.

Lemma edit_emp_delete_spec_witness :
  map Name (df_emp (fst (edit_emp_delete (Num 1) st_two))) = [Str "Bob"].
Proof.
  destruct (proj2 (edit_emp_delete_spec (Num 1) st_two) eq_refl)
    as [idx [row [_ [_ [Hdf _]]]]].
  reflexivity.
Defined.

Lemma ensure_row_ids_fills_witness :
  exists r',
    nth_error (ensure_row_ids [emp_num 3; emp_no_id; emp_num 7]) 1 = Some r'
    /\ missing_id (Row_ID r') = false.
Proof.
  destruct (proj2 (ensure_row_ids_fills [emp_num 3; emp_no_id; emp_num 7])
                  1%nat emp_no_id eq_refl) as [r' [Hnth [Hok _]]].
  exists r'. split; [exact Hnth | exact Hok].
Defined.

Lemma bulk_preview_sound_witness :
  (length (preview_data
             (bulk_preview mapping_dept [] [] "t9" [file_zoe] st_two))
   + length (duplicate_records
               (bulk_preview mapping_dept [] [] "t9" [file_zoe] st_two))
   + length (error_records
               (bulk_preview mapping_dept [] [] "t9" [file_zoe] st_two))
   = 1)%nat
  /\ NoDup (map stripped_ext
               (preview_data
                  (bulk_preview mapping_dept [] [] "t9" [file_zoe] st_two))).
Proof.
  destruct (bulk_preview_sound mapping_dept [] [] "t9" [file_zoe] st_two)
    as [Hcount [Hexts _]].
  split; [exact Hcount | exact Hexts].
Defined.

(** * The sync page from one run to the next *)

(** ** What the page holds when Apply is pressed *)

Lemma In_insert_sorted (x y : string) (l : list string) :
  In y (insert_sorted x l) <-> y = x \/ In y l.
Proof.
  induction l as [|z l IH]; simpl.
  - intuition.
  - destruct (String.ltb z x); simpl; rewrite ?IH; intuition.
Qed.

Lemma In_sorted (y : string) (l : list string) : In y (sorted l) <-> In y l.
Proof.
  unfold sorted. induction l as [|x l IH]; simpl; [reflexivity|].
  rewrite In_insert_sorted, IH. intuition.
Qed.

Lemma unresolved_dict_set (k d : string) (v : sync_action)
      (acts : list (string * sync_action)) :
  v <> Sync_map None ->
  unresolved acts k = false -> unresolved (dict_set d v acts) k = false.
Proof.
  intros Hv Hk. unfold unresolved in *.
  destruct (string_dec k d) as [-> | Hne].
  - rewrite dict_set_get_same. destruct v as [? ? | ? ? | [?|] | ];
      try reflexivity. congruence.
  - now rewrite dict_set_get_other.
Qed.

Lemma unresolved_dict_set_same (d : string) (v : sync_action)
      (acts : list (string * sync_action)) :
  v <> Sync_map None -> unresolved (dict_set d v acts) d = false.
Proof.
  intros Hv. unfold unresolved. rewrite dict_set_get_same.
  destruct v as [? ? | ? ? | [?|] | ]; try reflexivity. congruence.
Qed.

(** Drawing a department never takes a resolution away: it writes a
    complete entry or leaves the dict alone. *)
Lemma draw_dept_resolved (persisted : State) (d : string) (w : SyncWidgets)
      (acts : list (string * sync_action)) (k : string) :
  unresolved acts k = false ->
  unresolved (draw_dept persisted d w acts) k = false.
Proof.
  intros Hk. unfold draw_dept.
  destruct (w_action w).
  - destruct (_ && _)%bool; [assumption|].
    apply unresolved_dict_set; [discriminate | assumption].
  - destruct (filter _ _); [assumption|].
    destruct (truthy (w_merge w)); [| assumption].
    apply unresolved_dict_set; [discriminate | assumption].
  - destruct (truthy (w_map w)); [| assumption].
    apply unresolved_dict_set; [discriminate | assumption].
  - apply unresolved_dict_set; [discriminate | assumption].
Qed.

Lemma draw_fold_resolved (persisted : State) (widgets : string -> SyncWidgets)
      (l : list string) (k : string) :
  forall acts,
    unresolved acts k = false ->
    unresolved
      (fold_left (fun acts d => draw_dept persisted d (widgets d) acts) l acts)
      k = false.
Proof.
  induction l as [|d l IH]; intros acts Hk; simpl; [assumption|].
  apply IH. now apply draw_dept_resolved.
Qed.

Lemma draw_fold_first (persisted : State) (widgets : string -> SyncWidgets)
      (l : list string) (k : string) :
  In k l ->
  w_action (widgets k) = Radio_create -> w_rename (widgets k) = false ->
  forall acts,
    unresolved
      (fold_left (fun acts d => draw_dept persisted d (widgets d) acts) l acts)
      k = false.
Proof.
  intros Hin Hc Hr. induction l as [|d l IH]; intros acts; [destruct Hin|].
  simpl. destruct (string_dec d k) as [-> | Hne].
  - apply draw_fold_resolved. unfold draw_dept. rewrite Hc, Hr. simpl.
    apply unresolved_dict_set_same. discriminate.
  - apply IH. destruct Hin as [E | Hin]; [contradiction | assumption].
Qed.

(** Once the page has been drawn with its radios as they first are, every
    missing name has an entry and no later drawing removes it: whatever the
    widgets then show, the gate of the Apply button finds nothing
    incomplete. *)
Lemma sync_gate_never_fires (persisted : State)
      (first widgets : string -> SyncWidgets)
      (acts : list (string * sync_action)) :
  (forall d, In d (missing_depts persisted) ->
             w_action (first d) = Radio_create /\ w_rename (first d) = false) ->
  incomplete
    (draw_sync_page persisted widgets (draw_sync_page persisted first acts))
    (missing_depts persisted) = [].
Proof.
  intros Hfirst. apply no_member_nil. intros d Hd.
  unfold incomplete in Hd. apply filter_In in Hd. destruct Hd as [Hd Hun].
  unfold draw_sync_page in Hun.
  rewrite draw_fold_resolved in Hun; [discriminate|].
  destruct (Hfirst d Hd) as [Hc Hr].
  apply draw_fold_first; [now apply In_sorted | assumption | assumption].
Qed.

(** The page never writes a map entry without target: a batch free of
    such entries stays free of them however often the page is drawn, so
    the apply loop never meets one. *)
Lemma draw_sync_page_targets (persisted : State)
      (widgets : string -> SyncWidgets) (acts : list (string * sync_action)) :
  (forall item, In item acts -> snd item <> Sync_map None) ->
  forall item, In item (draw_sync_page persisted widgets acts) ->
               snd item <> Sync_map None.
Proof.
  unfold draw_sync_page. revert acts.
  induction (sorted (missing_depts persisted)) as [|d l IH];
    intros acts Hacts; simpl; [exact Hacts|].
  apply IH. intros item. unfold draw_dept.
  assert (Hset : forall v, v <> Sync_map None ->
                           In item (dict_set d v acts) ->
                           snd item <> Sync_map None).
  { intros v Hv Hin. apply In_dict_set in Hin.
    destruct Hin as [-> | Hin]; [exact Hv | now apply Hacts]. }
  destruct (w_action (widgets d)).
  - destruct (_ && _)%bool; [apply Hacts | apply Hset; discriminate].
  - destruct (filter _ _); [apply Hacts|].
    destruct (truthy (w_merge (widgets d)));
      [apply Hset; discriminate | apply Hacts].
  - destruct (truthy (w_map (widgets d)));
      [apply Hset; discriminate | apply Hacts].
  - apply Hset. discriminate.
Qed.

(** C6: the code departs from the claim.  The page is drawn once, which
    gives [Ops] and [Opns] the default create entries; the operator then
    switches [Opns] to "Map to Existing Department" without choosing a
    target (the page only warns) and [Ops] to "Remove", and presses Apply.
    The entry of [Opns] is still the create entry of the first drawing, the
    gate finds nothing incomplete, and the batch is applied: a department
    [Opns] is created and the employee of [Ops] is blanked, where the claim
    says the apply fails and leaves both tables as they were. *)
Theorem sync_apply_ignores_incomplete_choice :
  let first := draw_sync_page st_ops default_widgets [] in
  let batch := draw_sync_page st_ops widgets_stale first in
  let res := sync_page_apply st_ops widgets_stale first "t9" st_ops in
  In "Opns" (missing_depts st_ops)
  /\ w_action (widgets_stale "Opns") = Radio_map
  /\ w_map (widgets_stale "Opns") = ""
  /\ dict_get "Opns" batch
     = Some (Sync_create (Some "Opns") (Some "Synced from employee records"))
  /\ incomplete batch (missing_depts st_ops) = []
  /\ snd res = Success
  /\ map Department_Name (df_dept (fst res)) = ["IT"; "Opns"]
  /\ map Department (df_emp (fst res)) = [Str ""; Str "Opns"; Str "IT"]
  /\ map Department_Name (df_dept st_ops) = ["IT"]
  /\ map Department (df_emp st_ops) = [Str "Ops"; Str "Opns"; Str "IT"].
Proof.
  split; [vm_compute; right; now left|]. repeat split.
Qed.

(** ** "Select All -> Create New" on the page *)







